(** * HabitMaster: the statistics aggregation services

    A shallow embedding of [src/services/stats-service.ts],
    [src/services/focus-service.ts] and of the chart fallback of the
    Statistics page ([src/pages/Settings.tsx]), together with the properties
    of the streak, heatmap, monthly-rate and chart computations.

    Conventions of the embedding.
    - A JavaScript [Date] is its time value: milliseconds since the epoch, in [Z].
    - The ambient clock and the local time zone are explicit: a [clock] holds
      the instant every [new Date()] / [Date.now()] of one call reads, and the
      offset of local time from UTC.  The offset is fixed (no daylight-saving
      change inside the period looked at).
    - A calendar date text ['YYYY-MM-DD'] (column [completed_date], and
      [toISOString().split('T')[0]]) is the number of that day counted from
      1970-01-01.  The text is a one-to-one rendering of the day number, so
      [===] on texts is equality of day numbers and [new Date(text).getTime()]
      is the day number times 86400000.
    - A [Map] is an association list in insertion order.
    - The query client is external: a request either fails with a message or
      returns the rows of the table that pass every filter, in table order
      unless an [order] clause is given. *)

From Stdlib Require Import ZArith List String Ascii Bool Lia Floats.
From Stdlib Require Import DecimalString Sorted Permutation.
Import ListNotations.
Open Scope Z_scope.

Set Implicit Arguments.

(** ** The JavaScript runtime the services rely on *)

Module JS.

Definition msPerDay : Z := 86400000.
Definition msPerHour : Z := 3600000.

(** The clock of one call. *)
Record clock := { now : Z; tzOffset : Z }.

(** *** Calendar *)

(** Day number to (year, month 1..12, day of month), proleptic Gregorian. *)
Definition civil_from_days (z : Z) : Z * Z * Z :=
  let z := z + 719468 in
  let era := z / 146097 in
  let doe := z - era * 146097 in
  let yoe := (doe - doe / 1460 + doe / 36524 - doe / 146096) / 365 in
  let y := yoe + era * 400 in
  let doy := doe - (365 * yoe + yoe / 4 - yoe / 100) in
  let mp := (5 * doy + 2) / 153 in
  let d := doy - (153 * mp + 2) / 5 + 1 in
  let m := if mp <? 10 then mp + 3 else mp - 9 in
  (if m <=? 2 then y + 1 else y, m, d).

(** (year, month 1..12, day of month) to day number. *)
Definition days_from_civil (y m d : Z) : Z :=
  let y := if m <=? 2 then y - 1 else y in
  let era := y / 400 in
  let yoe := y - era * 400 in
  let doy := (153 * (if m >? 2 then m - 3 else m + 9) + 2) / 5 + d - 1 in
  let doe := yoe * 365 + yoe / 4 - yoe / 100 + doy in
  era * 146097 + doe - 719468.

(** *** [Date] in local time *)

Definition localTime (c : clock) (t : Z) : Z := t + tzOffset c.
Definition localDay (c : clock) (t : Z) : Z := localTime c t / msPerDay.

Definition getFullYear (c : clock) (t : Z) : Z :=
  let '(y, _, _) := civil_from_days (localDay c t) in y.
(** 0 = January. *)
Definition getMonth (c : clock) (t : Z) : Z :=
  let '(_, m, _) := civil_from_days (localDay c t) in m - 1.
Definition getDate (c : clock) (t : Z) : Z :=
  let '(_, _, d) := civil_from_days (localDay c t) in d.
(** 0 = Sunday; day 0 (1970-01-01) was a Thursday. *)
Definition getDay (c : clock) (t : Z) : Z := (localDay c t + 4) mod 7.
Definition getHours (c : clock) (t : Z) : Z :=
  (localTime c t mod msPerDay) / msPerHour.

(** [d.setHours(0, 0, 0, 0)]: local midnight of the day of [t]. *)
Definition setHours0 (c : clock) (t : Z) : Z :=
  localDay c t * msPerDay - tzOffset c.
(** [new Date(year, monthIndex, day)]: local midnight of that day; a day
    outside the month counts on into the neighbouring months. *)
Definition Date_local (c : clock) (year monthIndex day : Z) : Z :=
  days_from_civil year (monthIndex + 1) day * msPerDay - tzOffset c.
(** [d.setDate(dayValue)]: that day of the month of [t], counted on into
    the neighbouring months when out of range, at the same local time of
    day. *)
Definition setDate (c : clock) (t dayValue : Z) : Z :=
  Date_local c (getFullYear c t) (getMonth c t) dayValue
  + localTime c t mod msPerDay.

(** *** Calendar date texts *)

Definition isodate := Z.
(** [d.toISOString().split('T')[0]]: the UTC day of the instant. *)
Definition toISODate (t : Z) : isodate := t / msPerDay.
(** [new Date(text).getTime()] on a date-only text: UTC midnight. *)
Definition getTime (d : isodate) : Z := d * msPerDay.

(** *** Strings *)

Definition toString (n : Z) : string := NilZero.string_of_int (Z.to_int n).

Fixpoint repeat_ascii (n : nat) (a : ascii) : string :=
  match n with
  | O => EmptyString
  | S n' => String a (repeat_ascii n' a)
  end.

(** [s.padStart(len, '0')]. *)
Definition padStart0 (len : nat) (s : string) : string :=
  (repeat_ascii (len - String.length s) "0"%char ++ s)%string.

(** *** Arrays *)

Section Arrays.
Variable A : Type.

(** One step of a stable insertion: [x] stood before all of [l]. *)
Fixpoint insert_by (cmp : A -> A -> Z) (x : A) (l : list A) : list A :=
  match l with
  | [] => [x]
  | y :: l' =>
      if cmp x y <=? 0 then x :: y :: l' else y :: insert_by cmp x l'
  end.

(** [arr.sort(cmp)]: stable; [cmp a b > 0] puts [a] after [b]. *)
Fixpoint Array_sort (cmp : A -> A -> Z) (l : list A) : list A :=
  match l with
  | [] => []
  | x :: l' => insert_by cmp x (Array_sort cmp l')
  end.

Variable eqb : A -> A -> bool.

(** [[...new Set(arr)]]: the first occurrence of every value, in order. *)
Fixpoint Set_spread_from (seen : list A) (l : list A) : list A :=
  match l with
  | [] => []
  | x :: l' =>
      if existsb (eqb x) seen then Set_spread_from seen l'
      else x :: Set_spread_from (x :: seen) l'
  end.

Definition Set_spread (l : list A) : list A := Set_spread_from [] l.
End Arrays.

(** *** [Map], in insertion order *)

Section Maps.
Variables K V : Type.
Variable eqb : K -> K -> bool.

Definition Map := list (K * V).

Fixpoint Map_get (m : Map) (k : K) : option V :=
  match m with
  | [] => None
  | (k', v) :: m' => if eqb k k' then Some v else Map_get m' k
  end.

(** An existing key keeps its place; a new key goes last. *)
Fixpoint Map_set (m : Map) (k : K) (v : V) : Map :=
  match m with
  | [] => [(k, v)]
  | (k', v') :: m' =>
      if eqb k k' then (k', v) :: m' else (k', v') :: Map_set m' k v
  end.

(** [Array.from(m.entries())]. *)
Definition Map_entries (m : Map) : list (K * V) := m.
End Maps.

(** [x ?? d]. *)
Definition nullish (A : Type) (x : option A) (d : A) : A :=
  match x with Some a => a | None => d end.

(** *** Numbers *)

(** The double nearest to an integer. *)
Definition Number_of_Z (z : Z) : float :=
  SF2Prim (binary_normalize prec emax z 0 false).

(** [Math.round]: the nearest integer, ties towards +infinity.  Zeros,
    infinities and NaN are returned as they are, and a negative number that
    rounds to zero gives -0. *)
Definition Math_round (x : float) : float :=
  match Prim2SF x with
  | S754_finite s m e =>
      let n := if s then Z.neg m else Z.pos m in
      let r := if 0 <=? e then n * 2 ^ e
               else (2 * n + 2 ^ (- e)) / 2 ^ (1 - e) in
      if (r =? 0) && s then (-0)%float else Number_of_Z r
  | S754_zero _ | S754_infinity _ | S754_nan => x
  end.

End JS.

Notation "x ?? d" := (JS.nullish x d) (at level 45, left associativity).

(** ** The database ([src/lib/database.types.ts]) *)

Module Database.

Inductive Frequency := daily | weekly | custom.
Inductive Mode := work | break.

Definition Mode_eqb (a b : Mode) : bool :=
  match a, b with
  | work, work | break, break => true
  | _, _ => false
  end.

Module Tasks.
Record Row := {
  id : string;
  user_id : string;
  title : string;
  category : string;
  time : string;
  completed : bool;
  icon : string;
  color : string;
  frequency : Frequency;
  selected_days : list Z;
  reminder_enabled : bool;
  reminder_time : string;
  created_at : Z;
  updated_at : Z
}.
End Tasks.

Module FocusSessions.
Record Row := {
  id : string;
  user_id : string;
  duration_minutes : Z;
  mode : Mode;
  completed_at : Z;
  created_at : Z
}.
End FocusSessions.

Module HabitLogs.
Record Row := {
  id : string;
  user_id : string;
  task_id : string;
  completed_date : JS.isodate;
  created_at : Z
}.
End HabitLogs.

(** The three tables the services read. *)
Record Tables := {
  tasks : list Tasks.Row;
  focus_sessions : list FocusSessions.Row;
  habit_logs : list HabitLogs.Row
}.

End Database.

(** ** The query client ([supabase.from(t).select(..).eq(..).gte(..)]) *)

Module Supabase.

Inductive table := t_tasks | t_focus_sessions | t_habit_logs.

Record PostgrestError := { message : string }.

Record Response (A : Type) := {
  data : option (list A);
  error : option PostgrestError
}.

(** What the network does to a request on each table: [Some e] fails it. *)
Definition transport := table -> option PostgrestError.

(** A request: the rows passing the filters, ordered, the selected columns. *)
Definition request (R A : Type) (net : transport) (t : table)
    (rows : list R) (filters : R -> bool) (order : list R -> list R)
    (select : R -> A) : Response A :=
  match net t with
  | Some e => {| data := None; error := Some e |}
  | None =>
      {| data := Some (map select (order (filter filters rows)));
         error := None |}
  end.

Definition unordered (R : Type) (rows : list R) : list R := rows.

End Supabase.

(** An [async] function settles with a value or throws an [Error]. *)
Inductive Promise (A : Type) :=
| Resolved (a : A)
| Rejected (msg : string).
Arguments Rejected {A} msg.

(** ** [src/services/stats-service.ts] *)

Module StatsService.
Import Database Supabase.

Record HeatmapCell := { date : JS.isodate; count : Z; level : Z }.
Record StreakData := { currentStreak : Z; maxStreak : Z }.
Record MonthlyStats := { completed : Z; total : Z; rate : float }.

(** The count of one day mapped to the colour depth 0..3. *)
Definition level_of_count (count : Z) : Z :=
  let level := 0 in
  let level := if count >=? 1 then 1 else level in
  let level := if count >=? 3 then 2 else level in
  let level := if count >=? 5 then 3 else level in
  level.

(** [countMap.set(d, (countMap.get(d) ?? 0) + 1)] for every row. *)
Definition count_dates (data : list JS.isodate) : JS.Map JS.isodate Z :=
  fold_left
    (fun countMap completed_date =>
       JS.Map_set Z.eqb countMap completed_date
         (JS.Map_get Z.eqb countMap completed_date ?? 0 + 1))
    data [].

(** The body of the loop that builds the date sequence, at index [i]. *)
Definition heatmap_cell (c : JS.clock) (countMap : JS.Map JS.isodate Z)
    (i : Z) : HeatmapCell :=
  let date := JS.setDate c (JS.now c) (JS.getDate c (JS.now c) - i) in
  let dateStr := JS.toISODate date in
  let count := JS.Map_get Z.eqb countMap dateStr ?? 0 in
  {| date := dateStr; count := count; level := level_of_count count |}.

(** [for (let i = days; i >= 0; i--) result.push(..)], [cell i] being the
    cell pushed at index [i]. *)
Fixpoint heatmap_loop (fuel : nat) (cell : Z -> HeatmapCell) (i : Z)
    (result : list HeatmapCell) : list HeatmapCell :=
  match fuel with
  | O => result
  | S fuel' =>
      if i >=? 0
      then heatmap_loop fuel' cell (i - 1) (result ++ [cell i])
      else result
  end.

Definition getHabitHeatmap (c : JS.clock) (net : transport) (db : Tables)
    (userId : string) (days : Z) : Promise (list HeatmapCell) :=
  let startDate :=
    JS.setDate c (JS.now c) (JS.getDate c (JS.now c) - days) in
  let r :=
    request net t_habit_logs (habit_logs db)
      (fun log =>
         (HabitLogs.user_id log =? userId)%string
         && (JS.toISODate startDate <=? HabitLogs.completed_date log))
      (@unordered _) HabitLogs.completed_date in
  match error r with
  | Some e => Rejected ("获取热力图数据失败: " ++ message e)
  | None =>
      let countMap := count_dates (data r ?? []) in
      Resolved
        (heatmap_loop (Z.to_nat (days + 1)) (heatmap_cell c countMap) days [])
  end.

(** The gap in days between two neighbours of the sorted dates; both
    time values are UTC midnights, so the quotient is exact. *)
Definition diff (prev curr : JS.isodate) : Z :=
  (JS.getTime prev - JS.getTime curr) / 86400000.

(** [for (let i = 1; i < uniqueDates.length; i++)] of the current streak:
    [prev] is [uniqueDates[i - 1]], [rest] starts at [uniqueDates[i]]. *)
Fixpoint current_loop (prev : JS.isodate) (rest : list JS.isodate)
    (currentStreak : Z) : Z :=
  match rest with
  | [] => currentStreak
  | curr :: rest' =>
      if diff prev curr =? 1
      then current_loop curr rest' (currentStreak + 1)
      else currentStreak
  end.

(** The same walk for the highest streak; returns [maxStreak]. *)
Fixpoint max_loop (prev : JS.isodate) (rest : list JS.isodate)
    (tempStreak maxStreak : Z) : Z :=
  match rest with
  | [] => maxStreak
  | curr :: rest' =>
      if diff prev curr =? 1
      then max_loop curr rest' (tempStreak + 1)
             (Z.max maxStreak (tempStreak + 1))
      else max_loop curr rest' 1 maxStreak
  end.

(** [[...new Set(data.map((d) => d.completed_date))].sort(..)]: every
    logged date once, latest first. *)
Definition uniqueDates_of (data : list JS.isodate) : list JS.isodate :=
  JS.Array_sort (fun a b => JS.getTime b - JS.getTime a)
    (JS.Set_spread Z.eqb data).

(** The part of [getStreakData] after the rows have arrived. *)
Definition streak_of_dates (c : JS.clock) (data : list JS.isodate)
    : StreakData :=
  let uniqueDates := uniqueDates_of data in
  let today := JS.toISODate (JS.now c) in
  let yesterday := JS.toISODate (JS.now c - 86400000) in
  match uniqueDates with
  | [] => {| currentStreak := 0; maxStreak := 0 |}
  | first :: rest =>
      let currentStreak :=
        if (first =? today) || (first =? yesterday)
        then current_loop first rest 1
        else 0 in
      let maxStreak := max_loop first rest 1 0 in
      {| currentStreak := currentStreak;
         maxStreak := Z.max maxStreak currentStreak |}
  end.

Definition getStreakData (c : JS.clock) (net : transport) (db : Tables)
    (userId : string) : Promise StreakData :=
  let r :=
    request net t_habit_logs (habit_logs db)
      (fun log => (HabitLogs.user_id log =? userId)%string)
      (JS.Array_sort
         (fun a b => HabitLogs.completed_date b - HabitLogs.completed_date a))
      HabitLogs.completed_date in
  match error r with
  | Some e => Rejected ("获取连续天数失败: " ++ message e)
  | None =>
      match data r with
      | None | Some [] => Resolved {| currentStreak := 0; maxStreak := 0 |}
      | Some data => Resolved (streak_of_dates c data)
      end
  end.

(** [total > 0 ? Math.round((completed / total) * 100) : 0]. *)
Definition rate_of (completed total : Z) : float :=
  if total >? 0
  then JS.Math_round
         (PrimFloat.mul
            (PrimFloat.div (JS.Number_of_Z completed) (JS.Number_of_Z total))
            100%float)
  else 0%float.

Definition getMonthlyStats (c : JS.clock) (net : transport) (db : Tables)
    (userId : string) : Promise MonthlyStats :=
  let now := JS.now c in
  let monthStart :=
    JS.toISODate
      (JS.Date_local c (JS.getFullYear c now) (JS.getMonth c now) 1) in
  let r :=
    request net t_habit_logs (habit_logs db)
      (fun log =>
         (HabitLogs.user_id log =? userId)%string
         && (monthStart <=? HabitLogs.completed_date log))
      (@unordered _) HabitLogs.id in
  match error r with
  | Some e => Rejected ("获取月度统计失败: " ++ message e)
  | None =>
      let completed :=
        match data r with
        | Some d => Z.of_nat (List.length d)
        | None => 0
        end in
      let daysElapsed := JS.getDate c now in
      let tasks :=
        data (request net t_tasks (Database.tasks db)
                (fun task => (Tasks.user_id task =? userId)%string)
                (@unordered _) Tasks.id) in
      let taskCount :=
        match tasks with
        | Some d => Z.of_nat (List.length d)
        | None => 0
        end in
      let total := taskCount * daysElapsed in
      Resolved
        {| completed := completed; total := total;
           rate := rate_of completed total |}
  end.

End StatsService.

(** ** [src/services/focus-service.ts] *)

Module FocusService.
Import Database Supabase.

(** The statistics dimension: ['日' | '周' | '月' | '年']. *)
Inductive Period := period_day | period_week | period_month | period_year.

Record TodayFocusStats := { completedCount : Z; totalMinutes : Z }.
Record ChartPoint := { name : string; value : Z }.

Definition getTodayFocusStats (c : JS.clock) (net : transport) (db : Tables)
    (userId : string) : Promise TodayFocusStats :=
  let todayStart := JS.setHours0 c (JS.now c) in
  let r :=
    request net t_focus_sessions (focus_sessions db)
      (fun s =>
         (FocusSessions.user_id s =? userId)%string
         && Mode_eqb (FocusSessions.mode s) work
         && (todayStart <=? FocusSessions.completed_at s))
      (@unordered _)
      (fun s => (FocusSessions.duration_minutes s, FocusSessions.mode s)) in
  match error r with
  | Some e => Rejected ("获取专注统计失败: " ++ message e)
  | None =>
      let sessions := data r ?? [] in
      Resolved
        {| completedCount := Z.of_nat (List.length sessions);
           totalMinutes := fold_left (fun sum s => sum + fst s) sessions 0 |}
  end.

(** The lower time bound of a period (the first [switch]). *)
Definition startDate_of (c : JS.clock) (period : Period) : Z :=
  let now := JS.now c in
  match period with
  | period_day => JS.setHours0 c now
  | period_week => JS.setHours0 c (JS.setDate c now (JS.getDate c now - 6))
  | period_month => JS.Date_local c (JS.getFullYear c now) (JS.getMonth c now) 1
  | period_year => JS.Date_local c (JS.getFullYear c now) 0 1
  end.

Definition days : list string :=
  ["周日"; "周一"; "周二"; "周三"; "周四"; "周五"; "周六"]%string.
Definition quarters : list string := ["Q1"; "Q2"; "Q3"; "Q4"]%string.

(** The bucket key of a session completed at [date] (the second [switch]).
    [Math.ceil(d / 7)] is [(d + 6) / 7] and [Math.floor(m / 3)] is [m / 3]
    on the integers; both array indices are always in range. *)
Definition bucket_key (c : JS.clock) (period : Period) (date : Z) : string :=
  match period with
  | period_day =>
      (JS.padStart0 2 (JS.toString (JS.getHours c date)) ++ ":00")%string
  | period_week => nth (Z.to_nat (JS.getDay c date)) days "undefined"%string
  | period_month =>
      (JS.toString ((JS.getDate c date + 6) / 7) ++ "周")%string
  | period_year =>
      nth (Z.to_nat (JS.getMonth c date / 3)) quarters "undefined"%string
  end.

(** [sessions.forEach(..)]: add every session to its bucket. *)
Definition aggregate (c : JS.clock) (period : Period)
    (sessions : list (Z * Z)) : JS.Map string Z :=
  fold_left
    (fun aggregated session =>
       let '(duration_minutes, completed_at) := session in
       let key := bucket_key c period completed_at in
       JS.Map_set String.eqb aggregated key
         (JS.Map_get String.eqb aggregated key ?? 0 + duration_minutes))
    sessions [].

Definition getFocusChartData (c : JS.clock) (net : transport) (db : Tables)
    (userId : string) (period : Period) : Promise (list ChartPoint) :=
  let startDate := startDate_of c period in
  let r :=
    request net t_focus_sessions (focus_sessions db)
      (fun s =>
         (FocusSessions.user_id s =? userId)%string
         && Mode_eqb (FocusSessions.mode s) work
         && (startDate <=? FocusSessions.completed_at s))
      (@unordered _)
      (fun s =>
         (FocusSessions.duration_minutes s, FocusSessions.completed_at s)) in
  match error r with
  | Some e => Rejected ("获取图表数据失败: " ++ message e)
  | None =>
      let sessions := data r ?? [] in
      let aggregated := aggregate c period sessions in
      Resolved
        (map (fun '(name, value) => {| name := name; value := value |})
           (JS.Map_entries aggregated))
  end.

End FocusService.

(** ** The Statistics page ([src/pages/Settings.tsx]) *)

Module Statistics.
Import FocusService.

Definition zero_point (n : string) : ChartPoint := {| name := n; value := 0 |}.

(** The default figure shown when there is no data. *)
Definition getDefaultChartData (period : Period) : list ChartPoint :=
  match period with
  | period_day =>
      [ {| name := "00:00"; value := 0 |}; {| name := "06:00"; value := 0 |};
        {| name := "12:00"; value := 0 |}; {| name := "18:00"; value := 0 |};
        {| name := "23:59"; value := 0 |} ]
  | period_week =>
      map zero_point
        ["周一"; "周二"; "周三"; "周四"; "周五"; "周六"; "周日"]%string
  | period_month => map zero_point ["1周"; "2周"; "3周"; "4周"]%string
  | period_year => map zero_point ["Q1"; "Q2"; "Q3"; "Q4"]%string
  end.

(** [chart.length > 0 ? chart : getDefaultChartData(activePeriod)]. *)
Definition chartData_of (chart : list ChartPoint) (activePeriod : Period)
    : list ChartPoint :=
  if (0 <? Z.of_nat (List.length chart)) then chart
  else getDefaultChartData activePeriod.

End Statistics.

(** ** Vocabulary of the statements *)

Module Reading.
Import Database Supabase.

(** The calendar day of the evaluation instant, and the day before. *)
Definition today (c : JS.clock) : JS.isodate := JS.toISODate (JS.now c).
Definition yesterday (c : JS.clock) : JS.isodate := today c - 1.

(** A network on which every request succeeds. *)
Definition online : transport := fun _ => None.

(** The rows of one owner. *)
Definition own_logs (u : string) (db : Tables) : list HabitLogs.Row :=
  filter (fun log => (HabitLogs.user_id log =? u)%string) (habit_logs db).
Definition own_tasks (u : string) (db : Tables) : list Tasks.Row :=
  filter (fun t => (Tasks.user_id t =? u)%string) (tasks db).
Definition own_sessions (u : string) (db : Tables) : list FocusSessions.Row :=
  filter (fun s => (FocusSessions.user_id s =? u)%string) (focus_sessions db).

(** Two database states that agree on the rows of owner [u]. *)
Definition same_rows_of (u : string) (db1 db2 : Tables) : Prop :=
  own_logs u db1 = own_logs u db2
  /\ own_tasks u db1 = own_tasks u db2
  /\ own_sessions u db1 = own_sessions u db2.

(** The completion dates of an owner, one per logged row. *)
Definition completion_dates (u : string) (db : Tables) : list JS.isodate :=
  map HabitLogs.completed_date (own_logs u db).

(** How many completions an owner logged on day [d]. *)
Definition completions_on (u : string) (db : Tables) (d : JS.isodate) : Z :=
  Z.of_nat (List.length (filter (Z.eqb d) (completion_dates u db))).

(** The work sessions of an owner completed at or after [bound]. *)
Definition work_sessions_since (u : string) (db : Tables) (bound : Z)
    : list FocusSessions.Row :=
  filter
    (fun s =>
       Mode_eqb (FocusSessions.mode s) work
       && (bound <=? FocusSessions.completed_at s))
    (own_sessions u db).

Definition sum (l : list Z) : Z := fold_right Z.add 0 l.

(** Local midnight of the evaluation day. *)
Definition today_start (c : JS.clock) : Z := JS.setHours0 c (JS.now c).

(** The [monthStart] text of [getMonthlyStats]. *)
Definition month_start (c : JS.clock) : JS.isodate :=
  JS.toISODate
    (JS.Date_local c (JS.getFullYear c (JS.now c)) (JS.getMonth c (JS.now c)) 1).

(** The rows of an owner dated [d] or later. *)
Definition completed_since (u : string) (db : Tables) (d : JS.isodate) : Z :=
  Z.of_nat
    (List.length
       (filter (fun log => d <=? HabitLogs.completed_date log) (own_logs u db))).

(** The number of tasks of an owner, as [getMonthlyStats] learns it: a
    failed request on [tasks] counts as no task. *)
Definition habit_count (net : transport) (u : string) (db : Tables) : Z :=
  match net t_tasks with
  | Some _ => 0
  | None => Z.of_nat (List.length (own_tasks u db))
  end.

(** The minutes of the sessions of [l] whose bucket key is [k]. *)
Definition bucket_minutes (c : JS.clock) (p : FocusService.Period)
    (l : list FocusSessions.Row) (k : string) : Z :=
  sum (map FocusSessions.duration_minutes
         (filter
            (fun s =>
               (FocusService.bucket_key c p (FocusSessions.completed_at s)
                =? k)%string)
            l)).

(** The bucket keys of the sessions of [l], in the order of [l]. *)
Definition bucket_keys (c : JS.clock) (p : FocusService.Period)
    (l : list FocusSessions.Row) : list string :=
  map (fun s => FocusService.bucket_key c p (FocusSessions.completed_at s)) l.

(** Folding a list into a [Map] of running totals, as both services do. *)
Definition accumulate (K A : Type) (eqb : K -> K -> bool) (key : A -> K)
    (amount : A -> Z) (l : list A) (m : JS.Map K Z) : JS.Map K Z :=
  fold_left
    (fun m a =>
       JS.Map_set eqb m (key a) (JS.Map_get eqb m (key a) ?? 0 + amount a))
    l m.

Definition total_for (K A : Type) (eqb : K -> K -> bool) (key : A -> K)
    (amount : A -> Z) (k : K) (l : list A) : Z :=
  sum (map amount (filter (fun a => eqb (key a) k) l)).

(** The natural order of the bucket labels of a period: the hours of a
    day, Monday to Sunday, the weeks of a month, the quarters. *)
Definition hour_label (h : Z) : string :=
  (JS.padStart0 2 (JS.toString h) ++ ":00")%string.

Definition natural_labels (p : FocusService.Period) : list string :=
  match p with
  | FocusService.period_day => map (fun h => hour_label (Z.of_nat h)) (seq 0 24)
  | FocusService.period_week =>
      ["周一"; "周二"; "周三"; "周四"; "周五"; "周六"; "周日"]%string
  | FocusService.period_month => ["1周"; "2周"; "3周"; "4周"; "5周"]%string
  | FocusService.period_year => ["Q1"; "Q2"; "Q3"; "Q4"]%string
  end.

Fixpoint index_of (s : string) (l : list string) : option nat :=
  match l with
  | [] => None
  | x :: l' =>
      if (s =? x)%string then Some O
      else match index_of s l' with Some i => Some (S i) | None => None end
  end.

Fixpoint increasing (l : list (option nat)) : bool :=
  match l with
  | Some i :: ((Some j :: _) as l') => (i <? j)%nat && increasing l'
  | [Some _] | [] => true
  | _ => false
  end.

(** The names follow the natural order of the labels of the period. *)
Definition in_natural_order (p : FocusService.Period) (names : list string)
    : bool :=
  increasing (map (fun n => index_of n (natural_labels p)) names).

(** A label the aggregator can emit for a period: the key of some session
    under some clock. *)
Definition bucket_label (p : FocusService.Period) (label : string) : Prop :=
  exists c t, FocusService.bucket_key c p t = label.

End Reading.

(** ** Sample data *)

Module Samples.
Import Database Supabase.

(** 2024-03-15, 13:30 UTC, read in a zone eight hours ahead (21:30). *)
Definition friday : JS.isodate := 19797.
Definition clk : JS.clock :=
  {| JS.now := friday * 86400000 + 48600000; JS.tzOffset := 28800000 |}.

Definition log (u task : string) (d : JS.isodate) : HabitLogs.Row :=
  {| HabitLogs.id := (task ++ "/" ++ JS.toString d)%string;
     HabitLogs.user_id := u; HabitLogs.task_id := task;
     HabitLogs.completed_date := d;
     HabitLogs.created_at := d * 86400000 |}.

Definition logs_on (u : string) (tasks : list string) (d : JS.isodate)
    : list HabitLogs.Row :=
  map (fun task => log u task d) tasks.

Definition only_logs (logs : list HabitLogs.Row) : Tables :=
  {| tasks := []; focus_sessions := []; habit_logs := logs |}.

(** Counts 0, 2, 4, 6 on the four days up to today, and a row of another
    owner on the first of them. *)
Definition heat_db : Tables :=
  only_logs
    (logs_on "u" ["a"; "b"]%string (friday - 2)
     ++ log "v" "z" (friday - 3)
        :: logs_on "u" ["a"; "b"; "c"; "d"]%string (friday - 1)
     ++ logs_on "u" ["a"; "b"; "c"; "d"; "e"; "f"]%string friday).

Definition heat_cells : list StatsService.HeatmapCell :=
  [ {| StatsService.date := friday - 3; StatsService.count := 0;
       StatsService.level := 0 |};
    {| StatsService.date := friday - 2; StatsService.count := 2;
       StatsService.level := 1 |};
    {| StatsService.date := friday - 1; StatsService.count := 4;
       StatsService.level := 2 |};
    {| StatsService.date := friday; StatsService.count := 6;
       StatsService.level := 3 |} ].

(** One completion, five days ago. *)
Definition lone_old_db : Tables := only_logs [log "u" "a" (friday - 5)].

(** Today, the two days before, and a day further back. *)
Definition run_db : Tables :=
  only_logs
    [ log "u" "a" (friday - 5); log "u" "a" friday; log "u" "b" friday;
      log "v" "a" (friday - 3); log "u" "a" (friday - 2);
      log "u" "b" (friday - 1) ].

(** The latest completion is two days old. *)
Definition stale_db : Tables :=
  only_logs [ log "u" "a" (friday - 3); log "u" "a" (friday - 2) ].

(** Today, and a row dated the day after tomorrow. *)
Definition ahead_db : Tables :=
  only_logs [ log "u" "a" friday; log "u" "a" (friday + 2) ].

Definition task (u id : string) : Tasks.Row :=
  {| Tasks.id := id; Tasks.user_id := u; Tasks.title := id;
     Tasks.category := "健康"; Tasks.time := "08:00";
     Tasks.completed := false; Tasks.icon := "check"; Tasks.color := "blue";
     Tasks.frequency := daily; Tasks.selected_days := [];
     Tasks.reminder_enabled := false; Tasks.reminder_time := "08:00";
     Tasks.created_at := 0; Tasks.updated_at := 0 |}.

(** 2024-03-01, 02:00 UTC, in the same zone (10:00 local time). *)
Definition first_of_march : JS.isodate := 19783.
Definition clk_first : JS.clock :=
  {| JS.now := first_of_march * 86400000 + 7200000; JS.tzOffset := 28800000 |}.

(** One task left, and two completions on the first day of the month, one
    of them of a task that has since been deleted. *)
Definition overfull_db : Tables :=
  {| tasks := [task "u" "a"; task "v" "c"];
     focus_sessions := [];
     habit_logs := [log "u" "a" first_of_march; log "u" "b" first_of_march] |}.

Definition session (u : string) (minutes : Z) (m : Mode) (t : Z)
    : FocusSessions.Row :=
  {| FocusSessions.id := JS.toString t; FocusSessions.user_id := u;
     FocusSessions.duration_minutes := minutes; FocusSessions.mode := m;
     FocusSessions.completed_at := t; FocusSessions.created_at := t |}.

(** The instant at which a clock of the zone of [clk] shows [h]:[mi] on
    the day [d]. *)
Definition local_time (d : JS.isodate) (h mi : Z) : Z :=
  d * 86400000 + h * 3600000 + mi * 60000 - 28800000.

Definition only_sessions (sessions : list FocusSessions.Row) : Tables :=
  {| tasks := []; focus_sessions := sessions; habit_logs := [] |}.

(** Four work sessions of 25 minutes at 9, 9, 14 and 20 o'clock today,
    among a break, a session of another owner and one of yesterday. *)
Definition pomodoro_db : Tables :=
  only_sessions
    [ session "u" 25 work (local_time friday 9 5);
      session "u" 5 break (local_time friday 9 30);
      session "u" 25 work (local_time friday 9 40);
      session "v" 25 work (local_time friday 10 40);
      session "u" 25 work (local_time (friday - 1) 23 50);
      session "u" 25 work (local_time friday 14 10);
      session "u" 25 work (local_time friday 20 0) ].

(** The same owner with other rows around. *)
Definition pomodoro_db' : Tables :=
  {| tasks := [task "v" "c"];
     focus_sessions :=
       [ session "u" 25 work (local_time friday 9 5);
         session "u" 5 break (local_time friday 9 30);
         session "w" 50 work (local_time friday 9 35);
         session "u" 25 work (local_time friday 9 40);
         session "u" 25 work (local_time (friday - 1) 23 50);
         session "u" 25 work (local_time friday 14 10);
         session "u" 25 work (local_time friday 20 0) ];
     habit_logs := [log "v" "c" friday] |}.

(** The afternoon session is stored before the morning one. *)
Definition afternoon_first_db : Tables :=
  only_sessions
    [ session "u" 25 work (local_time friday 14 10);
      session "u" 25 work (local_time friday 9 5) ].

(** Breaks only. *)
Definition breaks_db : Tables :=
  only_sessions
    [ session "u" 5 break (local_time friday 9 30);
      session "u" 15 break (local_time friday 11 0) ].

(** A clock at UTC. *)
Definition utc : JS.clock := {| JS.now := 0; JS.tzOffset := 0 |}.

End Samples.

(** ** Further vocabulary *)

Module Terms.
Import Database Supabase Reading.

(** The [r] consecutive days ending on [d] are all among [dates]. *)
Definition run_of (dates : list JS.isodate) (d r : Z) : Prop :=
  forall j, 0 <= j < r -> In (d - j) dates.

(** The number of different days on which an owner logged a completion. *)
Definition distinct_days (u : string) (db : Tables) : Z :=
  Z.of_nat (List.length (StatsService.uniqueDates_of (completion_dates u db))).

(** The owner's logs dated from [first] to [last]. *)
Definition logs_between (u : string) (db : Tables) (first last : JS.isodate)
    : list HabitLogs.Row :=
  filter
    (fun log =>
       (first <=? HabitLogs.completed_date log)
       && (HabitLogs.completed_date log <=? last))
    (own_logs u db).

(** The first day of the local month of the evaluation instant. *)
Definition first_of_month (c : JS.clock) : JS.isodate :=
  JS.localDay c (JS.now c) - (JS.getDate c (JS.now c) - 1).

(** The colours of the heatmap of the Statistics page, by level. *)
Definition heatmapColors : list string :=
  ["bg-primary/10"; "bg-primary/30"; "bg-primary/60"; "bg-primary"]%string.

End Terms.

(** ** Further sample data *)

Module MoreSamples.
Import Database Supabase Samples.

(** Yesterday and the day before, nothing today. *)
Definition yesterday_db : Tables :=
  only_logs [ log "u" "a" (friday - 2); log "u" "b" (friday - 1);
              log "u" "a" (friday - 1) ].

(** The same days as [run_db], logged by other habits in another order. *)
Definition run_db' : Tables :=
  only_logs
    [ log "u" "c" (friday - 1); log "u" "c" (friday - 2);
      log "u" "c" friday; log "u" "c" (friday - 5) ].

(** One task, completed on the last day of February and on the first of
    March. *)
Definition turn_of_month_db : Tables :=
  {| tasks := [task "u" "a"];
     focus_sessions := [];
     habit_logs := [ log "u" "a" (first_of_march - 1);
                     log "u" "a" first_of_march ] |}.

End MoreSamples.

(** ** The database as the writing services see it

    What the database script ([database/schema.sql], the second half of
    [src/unnamed/part_002]) declares and the query client does on writes:
    - [id] is the primary key of every table, drawn by [gen_random_uuid()]
      when the row gives none; [created_at] and [updated_at] default to
      [NOW()], and a trigger sets [updated_at] to [NOW()] on every update of
      [tasks] and [user_profiles];
    - [habit_logs] is unique on (user_id, task_id, completed_date),
      [user_profiles] on [user_id], and a log is deleted with its task
      ([ON DELETE CASCADE]);
    - the numeric columns are [INTEGER];
    - [.single()] fails with code PGRST116 unless exactly one row is
      returned, and a failed request leaves the tables as they were.
    The values the server draws during one call are explicit, like the
    clock.  The caller is signed in as the user whose id it passes, as
    the pages do ([user.id] of the session), so that the row policies
    ([auth.uid() = user_id]) and the reference to [auth.users] hold. *)

Module Postgres.
Import Database Supabase.

Record server := {
  NOW : Z;
  gen_random_uuid : string;
  (** The texts of the errors the server raises. *)
  not_single : string;
  duplicate_key : string;
  out_of_range : string
}.

(** An error with its [code]. *)
Record Coded := { code : string; cause : PostgrestError }.

Definition PGRST116 (srv : server) : Coded :=
  {| code := "PGRST116"; cause := {| message := not_single srv |} |}.
Definition unique_violation (srv : server) : Coded :=
  {| code := "23505"; cause := {| message := duplicate_key srv |} |}.
Definition numeric_value_out_of_range (srv : server) : Coded :=
  {| code := "22003"; cause := {| message := out_of_range srv |} |}.

(** The values an [INTEGER] column takes. *)
Definition int4 (z : Z) : bool :=
  (-2147483648 <=? z) && (z <=? 2147483647).

(** [.single()] over the rows a request returns: the row or the error. *)
Definition single (R : Type) (srv : server) (rows : list R) : R + Coded :=
  match rows with
  | [r] => inl r
  | _ => inr (PGRST116 srv)
  end.

Definition with_tasks (db : Tables) (rows : list Tasks.Row) : Tables :=
  {| tasks := rows; focus_sessions := focus_sessions db;
     habit_logs := habit_logs db |}.
Definition with_focus_sessions (db : Tables)
    (rows : list FocusSessions.Row) : Tables :=
  {| tasks := tasks db; focus_sessions := rows; habit_logs := habit_logs db |}.
Definition with_habit_logs (db : Tables) (rows : list HabitLogs.Row)
    : Tables :=
  {| tasks := tasks db; focus_sessions := focus_sessions db;
     habit_logs := rows |}.

End Postgres.

(** ** The task service (second half of [src/services/stats-service.ts]) *)

Module TaskService.
Import Database Supabase Postgres.

(** [TaskInsert]: the optional columns are filled by the database. *)
Record TaskInsert := {
  ins_id : option string;
  ins_user_id : string;
  ins_title : string;
  ins_category : string;
  ins_time : string;
  ins_completed : option bool;
  ins_icon : string;
  ins_color : string;
  ins_frequency : option Frequency;
  ins_selected_days : option (list Z);
  ins_reminder_enabled : option bool;
  ins_reminder_time : option string;
  ins_created_at : option Z;
  ins_updated_at : option Z
}.

Definition getTodayTasks (net : transport) (db : Tables) (userId : string)
    : Promise (list Tasks.Row) :=
  let r :=
    request net t_tasks (tasks db)
      (fun task => (Tasks.user_id task =? userId)%string)
      (JS.Array_sort (fun a b => Tasks.created_at b - Tasks.created_at a))
      (fun task => task) in
  match error r with
  | Some e => Rejected ("获取任务失败: " ++ message e)
  | None => Resolved (data r ?? [])
  end.

(** The row the database stores for an insert. *)
Definition inserted_task (srv : server) (task : TaskInsert) : Tasks.Row :=
  {| Tasks.id := ins_id task ?? gen_random_uuid srv;
     Tasks.user_id := ins_user_id task;
     Tasks.title := ins_title task;
     Tasks.category := ins_category task;
     Tasks.time := ins_time task;
     Tasks.completed := ins_completed task ?? false;
     Tasks.icon := ins_icon task;
     Tasks.color := ins_color task;
     Tasks.frequency := ins_frequency task ?? daily;
     Tasks.selected_days := ins_selected_days task ?? [0; 1; 2; 3; 4];
     Tasks.reminder_enabled := ins_reminder_enabled task ?? true;
     Tasks.reminder_time := ins_reminder_time task ?? "08:30"%string;
     Tasks.created_at := ins_created_at task ?? NOW srv;
     Tasks.updated_at := ins_updated_at task ?? NOW srv |}.

Definition createTask (srv : server) (net : transport) (db : Tables)
    (task : TaskInsert) : Promise Tasks.Row * Tables :=
  match net t_tasks with
  | Some e => (Rejected ("创建任务失败: " ++ message e), db)
  | None =>
      let row := inserted_task srv task in
      if negb (forallb int4 (Tasks.selected_days row))
      then (Rejected ("创建任务失败: " ++ out_of_range srv), db)
      else if existsb (fun r => (Tasks.id r =? Tasks.id row)%string)
                (tasks db)
      then (Rejected ("创建任务失败: " ++ duplicate_key srv), db)
      else (Resolved row, with_tasks db (tasks db ++ [row]))
  end.

(** [update({ completed, updated_at: now })] followed by the trigger. *)
Definition toggled (srv : server) (now : Z) (completed : bool)
    (r : Tasks.Row) : Tasks.Row :=
  let patched :=
    {| Tasks.id := Tasks.id r; Tasks.user_id := Tasks.user_id r;
       Tasks.title := Tasks.title r; Tasks.category := Tasks.category r;
       Tasks.time := Tasks.time r; Tasks.completed := completed;
       Tasks.icon := Tasks.icon r; Tasks.color := Tasks.color r;
       Tasks.frequency := Tasks.frequency r;
       Tasks.selected_days := Tasks.selected_days r;
       Tasks.reminder_enabled := Tasks.reminder_enabled r;
       Tasks.reminder_time := Tasks.reminder_time r;
       Tasks.created_at := Tasks.created_at r;
       Tasks.updated_at := now |} in
  {| Tasks.id := Tasks.id patched; Tasks.user_id := Tasks.user_id patched;
     Tasks.title := Tasks.title patched;
     Tasks.category := Tasks.category patched;
     Tasks.time := Tasks.time patched;
     Tasks.completed := Tasks.completed patched;
     Tasks.icon := Tasks.icon patched; Tasks.color := Tasks.color patched;
     Tasks.frequency := Tasks.frequency patched;
     Tasks.selected_days := Tasks.selected_days patched;
     Tasks.reminder_enabled := Tasks.reminder_enabled patched;
     Tasks.reminder_time := Tasks.reminder_time patched;
     Tasks.created_at := Tasks.created_at patched;
     Tasks.updated_at := NOW srv |}.

(** The rows [.eq('id', id).eq('user_id', userId)] selects. *)
Definition is_task (id userId : string) (r : Tasks.Row) : bool :=
  (Tasks.id r =? id)%string && (Tasks.user_id r =? userId)%string.

Definition same_log (userId taskId : string) (d : JS.isodate)
    (log : HabitLogs.Row) : bool :=
  (HabitLogs.user_id log =? userId)%string
  && (HabitLogs.task_id log =? taskId)%string
  && (HabitLogs.completed_date log =? d).

(** [upsert(row, { onConflict: 'user_id,task_id,completed_date' })]: a
    row of the same triple is kept as it is (the update on conflict writes
    the values the row has, where the policies allow it at all),
    otherwise the row is inserted.  The result is not looked at, so a
    failure only leaves the table unchanged. *)
Definition upsert_log (srv : server) (net : transport) (db : Tables)
    (userId taskId : string) (d : JS.isodate) : Tables :=
  match net t_habit_logs with
  | Some _ => db
  | None =>
      if existsb (same_log userId taskId d) (habit_logs db) then db
      else if existsb
                (fun log => (HabitLogs.id log =? gen_random_uuid srv)%string)
                (habit_logs db)
      then db
      else
        with_habit_logs db
          (habit_logs db
           ++ [ {| HabitLogs.id := gen_random_uuid srv;
                   HabitLogs.user_id := userId;
                   HabitLogs.task_id := taskId;
                   HabitLogs.completed_date := d;
                   HabitLogs.created_at := NOW srv |} ])
  end.

Definition toggleTask (c : JS.clock) (srv : server) (net : transport)
    (db : Tables) (id userId : string) (completed : bool)
    : Promise Tasks.Row * Tables :=
  let now := JS.now c in
  match net t_tasks with
  | Some e => (Rejected ("更新任务状态失败: " ++ message e), db)
  | None =>
      match single srv (filter (is_task id userId) (tasks db)) with
      | inr e =>
          (Rejected ("更新任务状态失败: " ++ message (cause e)), db)
      | inl row =>
          let data := toggled srv now completed row in
          let db1 :=
            with_tasks db
              (map (fun r => if is_task id userId r
                             then toggled srv now completed r else r)
                 (tasks db)) in
          let today := JS.toISODate (JS.now c) in
          let db2 :=
            if completed then upsert_log srv net db1 userId id today
            else db1 in
          (Resolved data, db2)
      end
  end.

(** The rows [delete()] removes, and the logs that go with them. *)
Definition deleteTask (net : transport) (db : Tables) (id userId : string)
    : Promise unit * Tables :=
  match net t_tasks with
  | Some e => (Rejected ("删除任务失败: " ++ message e), db)
  | None =>
      let deleted := filter (is_task id userId) (tasks db) in
      let kept := filter (fun r => negb (is_task id userId r)) (tasks db) in
      let logs :=
        filter
          (fun log =>
             negb (existsb
                     (fun r => (Tasks.id r =? HabitLogs.task_id log)%string)
                     deleted))
          (habit_logs db) in
      (Resolved tt,
       {| tasks := kept; focus_sessions := focus_sessions db;
          habit_logs := logs |})
  end.

End TaskService.

(** ** The writing half of [src/services/focus-service.ts] *)

Module FocusLog.
Import Database Supabase Postgres.

Definition recordFocusSession (c : JS.clock) (srv : server)
    (net : transport) (db : Tables) (userId : string)
    (durationMinutes : Z) (mode : Mode)
    : Promise FocusSessions.Row * Tables :=
  match net t_focus_sessions with
  | Some e => (Rejected ("记录专注会话失败: " ++ message e), db)
  | None =>
      let row :=
        {| FocusSessions.id := gen_random_uuid srv;
           FocusSessions.user_id := userId;
           FocusSessions.duration_minutes := durationMinutes;
           FocusSessions.mode := mode;
           FocusSessions.completed_at := JS.now c;
           FocusSessions.created_at := NOW srv |} in
      if negb (int4 durationMinutes)
      then (Rejected ("记录专注会话失败: " ++ out_of_range srv), db)
      else if existsb
                (fun r => (FocusSessions.id r =? FocusSessions.id row)%string)
                (focus_sessions db)
      then (Rejected ("记录专注会话失败: " ++ duplicate_key srv), db)
      else (Resolved row, with_focus_sessions db (focus_sessions db ++ [row]))
  end.

End FocusLog.

(** ** [src/services/profile-service.ts] *)

Module ProfileService.
Import Database Supabase Postgres.

Module UserProfiles.
Record Row := {
  id : string;
  user_id : string;
  nickname : string;
  email : string;
  avatar_url : option string;
  level : Z;
  xp : Z;
  rank : string;
  streak : Z;
  max_streak : Z;
  dark_mode : bool;
  created_at : Z;
  updated_at : Z
}.
End UserProfiles.
Import UserProfiles.

(** [Omit<ProfileUpdate, 'user_id'>]: a key that is absent (or
    [undefined], which the request body drops) is [None]. *)
Record ProfileUpdate := {
  upd_id : option string;
  upd_nickname : option string;
  upd_email : option string;
  upd_avatar_url : option (option string);
  upd_level : option Z;
  upd_xp : option Z;
  upd_rank : option string;
  upd_streak : option Z;
  upd_max_streak : option Z;
  upd_dark_mode : option bool;
  upd_updated_at : option Z
}.

Definition no_update : ProfileUpdate :=
  {| upd_id := None; upd_nickname := None; upd_email := None;
     upd_avatar_url := None; upd_level := None; upd_xp := None;
     upd_rank := None; upd_streak := None; upd_max_streak := None;
     upd_dark_mode := None; upd_updated_at := None |}.

(** What the network does to the requests on [user_profiles]. *)
Inductive verb := SELECT | INSERT | UPDATE.
Definition faults := verb -> option Coded.

(** The table keeps its rows in a list. *)
Definition profiles_of (userId : string) (profiles : list Row) : list Row :=
  filter (fun p => (user_id p =? userId)%string) profiles.

(** [.select('*').eq('user_id', userId).single()]. *)
Definition select_single (srv : server) (f : faults) (profiles : list Row)
    (userId : string) : Row + Coded :=
  match f SELECT with
  | Some e => inr e
  | None => single srv (profiles_of userId profiles)
  end.

(** [email.split('@')[0]]. *)
Fixpoint split_head (sep : ascii) (s : string) : string :=
  match s with
  | EmptyString => EmptyString
  | String ch s' =>
      if (ch =? sep)%char then EmptyString else String ch (split_head sep s')
  end.

(** The row stored for the insert of [getOrCreateProfile]. *)
Definition default_profile (srv : server) (userId email' : string) : Row :=
  {| id := gen_random_uuid srv;
     user_id := userId;
     nickname := split_head "@" email';
     email := email';
     avatar_url := None;
     level := 1;
     xp := 0;
     rank := "新手探索者";
     streak := 0;
     max_streak := 0;
     dark_mode := true;
     created_at := NOW srv;
     updated_at := NOW srv |}.

(** [.insert(row).select().single()]. *)
Definition insert_single (srv : server) (f : faults) (profiles : list Row)
    (row : Row) : (Row + Coded) * list Row :=
  match f INSERT with
  | Some e => (inr e, profiles)
  | None =>
      if negb (int4 (level row) && int4 (xp row) && int4 (streak row)
               && int4 (max_streak row))
      then (inr (numeric_value_out_of_range srv), profiles)
      else if existsb
                (fun p => (id p =? id row)%string
                          || (user_id p =? user_id row)%string) profiles
      then (inr (unique_violation srv), profiles)
      else (inl row, profiles ++ [row])
  end.

Definition getOrCreateProfile (srv : server) (f : faults)
    (profiles : list Row) (userId email' : string)
    : Promise Row * list Row :=
  match select_single srv f profiles userId with
  | inl existing => (Resolved existing, profiles)
  | inr selectError =>
      if (code selectError =? "PGRST116")%string
      then
        match insert_single srv f profiles
                (default_profile srv userId email') with
        | (inr insertError, profiles') =>
            (Rejected ("创建用户资料失败: " ++ message (cause insertError)),
             profiles')
        | (inl created, profiles') => (Resolved created, profiles')
        end
      else
        (Rejected ("获取用户资料失败: " ++ message (cause selectError)),
         profiles)
  end.

(** The row after [update(patch)] and the [updated_at] trigger. *)
Definition updated (srv : server) (patch : ProfileUpdate) (p : Row) : Row :=
  {| id := upd_id patch ?? id p;
     user_id := user_id p;
     nickname := upd_nickname patch ?? nickname p;
     email := upd_email patch ?? email p;
     avatar_url := upd_avatar_url patch ?? avatar_url p;
     level := upd_level patch ?? level p;
     xp := upd_xp patch ?? xp p;
     rank := upd_rank patch ?? rank p;
     streak := upd_streak patch ?? streak p;
     max_streak := upd_max_streak patch ?? max_streak p;
     dark_mode := upd_dark_mode patch ?? dark_mode p;
     created_at := created_at p;
     updated_at := NOW srv |}.

(** [{ ...updates, updated_at: now }]. *)
Definition stamped (updates : ProfileUpdate) (now : Z) : ProfileUpdate :=
  {| upd_id := upd_id updates; upd_nickname := upd_nickname updates;
     upd_email := upd_email updates;
     upd_avatar_url := upd_avatar_url updates;
     upd_level := upd_level updates; upd_xp := upd_xp updates;
     upd_rank := upd_rank updates; upd_streak := upd_streak updates;
     upd_max_streak := upd_max_streak updates;
     upd_dark_mode := upd_dark_mode updates;
     upd_updated_at := Some now |}.

Definition in_range (patch : ProfileUpdate) : bool :=
  int4 (upd_level patch ?? 0) && int4 (upd_xp patch ?? 0)
  && int4 (upd_streak patch ?? 0) && int4 (upd_max_streak patch ?? 0).

(** [.update(patch).eq('user_id', userId).select().single()]. *)
Definition update_single (srv : server) (f : faults) (profiles : list Row)
    (userId : string) (patch : ProfileUpdate) : (Row + Coded) * list Row :=
  match f UPDATE with
  | Some e => (inr e, profiles)
  | None =>
      let mine p := (user_id p =? userId)%string in
      if negb (in_range patch)
      then (inr (numeric_value_out_of_range srv), profiles)
      else if match upd_id patch with
              | Some i =>
                  existsb (fun p => negb (mine p) && (id p =? i)%string)
                    profiles
              | None => false
              end
      then (inr (unique_violation srv), profiles)
      else
        match single srv (map (updated srv patch)
                            (profiles_of userId profiles)) with
        | inr e => (inr e, profiles)
        | inl row =>
            (inl row,
             map (fun p => if mine p then updated srv patch p else p)
               profiles)
        end
  end.

Definition updateProfile (c : JS.clock) (srv : server) (f : faults)
    (profiles : list Row) (userId : string) (updates : ProfileUpdate)
    : Promise Row * list Row :=
  let now := JS.now c in
  match update_single srv f profiles userId (stamped updates now) with
  | (inr e, profiles') =>
      (Rejected ("更新用户资料失败: " ++ message (cause e)), profiles')
  | (inl data, profiles') => (Resolved data, profiles')
  end.

Definition RANKS : list string :=
  ["新手探索者"; "习惯学徒"; "进阶实践者"; "资深坚守者"; "习惯大师";
   "传奇宗师"]%string.
Definition XP_PER_LEVEL : Z := 1200.

(** [while (newXp >= XP_PER_LEVEL) { newXp -= XP_PER_LEVEL; newLevel += 1 }]. *)
Fixpoint level_up (fuel : nat) (newXp newLevel : Z) : Z * Z :=
  match fuel with
  | O => (newXp, newLevel)
  | S fuel' =>
      if newXp >=? XP_PER_LEVEL
      then level_up fuel' (newXp - XP_PER_LEVEL) (newLevel + 1)
      else (newXp, newLevel)
  end.

(** [RANKS[i]]: [undefined] outside the array. *)
Definition RANKS_at (i : Z) : option string :=
  if i <? 0 then None else nth_error RANKS (Z.to_nat i).

Definition rank_of_level (newLevel : Z) : option string :=
  RANKS_at (Z.min (newLevel / 5) (Z.of_nat (List.length RANKS) - 1)).

Definition addXp (c : JS.clock) (srv : server) (f : faults)
    (profiles : list Row) (userId : string) (xpGain : Z)
    : Promise Row * list Row :=
  match select_single srv f profiles userId with
  | inr _ => (Rejected "获取用户资料失败", profiles)
  | inl profile =>
      let '(newXp, newLevel) :=
        level_up (Z.to_nat (xp profile + xpGain)) (xp profile + xpGain)
          (level profile) in
      let newRank := rank_of_level newLevel in
      updateProfile c srv f profiles userId
        {| upd_id := None; upd_nickname := None; upd_email := None;
           upd_avatar_url := None; upd_level := Some newLevel;
           upd_xp := Some newXp; upd_rank := newRank; upd_streak := None;
           upd_max_streak := None; upd_dark_mode := None;
           upd_updated_at := None |}
  end.

End ProfileService.

(** Words for the statements about the profile service. *)

Module ProfileTerms.
Import ProfileService ProfileService.UserProfiles.

(** The rows of the other users. *)
Definition others (userId : string) (profiles : list Row) : list Row :=
  filter (fun p => negb (user_id p =? userId)%string) profiles.

(** The levels that [total] experience points are worth. *)
Definition levels_gained (total : Z) : Z := Z.max 0 (total / XP_PER_LEVEL).

(** What a profile keeps through [addXp]. *)
Definition identity (p : Row) :=
  (id p, user_id p, nickname p, email p, avatar_url p, streak p,
   max_streak p, dark_mode p, created_at p).

Definition no_faults : faults := fun _ => None.

End ProfileTerms.

Module ProfileSamples.
Import Postgres ProfileService ProfileService.UserProfiles ProfileTerms.

Definition srv : server :=
  {| NOW := 1710509400000; gen_random_uuid := "id-9";
     not_single := "JSON object requested, multiple (or no) rows returned";
     duplicate_key := "duplicate key value violates unique constraint";
     out_of_range := "integer out of range" |}.

Definition profile (i u : string) (lvl points : Z) (r : string) : Row :=
  {| id := i; user_id := u; nickname := u; email := (u ++ "@example.org")%string;
     avatar_url := None; level := lvl; xp := points; rank := r;
     streak := 0; max_streak := 0; dark_mode := true;
     created_at := 1700000000000; updated_at := 1700000000000 |}.

(** Two users; "u" is 20 points short of level 5. *)
Definition two_profiles : list Row :=
  [ profile "id-1" "v" 1 0 "新手探索者";
    profile "id-2" "u" 4 1180 "新手探索者" ].

End ProfileSamples.

(** Words for the statements about the task service. *)

Module TaskTerms.
Import Database Supabase Reading TaskService.

(** The logs of one task of one user on one day. *)
Definition logged (u task : string) (d : JS.isodate) (db : Tables)
    : list HabitLogs.Row :=
  filter (same_log u task d) (habit_logs db).

(** The tasks other than the one a call names. *)
Definition other_tasks (id u : string) (db : Tables) : list Tasks.Row :=
  filter (fun r => negb (is_task id u r)) (tasks db).

(** The logs that do not belong to task [id]. *)
Definition logs_without (id : string) (db : Tables) : list HabitLogs.Row :=
  filter (fun log => negb (HabitLogs.task_id log =? id)%string)
    (habit_logs db).

End TaskTerms.

Module TaskSamples.
Import Database Supabase Postgres Samples TaskService.

Definition server : Postgres.server :=
  {| NOW := friday * 86400000 + 48600500; gen_random_uuid := "id-9";
     not_single := "JSON object requested, multiple (or no) rows returned";
     duplicate_key := "duplicate key value violates unique constraint";
     out_of_range := "integer out of range" |}.

Definition task_at (u id : string) (done : bool) (t : Z) : Tasks.Row :=
  {| Tasks.id := id; Tasks.user_id := u; Tasks.title := id;
     Tasks.category := "健康"; Tasks.time := "08:00";
     Tasks.completed := done; Tasks.icon := "check"; Tasks.color := "blue";
     Tasks.frequency := daily; Tasks.selected_days := [0; 1; 2; 3; 4];
     Tasks.reminder_enabled := false; Tasks.reminder_time := "08:00";
     Tasks.created_at := t; Tasks.updated_at := t |}.

(** Three habits of "u", the oldest first, one of "v"; "a" was done
    yesterday and the day before. *)
Definition habits_db : Tables :=
  {| tasks := [ task_at "u" "a" false 100; task_at "v" "c" false 150;
                task_at "u" "b" true 200; task_at "u" "d" false 300 ];
     focus_sessions := [ session "u" 25 work (local_time friday 9 5) ];
     habit_logs := [ log "u" "a" (friday - 2); log "u" "a" (friday - 1);
                     log "v" "c" friday; log "u" "b" (friday - 1) ] |}.

Definition new_task : TaskInsert :=
  {| ins_id := None; ins_user_id := "u"; ins_title := "read";
     ins_category := "学习"; ins_time := "全天"; ins_completed := None;
     ins_icon := "book"; ins_color := "primary"; ins_frequency := None;
     ins_selected_days := None; ins_reminder_enabled := None;
     ins_reminder_time := None; ins_created_at := None;
     ins_updated_at := None |}.

End TaskSamples.

(** ** The pages: [App], [Home] and [Focus] *)

(** [Task] of [../types], with the fields [rowToTask] gives it. *)
Module Types.
Record Task := {
  id : string;
  title : string;
  category : string;
  time : string;
  completed : bool;
  icon : string;
  color : string
}.
End Types.

(** The task list of [AppContent].  A handler is read as a whole, from the
    click to the moment its promise has settled, no other handler running in
    between; [tasks] is the list the handler closed over. *)
Module App.
Import Database Supabase Postgres Types.

Definition getTaskCacheKey (userId : string) : string :=
  ("habit-tasks-cache-" ++ userId)%string.

Definition rowToTask (r : Tasks.Row) : Task :=
  {| id := Tasks.id r;
     title := Tasks.title r;
     category := Tasks.category r;
     time := Tasks.time r;
     completed := Tasks.completed r;
     icon := Tasks.icon r;
     color := Tasks.color r |}.

(** The [tasks] state and the lists kept in [localStorage]. *)
Record State := {
  tasks : list Task;
  localStorage : JS.Map string (list Task)
}.

(** [setTasks(l); localStorage.setItem(getTaskCacheKey(user.id), ...)]. *)
Definition show (s : State) (userId : string) (l : list Task) : State :=
  {| tasks := l;
     localStorage :=
       JS.Map_set String.eqb (localStorage s) (getTaskCacheKey userId) l |}.

(** The first load: the cached list at once, then the rows of the
    database when they arrive. *)
Definition sync (net : transport) (user : option string) (s : State)
    (db : Tables) : State :=
  match user with
  | None => s
  | Some userId =>
      let cacheKey := getTaskCacheKey userId in
      let s1 :=
        match JS.Map_get String.eqb (localStorage s) cacheKey with
        | Some cached =>
            {| tasks := cached; localStorage := localStorage s |}
        | None => s
        end in
      match TaskService.getTodayTasks net db userId with
      | Resolved rows => show s1 userId (map rowToTask rows)
      | Rejected _ => s1
      end
  end.

Definition with_completed (t : Task) (b : bool) : Task :=
  {| id := id t; title := title t; category := category t; time := time t;
     completed := b; icon := icon t; color := color t |}.

Definition with_id (t : Task) (i : string) : Task :=
  {| id := i; title := title t; category := category t; time := time t;
     completed := completed t; icon := icon t; color := color t |}.

Definition toggleTask (c : JS.clock) (srv : server) (net : transport)
    (user : option string) (s : State) (db : Tables) (id' : string)
    : State * Tables :=
  match user with
  | None => (s, db)
  | Some userId =>
      match find (fun t => (id t =? id')%string) (tasks s) with
      | None => (s, db)
      | Some task =>
          let newCompleted := negb (completed task) in
          let updated :=
            map (fun t => if (id t =? id')%string
                          then with_completed t newCompleted else t)
              (tasks s) in
          let s1 := show s userId updated in
          match TaskService.toggleTask c srv net db id' userId
                  newCompleted with
          | (Resolved _, db') => (s1, db')
          | (Rejected _, db') => (show s1 userId (tasks s), db')
          end
      end
  end.

Definition addTask (srv : server) (net : transport) (user : option string)
    (s : State) (db : Tables) (task : Task) : State * Tables :=
  match user with
  | None => (s, db)
  | Some userId =>
      let tempId := id task in
      let withTemp := task :: tasks s in
      let s1 := show s userId withTemp in
      match TaskService.createTask srv net db
              {| TaskService.ins_id := None;
                 TaskService.ins_user_id := userId;
                 TaskService.ins_title := title task;
                 TaskService.ins_category := category task;
                 TaskService.ins_time := time task;
                 TaskService.ins_completed := Some (completed task);
                 TaskService.ins_icon := icon task;
                 TaskService.ins_color := color task;
                 TaskService.ins_frequency := Some daily;
                 TaskService.ins_selected_days := Some [0; 1; 2; 3; 4];
                 TaskService.ins_reminder_enabled := Some true;
                 TaskService.ins_reminder_time := Some "08:30"%string;
                 TaskService.ins_created_at := None;
                 TaskService.ins_updated_at := None |} with
      | (Resolved created, db') =>
          let next :=
            map (fun t => if (id t =? tempId)%string
                          then with_id t (Tasks.id created) else t)
              (tasks s1) in
          (show s1 userId next, db')
      | (Rejected _, db') =>
          let rollback :=
            filter (fun t => negb (id t =? tempId)%string) (tasks s) in
          (show s1 userId rollback, db')
      end
  end.

Definition deleteTask (net : transport) (user : option string) (s : State)
    (db : Tables) (id' : string) : State * Tables :=
  match user with
  | None => (s, db)
  | Some userId =>
      let taskToDelete := find (fun t => (id t =? id')%string) (tasks s) in
      let without :=
        filter (fun t => negb (id t =? id')%string) (tasks s) in
      let s1 := show s userId without in
      match TaskService.deleteTask net db id' userId with
      | (Resolved _, db') => (s1, db')
      | (Rejected _, db') =>
          match taskToDelete with
          | Some t => (show s1 userId (t :: without), db')
          | None => (s1, db')
          end
      end
  end.

End App.

(** [src/pages/Home.tsx] *)

Module Home.
Import Types.

(** [[...tasks].sort(..)]: "uncompleted first, then completed". *)
Definition sortedTasks (tasks : list Task) : list Task :=
  JS.Array_sort
    (fun a b =>
       if Bool.eqb (completed a) (completed b) then 0
       else if completed a then 1 else -1)
    tasks.

Record WeekDay := {
  name : string;
  day : Z;
  active : bool;
  dateObj : Z
}.

Definition DAY_NAMES : list string :=
  ["周一"; "周二"; "周三"; "周四"; "周五"; "周六"; "周日"]%string.
Definition EN_DAY_NAMES : list string :=
  ["Monday"; "Tuesday"; "Wednesday"; "Thursday"; "Friday"; "Saturday";
   "Sunday"]%string.

Definition todayWeekIndex (c : JS.clock) : Z :=
  let todayJsDay := JS.getDay c (JS.now c) in
  if todayJsDay =? 0 then 6 else todayJsDay - 1.

Definition monday (c : JS.clock) : Z :=
  JS.setDate c (JS.now c) (JS.getDate c (JS.now c) - todayWeekIndex c).

(** [arr.map((x, i) => f(x, i))], from index [i]. *)
Fixpoint map_index (A B : Type) (f : A -> Z -> B) (i : Z) (l : list A)
    : list B :=
  match l with
  | [] => []
  | x :: l' => f x i :: map_index f (i + 1) l'
  end.

Definition days (c : JS.clock) : list WeekDay :=
  map_index
    (fun name i =>
       let d := JS.setDate c (monday c) (JS.getDate c (monday c) + i) in
       {| name := name; day := JS.getDate c d;
          active := i =? todayWeekIndex c; dateObj := d |})
    0 DAY_NAMES.

Definition headerDayEn (c : JS.clock) : option string :=
  nth_error EN_DAY_NAMES (Z.to_nat (todayWeekIndex c)).

End Home.

(** The end of a countdown on the Focus page ([handleComplete] of
    [src/pages/Settings.tsx]); the two service calls are not awaited and
    their failures are only logged. *)
Module Focus.
Import Database Supabase Postgres.

Record State := {
  mode : Mode;
  isActive : bool;
  completedToday : Z;
  minutesToday : Z
}.

Definition toggleMode (st : State) : State :=
  let nextMode := if Mode_eqb (mode st) work then break else work in
  {| mode := nextMode; isActive := false;
     completedToday := completedToday st;
     minutesToday := minutesToday st |}.

Definition handleComplete (c : JS.clock) (srv : server) (net : transport)
    (f : ProfileService.faults) (user : option string) (workMinutes : Z)
    (st : State) (db : Tables)
    (profiles : list ProfileService.UserProfiles.Row)
    : State * Tables * list ProfileService.UserProfiles.Row :=
  let st0 :=
    {| mode := mode st; isActive := false;
       completedToday := completedToday st;
       minutesToday := minutesToday st |} in
  if Mode_eqb (mode st) work
  then
    let st1 :=
      {| mode := mode st0; isActive := isActive st0;
         completedToday := completedToday st0 + 1;
         minutesToday := minutesToday st0 + workMinutes |} in
    match user with
    | Some userId =>
        let db' :=
          snd (FocusLog.recordFocusSession c srv net db userId
                 workMinutes work) in
        let profiles' :=
          snd (ProfileService.addXp c srv f profiles userId 40) in
        (toggleMode st1, db', profiles')
    | None => (toggleMode st1, db, profiles)
    end
  else (toggleMode st0, db, profiles).

End Focus.

(** Words for the statements about the pages. *)

Module PageTerms.
Import Database Supabase Reading Types.

(** The entry of the week strip [i] days after its first day. *)
Definition week_entry (c : JS.clock) (p : string * Z) : Home.WeekDay :=
  {| Home.name := fst p;
     Home.day := JS.getDate c (Home.monday c + snd p * JS.msPerDay);
     Home.active := snd p =? Home.todayWeekIndex c;
     Home.dateObj := Home.monday c + snd p * JS.msPerDay |}.


(** The list on the screen shows the tasks of the user in the database,
    in some order, and the cache holds the list. *)
Definition in_step (u : string) (s : App.State) (db : Tables) : Prop :=
  Permutation (App.tasks s) (map App.rowToTask (own_tasks u db))
  /\ JS.Map_get String.eqb (App.localStorage s) (App.getTaskCacheKey u)
     = Some (App.tasks s).

End PageTerms.

Module PageSamples.
Import Database Supabase Types TaskSamples.

(** The list of "u" over [habits_db], in the order of the table. *)
Definition shown : App.State :=
  {| App.tasks :=
       map App.rowToTask
         [ task_at "u" "a" false 100; task_at "u" "b" true 200;
           task_at "u" "d" false 300 ];
     App.localStorage :=
       [ (App.getTaskCacheKey "u",
          map App.rowToTask
            [ task_at "u" "a" false 100; task_at "u" "b" true 200;
              task_at "u" "d" false 300 ]) ] |}.

(** The task the New Task page hands over. *)
Definition draft : Task :=
  {| id := "1710509400000"; title := "read"; category := "学习";
     time := "全天"; completed := false; icon := "school";
     color := "primary" |}.

Definition offline : transport :=
  fun _ => Some {| message := "Failed to fetch" |}.

End PageSamples.

(** ** Proof steps used throughout *)

(** Case analysis on every test [x >=? y] of the goal. *)
Ltac case_geb :=
  repeat match goal with
         | |- context [?x >=? ?y] =>
             let E := fresh "E" in
             destruct (x >=? y) eqn:E;
             [apply Z.geb_le in E | rewrite Z.geb_leb in E; apply Z.leb_gt in E]
         end.

(** [H : In x [a; b; ..]]: [tac] closes the goal for every member. *)
Ltac each_member H tac :=
  repeat (destruct H as [H|H]; [try subst; tac|]); destruct H.

(** ** The calendar *)

(** Month and day of month of a day number are in range. *)
Lemma civil_from_days_range (z : Z) :
  let '(_, m, d) := JS.civil_from_days z in 1 <= m <= 12 /\ 1 <= d <= 31.
Proof.
  unfold JS.civil_from_days.
  set (z' := z + 719468).
  set (doe := z' - z' / 146097 * 146097).
  assert (Hdoe : 0 <= doe < 146097).
  { subst doe. pose proof (Z.mod_pos_bound z' 146097 ltac:(lia)) as H.
    rewrite Z.mod_eq in H by lia. lia. }
  clearbody doe. clear z'.
  set (yoe := (doe - doe / 1460 + doe / 36524 - doe / 146096) / 365).
  set (doy := doe - (365 * yoe + yoe / 4 - yoe / 100)).
  assert (Hdoy : 0 <= doy <= 365).
  { subst doy yoe. Z.div_mod_to_equations. lia. }
  clearbody doy. clear yoe Hdoe.
  set (mp := (5 * doy + 2) / 153).
  assert (Hmp : 0 <= mp <= 11) by (subst mp; Z.div_mod_to_equations; lia).
  assert (Hd : 1 <= doy - (153 * mp + 2) / 5 + 1 <= 31)
    by (subst mp; Z.div_mod_to_equations; lia).
  clearbody mp.
  destruct (mp <? 10) eqn:E;
    [apply Z.ltb_lt in E|apply Z.ltb_ge in E]; lia.
Qed.

(** The day number of a date is found back from its year, month and day. *)
Lemma days_from_civil_from_days (z : Z) :
  let '(y, m, d) := JS.civil_from_days z in JS.days_from_civil y m d = z.
Proof.
  unfold JS.civil_from_days, JS.days_from_civil.
  set (z' := z + 719468).
  set (era := z' / 146097).
  set (doe := z' - era * 146097).
  assert (Hdoe : 0 <= doe < 146097).
  { subst doe era. pose proof (Z.mod_pos_bound z' 146097 ltac:(lia)) as H.
    rewrite Z.mod_eq in H by lia. lia. }
  assert (Hz : z = era * 146097 + doe - 719468) by (subst doe z'; lia).
  clearbody doe era. clear z'. subst z.
  set (yoe := (doe - doe / 1460 + doe / 36524 - doe / 146096) / 365).
  assert (Hyoe : 0 <= yoe <= 399) by (subst yoe; Z.div_mod_to_equations; lia).
  set (doy := doe - (365 * yoe + yoe / 4 - yoe / 100)).
  assert (Hdoy : 0 <= doy <= 365) by (subst doy yoe; Z.div_mod_to_equations; lia).
  assert (Hdoe' : doe = yoe * 365 + yoe / 4 - yoe / 100 + doy) by (subst doy; lia).
  clearbody doy. clearbody yoe. subst doe.
  set (mp := (5 * doy + 2) / 153).
  assert (Hmp : 0 <= mp <= 11) by (subst mp; Z.div_mod_to_equations; lia).
  set (d := doy - (153 * mp + 2) / 5 + 1).
  assert (Hdoy' : doy = (153 * mp + 2) / 5 + d - 1) by (subst d; lia).
  clearbody d. clearbody mp.
  destruct (mp <? 10) eqn:E; [apply Z.ltb_lt in E|apply Z.ltb_ge in E].
  - replace (mp + 3 <=? 2) with false by (symmetry; apply Z.leb_gt; lia).
    replace (mp + 3 >? 2) with true by (symmetry; apply Z.gtb_lt; lia).
    replace (mp + 3 - 3) with mp by lia.
    replace ((yoe + era * 400) / 400) with era
      by (apply Z.div_unique with (r := yoe); lia).
    replace (yoe + era * 400 - era * 400) with yoe by lia. lia.
  - replace (mp - 9 <=? 2) with true by (symmetry; apply Z.leb_le; lia).
    replace (mp - 9 >? 2) with false by (symmetry; rewrite Z.gtb_ltb; apply Z.ltb_ge; lia).
    replace (mp - 9 + 9) with mp by lia.
    replace (yoe + era * 400 + 1 - 1) with (yoe + era * 400) by lia.
    replace ((yoe + era * 400) / 400) with era
      by (apply Z.div_unique with (r := yoe); lia).
    replace (yoe + era * 400 - era * 400) with yoe by lia. lia.
Qed.

(** Days beyond the end of a month count on: the day number is linear in the
    day of month. *)
Lemma days_from_civil_shift (y m d k : Z) :
  JS.days_from_civil y m (d - k) = JS.days_from_civil y m d - k.
Proof. unfold JS.days_from_civil. lia. Qed.

(** Setting the day of month [k] days back moves the instant back by [k]
    whole days. *)
Lemma setDate_back (c : JS.clock) (t k : Z) :
  JS.setDate c t (JS.getDate c t - k) = t - k * JS.msPerDay.
Proof.
  unfold JS.setDate, JS.Date_local, JS.getFullYear, JS.getMonth, JS.getDate.
  pose proof (days_from_civil_from_days (JS.localDay c t)) as H.
  destruct (JS.civil_from_days (JS.localDay c t)) as [[y m] d].
  replace (m - 1 + 1) with m by lia.
  rewrite days_from_civil_shift, H.
  unfold JS.localDay, JS.localTime, JS.msPerDay.
  pose proof (Z.div_mod (t + JS.tzOffset c) 86400000 ltac:(lia)). lia.
Qed.

(** ** Facts about the runtime model *)

Import Reading.

Section MapFacts.
Variable K : Type.
Variable eqb : K -> K -> bool.
Hypothesis eqb_eq : forall x y, eqb x y = true <-> x = y.

Lemma key_eqb_refl (x : K) : eqb x x = true.
Proof. now apply eqb_eq. Qed.

Lemma key_eqb_neq (x y : K) : x <> y -> eqb x y = false.
Proof.
  intros Hne. destruct (eqb x y) eqn:E; [|reflexivity].
  apply eqb_eq in E. contradiction.
Qed.

Lemma key_eqb_sym (x y : K) : eqb x y = eqb y x.
Proof.
  destruct (eqb x y) eqn:E.
  - apply eqb_eq in E. subst. symmetry. apply key_eqb_refl.
  - destruct (eqb y x) eqn:E'; [|reflexivity].
    apply eqb_eq in E'. subst. rewrite key_eqb_refl in E. discriminate.
Qed.

Section Values.
Variable V : Type.
Implicit Type m : JS.Map K V.

Lemma Map_get_set_same m k v :
  JS.Map_get eqb (JS.Map_set eqb m k v) k = Some v.
Proof.
  induction m as [|[k' v'] m IH]; simpl.
  - now rewrite key_eqb_refl.
  - destruct (eqb k k') eqn:E; simpl; rewrite E; auto.
Qed.

Lemma Map_get_set_other m k k' v :
  k <> k' ->
  JS.Map_get eqb (JS.Map_set eqb m k v) k' = JS.Map_get eqb m k'.
Proof.
  intros Hne. induction m as [|[k0 v0] m IH]; simpl.
  - rewrite key_eqb_neq; auto.
  - destruct (eqb k k0) eqn:E; simpl.
    + apply eqb_eq in E. subst k0.
      rewrite (key_eqb_neq (x:=k') (y:=k)); auto.
    + now rewrite IH.
Qed.

Lemma Map_get_keys m k :
  JS.Map_get eqb m k = None <-> existsb (eqb k) (map fst m) = false.
Proof.
  induction m as [|[k' v'] m IH]; simpl.
  - tauto.
  - destruct (eqb k k'); simpl; [|exact IH].
    split; discriminate.
Qed.

Lemma Map_set_keys m k v :
  map fst (JS.Map_set eqb m k v) =
  if existsb (eqb k) (map fst m) then map fst m else map fst m ++ [k].
Proof.
  induction m as [|[k' v'] m IH]; simpl.
  - reflexivity.
  - destruct (eqb k k') eqn:E; simpl.
    + reflexivity.
    + rewrite IH. now destruct (existsb (eqb k) (map fst m)).
Qed.
End Values.

(** [Set_spread_from] looks at [seen] only to test membership. *)
Lemma Set_spread_from_ext (l : list K) : forall s1 s2,
  (forall x, existsb (eqb x) s1 = existsb (eqb x) s2) ->
  JS.Set_spread_from eqb s1 l = JS.Set_spread_from eqb s2 l.
Proof.
  induction l as [|x l IH]; intros s1 s2 Hs; simpl.
  - reflexivity.
  - rewrite (Hs x). destruct (existsb (eqb x) s2).
    + now apply IH.
    + f_equal. apply IH. intros y. simpl. now rewrite Hs.
Qed.

Lemma Set_spread_from_In (l : list K) : forall seen x,
  In x (JS.Set_spread_from eqb seen l) <-> In x l /\ ~ In x seen.
Proof.
  induction l as [|y l IH]; intros seen x; simpl.
  - tauto.
  - destruct (existsb (eqb y) seen) eqn:E.
    + rewrite IH. apply existsb_exists in E as (z & Hz & Hyz).
      apply eqb_eq in Hyz. subst z.
      split; [tauto|]. intros [[<-|H] Hn]; [contradiction|tauto].
    + simpl. rewrite IH. simpl.
      assert (Hy : ~ In y seen).
      { intros Hin. apply Bool.not_true_iff_false in E. apply E.
        apply existsb_exists. exists y. split; [assumption|apply key_eqb_refl]. }
      split.
      * intros [<-|[H1 H2]]; [tauto|]. split; [tauto|]. intros H. apply H2. now right.
      * intros [[<-|H] Hn]; [now left|].
        destruct (eqb y x) eqn:Eyx.
        -- apply eqb_eq in Eyx. now left.
        -- right. split; [assumption|]. intros [->|H']; [|contradiction].
           rewrite key_eqb_refl in Eyx. discriminate.
Qed.

Lemma Set_spread_from_NoDup (l : list K) : forall seen,
  NoDup (JS.Set_spread_from eqb seen l).
Proof.
  induction l as [|y l IH]; intros seen; simpl.
  - constructor.
  - destruct (existsb (eqb y) seen); [apply IH|].
    constructor; [|apply IH].
    rewrite Set_spread_from_In. simpl. tauto.
Qed.

Lemma Set_spread_In (l : list K) (x : K) :
  In x (JS.Set_spread eqb l) <-> In x l.
Proof. unfold JS.Set_spread. rewrite Set_spread_from_In. simpl. tauto. Qed.

Section Accumulate.
Variable A : Type.
Variable key : A -> K.
Variable amount : A -> Z.

Lemma accumulate_get (l : list A) : forall (m : JS.Map K Z) (k : K),
  JS.Map_get eqb (accumulate eqb key amount l m) k =
  match JS.Map_get eqb m k with
  | Some v => Some (v + total_for eqb key amount k l)
  | None =>
      if existsb (fun a => eqb (key a) k) l
      then Some (total_for eqb key amount k l)
      else None
  end.
Proof.
  unfold total_for.
  induction l as [|a l IH]; intros m k; simpl.
  - destruct (JS.Map_get eqb m k); [f_equal; unfold sum; simpl; lia|reflexivity].
  - unfold accumulate in *. simpl. rewrite IH.
    destruct (eqb (key a) k) eqn:E.
    + apply eqb_eq in E. subst k. rewrite Map_get_set_same. simpl.
      destruct (JS.Map_get eqb m (key a)); unfold sum; simpl; f_equal; lia.
    + rewrite Map_get_set_other.
      2:{ intros Hk. rewrite Hk, key_eqb_refl in E. discriminate. }
      reflexivity.
Qed.

Lemma accumulate_keys (l : list A) : forall (m : JS.Map K Z),
  map fst (accumulate eqb key amount l m) =
  map fst m ++ JS.Set_spread_from eqb (map fst m) (map key l).
Proof.
  induction l as [|a l IH]; intros m; simpl.
  - now rewrite app_nil_r.
  - unfold accumulate in *. simpl. rewrite IH, Map_set_keys.
    destruct (existsb (eqb (key a)) (map fst m)) eqn:E.
    + reflexivity.
    + rewrite <- app_assoc. simpl. do 2 f_equal.
      apply Set_spread_from_ext. intros x.
      rewrite existsb_app. simpl. rewrite orb_false_r. apply orb_comm.
Qed.
End Accumulate.
End MapFacts.

(** ** The heatmap *)

Import Database Supabase StatsService.

Lemma toISODate_days_back (t k : Z) :
  JS.toISODate (t - k * JS.msPerDay) = JS.toISODate t - k.
Proof.
  unfold JS.toISODate, JS.msPerDay.
  replace (t - k * 86400000) with (t + (- k) * 86400000) by lia.
  rewrite Z.div_add by lia. lia.
Qed.

(** [d.setDate(d.getDate() - k)] moves the UTC date [k] days back. *)
Lemma toISODate_setDate_back (c : JS.clock) (t k : Z) :
  JS.toISODate (JS.setDate c t (JS.getDate c t - k)) = JS.toISODate t - k.
Proof. rewrite setDate_back. apply toISODate_days_back. Qed.

Lemma sum_ones (A : Type) (l : list A) :
  sum (map (fun _ => 1) l) = Z.of_nat (List.length l).
Proof.
  induction l as [|a l IH]; [reflexivity|].
  change (sum (map (fun _ : A => 1) (a :: l)))
    with (1 + sum (map (fun _ : A => 1) l)).
  rewrite IH. simpl List.length. lia.
Qed.

(** The map built by the first loop holds, for every date, the number of
    rows that carry it. *)
Lemma count_dates_get (data : list JS.isodate) (d : JS.isodate) :
  JS.Map_get Z.eqb (count_dates data) d ?? 0 =
  Z.of_nat (List.length (filter (Z.eqb d) data)).
Proof.
  change (count_dates data)
    with (accumulate Z.eqb (fun x : Z => x) (fun _ => 1) data []).
  rewrite (accumulate_get Z.eqb Z.eqb_eq). simpl JS.Map_get.
  unfold total_for. rewrite sum_ones.
  rewrite (filter_ext (fun a => a =? d) (Z.eqb d)) by (intros; apply Z.eqb_sym).
  destruct (existsb (fun a => a =? d) data) eqn:E; [reflexivity|].
  simpl. rewrite (filter_ext (Z.eqb d) (fun a => a =? d)) by (intros; apply Z.eqb_sym).
  induction data as [|a data IH]; [reflexivity|].
  simpl in E. apply orb_false_iff in E as [E1 E2].
  simpl. rewrite E1. now apply IH.
Qed.

(** A lower bound on the date does not change the count of a later day. *)
Lemma count_since (u : string) (bound d : JS.isodate)
    (logs : list HabitLogs.Row) :
  bound <= d ->
  filter (Z.eqb d)
    (map HabitLogs.completed_date
       (filter (fun log => (HabitLogs.user_id log =? u)%string
                           && (bound <=? HabitLogs.completed_date log)) logs)) =
  filter (Z.eqb d)
    (map HabitLogs.completed_date
       (filter (fun log => (HabitLogs.user_id log =? u)%string) logs)).
Proof.
  intros Hb. induction logs as [|log logs IH]; [reflexivity|].
  simpl. destruct (HabitLogs.user_id log =? u)%string; simpl; [|exact IH].
  destruct (bound <=? HabitLogs.completed_date log) eqn:E; simpl.
  - now rewrite IH.
  - rewrite IH. apply Z.leb_gt in E.
    destruct (d =? HabitLogs.completed_date log) eqn:E'; [|reflexivity].
    apply Z.eqb_eq in E'. lia.
Qed.

(** The second loop, run from [n - 1] down to [0], appends the cells of
    those indices in that order. *)
Lemma heatmap_loop_unfold (cell : Z -> HeatmapCell) (n : nat) :
  forall result,
  heatmap_loop n cell (Z.of_nat n - 1) result =
  result ++ map (fun j => cell (Z.of_nat n - 1 - Z.of_nat j)) (seq 0 n).
Proof.
  induction n as [|n IH]; intros result.
  - simpl. now rewrite app_nil_r.
  - cbn [heatmap_loop].
    replace (Z.of_nat (S n) - 1 >=? 0) with true by (symmetry; apply Z.geb_le; lia).
    replace (Z.of_nat (S n) - 1 - 1) with (Z.of_nat n - 1) by lia.
    rewrite IH, <- app_assoc. f_equal.
    cbn [seq map app]. f_equal.
    + f_equal. lia.
    + rewrite <- seq_shift, map_map. apply map_ext. intros j. f_equal. lia.
Qed.

(** The loop has stopped by itself: more iterations allowed add nothing. *)
Lemma heatmap_loop_fuel (cell : Z -> HeatmapCell) (n : nat) :
  forall extra i result,
  i < Z.of_nat n ->
  heatmap_loop (n + extra) cell i result = heatmap_loop n cell i result.
Proof.
  induction n as [|n IH]; intros extra i result Hi.
  - destruct extra; [reflexivity|]. cbn [Nat.add heatmap_loop].
    replace (i >=? 0) with false; [reflexivity|].
    symmetry. rewrite Z.geb_leb. apply Z.leb_gt. lia.
  - cbn [Nat.add heatmap_loop]. destruct (i >=? 0); [|reflexivity].
    apply IH. lia.
Qed.

(** Every cell the loop adds is the cell of some index. *)
Lemma heatmap_loop_In (cell : Z -> HeatmapCell) (fuel : nat) :
  forall i result x,
  In x (heatmap_loop fuel cell i result) ->
  In x result \/ exists i', x = cell i'.
Proof.
  induction fuel as [|fuel IH]; intros i result x Hin; simpl in Hin.
  - now left.
  - destruct (i >=? 0); [|now left].
    apply IH in Hin as [Hin|Hin]; [|now right].
    apply in_app_or in Hin as [Hin|[<-|[]]]; [now left|].
    right. now exists i.
Qed.

Lemma level_of_count_monotone (a b : Z) :
  a <= b -> level_of_count a <= level_of_count b.
Proof.
  intros Hab. unfold level_of_count.
  case_geb; lia.
Qed.

Lemma level_of_count_steps (count : Z) :
  (count <= 0 -> level_of_count count = 0)
  /\ (1 <= count < 3 -> level_of_count count = 1)
  /\ (3 <= count < 5 -> level_of_count count = 2)
  /\ (5 <= count -> level_of_count count = 3).
Proof.
  unfold level_of_count.
  case_geb; repeat split; intros; lia.
Qed.

(** What [getHabitHeatmap] returns once the request has succeeded. *)
Lemma getHabitHeatmap_online (c : JS.clock) (net : transport) (db : Tables)
    (u : string) (days : Z) :
  net t_habit_logs = None ->
  getHabitHeatmap c net db u days =
  Resolved
    (heatmap_loop (Z.to_nat (days + 1))
       (heatmap_cell c
          (count_dates
             (map HabitLogs.completed_date
                (filter
                   (fun log =>
                      (HabitLogs.user_id log =? u)%string
                      && (today c - days <=? HabitLogs.completed_date log))
                   (habit_logs db)))))
       days []).
Proof.
  intros Hnet. unfold getHabitHeatmap, request. rewrite Hnet.
  cbn [error data JS.nullish].
  unfold unordered, today. rewrite toISODate_setDate_back. reflexivity.
Qed.

Lemma heatmap_cell_count (c : JS.clock) (db : Tables) (u : string)
    (days i : Z) :
  0 <= i <= days ->
  count
    (heatmap_cell c
       (count_dates
          (map HabitLogs.completed_date
             (filter
                (fun log =>
                   (HabitLogs.user_id log =? u)%string
                   && (today c - days <=? HabitLogs.completed_date log))
                (habit_logs db)))) i) =
  completions_on u db (today c - i).
Proof.
  intros Hi. unfold heatmap_cell. cbn [count].
  rewrite count_dates_get, toISODate_setDate_back.
  unfold completions_on, completion_dates, own_logs, today.
  rewrite count_since by (unfold today; lia). reflexivity.
Qed.

(** ** Sorting and the streak walk *)

Section SortFacts.
Variable A : Type.

Lemma insert_by_perm (cmp : A -> A -> Z) (x : A) (l : list A) :
  Permutation (JS.insert_by cmp x l) (x :: l).
Proof.
  induction l as [|y l IH]; simpl.
  - apply Permutation_refl.
  - destruct (cmp x y <=? 0).
    + apply Permutation_refl.
    + eapply perm_trans; [apply perm_skip, IH|apply perm_swap].
Qed.

Lemma Array_sort_perm (cmp : A -> A -> Z) (l : list A) :
  Permutation (JS.Array_sort cmp l) l.
Proof.
  induction l as [|x l IH]; simpl.
  - apply perm_nil.
  - eapply perm_trans; [apply insert_by_perm|now apply perm_skip].
Qed.

(** A comparator [f b - f a] sorts by descending [f]. *)
Variable f : A -> Z.

Lemma insert_by_desc (x : A) (l : list A) :
  StronglySorted (fun a b => f b <= f a) l ->
  StronglySorted (fun a b => f b <= f a)
    (JS.insert_by (fun a b => f b - f a) x l).
Proof.
  induction 1 as [|y l Hl IH Hy]; simpl.
  - repeat constructor.
  - destruct (f y - f x <=? 0) eqn:E.
    + apply Z.leb_le in E. constructor; [now constructor|].
      constructor; [lia|].
      eapply Forall_impl; [|exact Hy]. simpl. intros; lia.
    + apply Z.leb_gt in E. constructor; [exact IH|].
      eapply Permutation_Forall;
        [apply Permutation_sym, insert_by_perm|].
      constructor; [lia|exact Hy].
Qed.

Lemma Array_sort_desc (l : list A) :
  StronglySorted (fun a b => f b <= f a)
    (JS.Array_sort (fun a b => f b - f a) l).
Proof.
  induction l as [|x l IH]; simpl.
  - constructor.
  - now apply insert_by_desc.
Qed.
End SortFacts.

Lemma diff_days (prev curr : JS.isodate) : diff prev curr = prev - curr.
Proof.
  unfold diff, JS.getTime, JS.msPerDay.
  rewrite <- Z.mul_sub_distr_r. apply Z.div_mul. lia.
Qed.

Lemma toISODate_day_before (t : Z) :
  JS.toISODate (t - 86400000) = JS.toISODate t - 1.
Proof.
  replace (t - 86400000) with (t - 1 * JS.msPerDay) by (unfold JS.msPerDay; lia).
  apply toISODate_days_back.
Qed.

Lemma uniqueDates_In (data : list JS.isodate) (d : JS.isodate) :
  In d (uniqueDates_of data) <-> In d data.
Proof.
  unfold uniqueDates_of. rewrite <- (Set_spread_In Z.eqb Z.eqb_eq data d).
  split; apply Permutation_in;
    [|apply Permutation_sym]; apply Array_sort_perm.
Qed.

Lemma uniqueDates_NoDup (data : list JS.isodate) : NoDup (uniqueDates_of data).
Proof.
  unfold uniqueDates_of.
  eapply Permutation_NoDup; [apply Permutation_sym, Array_sort_perm|].
  apply (Set_spread_from_NoDup Z.eqb Z.eqb_eq).
Qed.

Lemma desc_NoDup_strict (l : list JS.isodate) :
  StronglySorted (fun a b => JS.getTime b <= JS.getTime a) l ->
  NoDup l ->
  StronglySorted Z.gt l.
Proof.
  induction 1 as [|a l Hl IH Ha]; intros Hnd.
  - constructor.
  - inversion Hnd as [|? ? Hnotin Hnd']; subst.
    constructor; [now apply IH|].
    rewrite Forall_forall in *. intros b Hb.
    specialize (Ha b Hb). unfold JS.getTime, JS.msPerDay in Ha.
    assert (b <> a) by (intros ->; contradiction). lia.
Qed.

(** The sorted dates are strictly descending. *)
Lemma uniqueDates_sorted (data : list JS.isodate) :
  StronglySorted Z.gt (uniqueDates_of data).
Proof.
  apply desc_NoDup_strict; [|apply uniqueDates_NoDup].
  unfold uniqueDates_of. apply (Array_sort_desc JS.getTime).
Qed.

(** On strictly descending dates that hold [first], the [k] days before it
    and not the day before those, the walk counts [k] more days. *)
Lemma current_loop_run (k : nat) : forall first rest acc,
  StronglySorted Z.gt (first :: rest) ->
  (forall j, 0 <= j <= Z.of_nat k -> In (first - j) (first :: rest)) ->
  ~ In (first - Z.of_nat k - 1) (first :: rest) ->
  current_loop first rest acc = acc + Z.of_nat k.
Proof.
  induction k as [|k IH]; intros first rest acc Hs Hrun Hstop.
  - destruct rest as [|y r]; simpl; [lia|].
    rewrite diff_days. destruct (first - y =? 1) eqn:E; [|lia].
    apply Z.eqb_eq in E. exfalso. apply Hstop.
    right. left. simpl. lia.
  - inversion Hs as [|? ? Hs' Hfirst]; subst.
    assert (H1 : In (first - 1) rest).
    { destruct (Hrun 1 ltac:(lia)) as [E|H]; [lia|exact H]. }
    destruct rest as [|y r]; [contradiction|].
    inversion Hs' as [|? ? _ Hy]; subst.
    rewrite Forall_forall in Hfirst, Hy.
    assert (Ey : y = first - 1).
    { pose proof (Hfirst y (or_introl eq_refl)) as Hgt.
      destruct H1 as [E|H]; [exact E|].
      specialize (Hy _ H). lia. }
    subst y. simpl. rewrite diff_days.
    replace (first - (first - 1) =? 1) with true by (symmetry; apply Z.eqb_eq; lia).
    rewrite IH; [lia|exact Hs'| |].
    + intros j Hj.
      destruct (Hrun (j + 1) ltac:(lia)) as [E|H]; [lia|].
      replace (first - 1 - j) with (first - (j + 1)) by lia. exact H.
    + intros H. apply Hstop. right.
      replace (first - Z.of_nat (S k) - 1) with (first - 1 - Z.of_nat k - 1) by lia.
      exact H.
Qed.

(** What [getStreakData] returns once the request has succeeded. *)
Lemma getStreakData_online (c : JS.clock) (net : transport) (db : Tables)
    (u : string) :
  net t_habit_logs = None ->
  exists data,
    getStreakData c net db u = Resolved (streak_of_dates c data)
    /\ Permutation data (completion_dates u db).
Proof.
  intros Hnet. unfold getStreakData, request. rewrite Hnet. cbn [error data].
  match goal with
  | |- context [map HabitLogs.completed_date ?rows] =>
      exists (map HabitLogs.completed_date rows)
  end.
  split.
  - destruct (map _ _); reflexivity.
  - unfold completion_dates, own_logs. apply Permutation_map, Array_sort_perm.
Qed.

(** The head of the sorted dates is the latest date. *)
Lemma uniqueDates_head (data : list JS.isodate) (first : JS.isodate)
    (rest : list JS.isodate) :
  uniqueDates_of data = first :: rest ->
  In first data /\ forall d, In d data -> d <= first.
Proof.
  intros E. pose proof (uniqueDates_sorted data) as Hs. rewrite E in Hs.
  split.
  - apply uniqueDates_In. rewrite E. now left.
  - intros d Hd. apply uniqueDates_In in Hd. rewrite E in Hd.
    inversion Hs as [|? ? _ Hfirst]; subst. rewrite Forall_forall in Hfirst.
    destruct Hd as [<-|Hd]; [lia|]. specialize (Hfirst d Hd). lia.
Qed.

(** ** Ranges of the [Date] getters *)

Lemma getDate_range (c : JS.clock) (t : Z) : 1 <= JS.getDate c t <= 31.
Proof.
  unfold JS.getDate. pose proof (civil_from_days_range (JS.localDay c t)) as H.
  destruct (JS.civil_from_days _) as [[y m] d]. lia.
Qed.

Lemma getMonth_range (c : JS.clock) (t : Z) : 0 <= JS.getMonth c t <= 11.
Proof.
  unfold JS.getMonth. pose proof (civil_from_days_range (JS.localDay c t)) as H.
  destruct (JS.civil_from_days _) as [[y m] d]. lia.
Qed.

Lemma getDay_range (c : JS.clock) (t : Z) : 0 <= JS.getDay c t <= 6.
Proof.
  unfold JS.getDay. pose proof (Z.mod_pos_bound (JS.localDay c t + 4) 7). lia.
Qed.

Lemma getHours_range (c : JS.clock) (t : Z) : 0 <= JS.getHours c t <= 23.
Proof.
  unfold JS.getHours, JS.msPerDay, JS.msPerHour.
  pose proof (Z.mod_pos_bound (JS.localTime c t) 86400000 ltac:(lia)) as H.
  split.
  - apply Z.div_pos; lia.
  - apply Z.lt_succ_r, Z.div_lt_upper_bound; lia.
Qed.

(** ** Filters *)

Lemma filter_andb (A : Type) (f g : A -> bool) (l : list A) :
  filter (fun x => f x && g x) l = filter g (filter f l).
Proof.
  induction l as [|x l IH]; [reflexivity|].
  simpl. destruct (f x); simpl; [destruct (g x)|]; now rewrite IH.
Qed.

Lemma focus_filter (u : string) (bound : Z) (rows : list FocusSessions.Row) :
  filter
    (fun s =>
       (FocusSessions.user_id s =? u)%string
       && Mode_eqb (FocusSessions.mode s) work
       && (bound <=? FocusSessions.completed_at s))
    rows =
  filter
    (fun s =>
       Mode_eqb (FocusSessions.mode s) work
       && (bound <=? FocusSessions.completed_at s))
    (filter (fun s => (FocusSessions.user_id s =? u)%string) rows).
Proof.
  rewrite <- filter_andb. apply filter_ext. intros s.
  now rewrite andb_assoc.
Qed.

(** The sessions that count are found among the work sessions alone. *)
Lemma work_sessions_of_work (u : string) (db : Tables) (bound : Z) :
  work_sessions_since u db bound =
  filter
    (fun s =>
       (FocusSessions.user_id s =? u)%string
       && (bound <=? FocusSessions.completed_at s))
    (filter (fun s => Mode_eqb (FocusSessions.mode s) work) (focus_sessions db)).
Proof.
  unfold work_sessions_since, own_sessions. rewrite <- !filter_andb.
  apply filter_ext. intros s.
  destruct (FocusSessions.user_id s =? u)%string,
    (Mode_eqb (FocusSessions.mode s) work); reflexivity.
Qed.

Lemma fold_left_minutes (A : Type) (f : A -> Z) (l : list A) : forall acc,
  fold_left (fun sum s => sum + f s) l acc = acc + sum (map f l).
Proof.
  induction l as [|x l IH]; intros acc; simpl.
  - unfold sum. simpl. lia.
  - rewrite IH. unfold sum. simpl. lia.
Qed.

(** ** The chart aggregation *)

Section MapLookup.
Variables K V : Type.
Variable eqb : K -> K -> bool.
Hypothesis eqb_eq : forall x y, eqb x y = true <-> x = y.

(** In a map without repeated keys an entry is what [get] finds. *)
Lemma Map_get_entry (m : JS.Map K V) (k : K) (v : V) :
  NoDup (map fst m) -> In (k, v) m -> JS.Map_get eqb m k = Some v.
Proof.
  induction m as [|[k' v'] m IH]; intros Hnd Hin; [destruct Hin|].
  simpl in *. inversion Hnd as [|? ? Hnotin Hnd']; subst.
  destruct Hin as [E|Hin].
  - injection E as -> ->. now rewrite (key_eqb_refl eqb eqb_eq).
  - destruct (eqb k k') eqn:E.
    + apply eqb_eq in E. subst k'. exfalso. apply Hnotin.
      apply in_map_iff. now exists (k, v).
    + now apply IH.
Qed.
End MapLookup.

Lemma fold_left_ext (A B : Type) (f g : A -> B -> A) (l : list B) :
  (forall a b, f a b = g a b) ->
  forall i, fold_left f l i = fold_left g l i.
Proof.
  intros Hfg. induction l as [|b l IH]; intros i; simpl; [reflexivity|].
  now rewrite Hfg, IH.
Qed.

Import FocusService.

Lemma aggregate_accumulate (c : JS.clock) (p : Period)
    (sessions : list (Z * Z)) :
  aggregate c p sessions =
  accumulate String.eqb (fun s => bucket_key c p (snd s)) fst sessions [].
Proof.
  unfold aggregate, accumulate. apply fold_left_ext.
  intros m [minutes t]. reflexivity.
Qed.

(** What [getFocusChartData] returns once the request has succeeded. *)
Lemma getFocusChartData_online (c : JS.clock) (net : transport) (db : Tables)
    (u : string) (p : Period) :
  net t_focus_sessions = None ->
  getFocusChartData c net db u p =
  Resolved
    (map (fun '(name, value) => {| name := name; value := value |})
       (accumulate String.eqb (fun s => bucket_key c p (snd s)) fst
          (map (fun s => (FocusSessions.duration_minutes s,
                          FocusSessions.completed_at s))
             (work_sessions_since u db (startDate_of c p)))
          [])).
Proof.
  intros Hnet. unfold getFocusChartData, request. rewrite Hnet.
  cbn [error data JS.nullish].
  unfold unordered, JS.Map_entries, work_sessions_since, own_sessions.
  now rewrite focus_filter, aggregate_accumulate.
Qed.

Lemma chart_names (m : JS.Map string Z) :
  map name (map (fun '(name, value) => {| name := name; value := value |}) m)
  = map fst m.
Proof. rewrite map_map. apply map_ext. now intros [k v]. Qed.

(** The names of the points are the keys of the sessions, each at the place
    of its first appearance. *)
Lemma chart_names_first_appearance (c : JS.clock) (p : Period)
    (l : list FocusSessions.Row) :
  map fst
    (accumulate String.eqb (fun s => bucket_key c p (snd s)) fst
       (map (fun s => (FocusSessions.duration_minutes s,
                       FocusSessions.completed_at s)) l)
       [])
  = JS.Set_spread String.eqb (bucket_keys c p l).
Proof.
  rewrite accumulate_keys. cbn [map app]. unfold JS.Set_spread, bucket_keys.
  now rewrite map_map.
Qed.

Lemma chart_total (c : JS.clock) (p : Period) (l : list FocusSessions.Row)
    (k : string) :
  total_for String.eqb (fun s : Z * Z => bucket_key c p (snd s)) fst k
    (map (fun s => (FocusSessions.duration_minutes s,
                    FocusSessions.completed_at s)) l)
  = bucket_minutes c p l k.
Proof.
  unfold total_for, bucket_minutes.
  now rewrite filter_map_swap, map_map.
Qed.

(** [(d + 6) / 7] is the ceiling of [d / 7]. *)
Lemma week_of_month_ceiling (d : Z) :
  7 * ((d + 6) / 7 - 1) < d <= 7 * ((d + 6) / 7).
Proof.
  pose proof (Z.div_mod (d + 6) 7 ltac:(lia)).
  pose proof (Z.mod_pos_bound (d + 6) 7 ltac:(lia)). lia.
Qed.

Lemma week_key_in_days (c : JS.clock) (t : Z) :
  In (bucket_key c period_week t) days.
Proof.
  unfold bucket_key. pose proof (getDay_range c t) as H.
  apply nth_In. unfold days. simpl List.length. lia.
Qed.

Lemma year_key_in_quarters (c : JS.clock) (t : Z) :
  In (bucket_key c period_year t) quarters.
Proof.
  unfold bucket_key. pose proof (getMonth_range c t) as H.
  apply nth_In. unfold quarters. simpl List.length.
  assert (0 <= JS.getMonth c t / 3 < 4)
    by (split; [apply Z.div_pos|apply Z.div_lt_upper_bound]; lia).
  lia.
Qed.

(** ** Claims about the heatmap *)

(** C4: in every cell returned by [getHabitHeatmap] the level is the fixed
    step function of the count (0 for no completion, 1 below three, 2 below
    five, 3 from five on), and that function never decreases as the count
    grows. *)
Theorem heatmap_level_thresholds :
  (forall c net db u days cells cell,
      getHabitHeatmap c net db u days = Resolved cells ->
      In cell cells ->
      0 <= count cell /\ level cell = level_of_count (count cell))
  /\ (forall n,
         (n = 0 -> level_of_count n = 0)
         /\ (1 <= n < 3 -> level_of_count n = 1)
         /\ (3 <= n < 5 -> level_of_count n = 2)
         /\ (5 <= n -> level_of_count n = 3))
  /\ (level_of_count 0 = 0 /\ level_of_count 1 = 1 /\ level_of_count 2 = 1
      /\ level_of_count 3 = 2 /\ level_of_count 4 = 2
      /\ level_of_count 5 = 3 /\ level_of_count 100 = 3)
  /\ (forall a b, a <= b -> level_of_count a <= level_of_count b).
Proof.
  split; [|split; [|split]].
  - intros c net db u days cells cell Hres Hin.
    unfold getHabitHeatmap in Hres.
    destruct (error _) in Hres; [discriminate|].
    injection Hres as <-.
    apply heatmap_loop_In in Hin as [[]|[i ->]].
    unfold heatmap_cell. cbn [count level]. split; [|reflexivity].
    rewrite count_dates_get. lia.
  - intros n. destruct (level_of_count_steps n) as (H0 & H1 & H2 & H3).
    repeat split; auto. intros ->. apply H0. lia.
  - repeat split; reflexivity.
  - apply level_of_count_monotone.
Qed.

Lemma heatmap_level_thresholds_witness :
  getHabitHeatmap Samples.clk online Samples.heat_db "u" 3
  = Resolved Samples.heat_cells
  /\ In {| date := Samples.friday; count := 6; level := 3 |} Samples.heat_cells
  /\ (0 <= 6 /\ 3 = level_of_count 6).
Proof.
  assert (H1 : getHabitHeatmap Samples.clk online Samples.heat_db "u" 3
               = Resolved Samples.heat_cells) by (vm_compute; reflexivity).
  assert (H2 : In {| date := Samples.friday; count := 6; level := 3 |}
                 Samples.heat_cells) by (simpl; tauto).
  split; [exact H1|split; [exact H2|]].
  exact (proj1 heatmap_level_thresholds _ _ _ _ _ _ _ H1 H2).
Defined.



(** ** Claims about the streak *)

(** A log with one date that is neither today nor yesterday gives no streak
    at all: the highest streak is only raised when two neighbouring dates are
    one day apart. *)
Lemma lone_old_date_streak (c : JS.clock) (data : list JS.isodate)
    (d : JS.isodate) :
  uniqueDates_of data = [d] -> d <> today c -> d <> yesterday c ->
  streak_of_dates c data = {| currentStreak := 0; maxStreak := 0 |}.
Proof.
  intros E Ht Hy. unfold streak_of_dates. rewrite E.
  rewrite toISODate_day_before. fold (today c). fold (yesterday c).
  apply Z.eqb_neq in Ht, Hy. rewrite Ht, Hy. reflexivity.
Qed.

(** C1: a log whose only completion date is five days old: [getStreakData]
    returns [maxStreak = 0], where a single completion date should give 1. *)
Theorem lone_old_date_max_streak_is_zero :
  completion_dates "u" Samples.lone_old_db = [today Samples.clk - 5]
  /\ getStreakData Samples.clk online Samples.lone_old_db "u"
     = Resolved {| currentStreak := 0; maxStreak := 0 |}.
Proof. split; vm_compute; reflexivity. Qed.

(** C2, as amended: once the request has succeeded, when no completion
    date is later than today and the dates hold today and the [k - 1] days
    before it but not the day before those, [currentStreak = k]; and when
    every completion date is older than yesterday, [currentStreak = 0]. *)
Theorem current_streak_of_run (c : JS.clock) (net : transport) (db : Tables)
    (u : string) :
  net t_habit_logs = None ->
  (forall k,
      1 <= k ->
      (forall d, In d (completion_dates u db) -> d <= today c) ->
      (forall j, 0 <= j < k -> In (today c - j) (completion_dates u db)) ->
      ~ In (today c - k) (completion_dates u db) ->
      exists m,
        getStreakData c net db u
        = Resolved {| currentStreak := k; maxStreak := m |})
  /\ ((forall d, In d (completion_dates u db) -> d < yesterday c) ->
      exists m,
        getStreakData c net db u
        = Resolved {| currentStreak := 0; maxStreak := m |}).
Proof.
  intros Hnet.
  destruct (@getStreakData_online c net db u Hnet) as (data & -> & Hperm).
  assert (Hin : forall d, In d (uniqueDates_of data) <-> In d (completion_dates u db)).
  { intros d. rewrite uniqueDates_In.
    split; apply Permutation_in; [|apply Permutation_sym]; exact Hperm. }
  pose proof (uniqueDates_sorted data) as Hs.
  unfold streak_of_dates.
  rewrite toISODate_day_before. fold (today c).
  split.
  - intros k Hk Hle Hrun Hstop.
    destruct (uniqueDates_of data) as [|first rest] eqn:E.
    + exfalso. apply (proj2 (Hin (today c - 0))). apply Hrun. lia.
    + assert (Hfirst : first = today c).
      { assert (H1 : first <= today c) by (apply Hle, Hin; now left).
        assert (H2 : In (today c - 0) (first :: rest)) by (apply Hin, Hrun; lia).
        inversion Hs as [|? ? _ Hall]; subst. rewrite Forall_forall in Hall.
        destruct H2 as [H2|H2]; [lia|]. specialize (Hall _ H2). lia. }
      subst first. rewrite Z.eqb_refl. cbn [orb].
      rewrite (@current_loop_run (Z.to_nat (k - 1)) (today c) rest 1 Hs).
      * eexists. do 2 f_equal. lia.
      * intros j Hj. apply Hin, Hrun. lia.
      * intros H. apply Hstop, Hin.
        replace (today c - k) with (today c - Z.of_nat (Z.to_nat (k - 1)) - 1) by lia.
        exact H.
  - intros Hold. destruct (uniqueDates_of data) as [|first rest] eqn:E.
    + now eexists.
    + assert (H : first < yesterday c) by (apply Hold, Hin; now left).
      unfold yesterday in H.
      replace (first =? today c) with false by (symmetry; apply Z.eqb_neq; lia).
      replace (first =? today c - 1) with false by (symmetry; apply Z.eqb_neq; lia).
      now eexists.
Qed.

(** The sample logs, read off. *)
Lemma sample_dates :
  today Samples.clk = 19797
  /\ yesterday Samples.clk = 19796
  /\ completion_dates "u" Samples.run_db = [19792; 19797; 19797; 19795; 19796]
  /\ completion_dates "u" Samples.stale_db = [19794; 19795]
  /\ completion_dates "u" Samples.ahead_db = [19797; 19799].
Proof. repeat split; vm_compute; reflexivity. Qed.

Lemma current_streak_of_run_witness :
  online t_habit_logs = None
  /\ (exists m,
         getStreakData Samples.clk online Samples.run_db "u"
         = Resolved {| currentStreak := 3; maxStreak := m |})
  /\ (exists m,
         getStreakData Samples.clk online Samples.stale_db "u"
         = Resolved {| currentStreak := 0; maxStreak := m |}).
Proof.
  destruct sample_dates as (Ht & Hy & Hrun & Hstale & _).
  split; [reflexivity|]. split.
  - apply (proj1 (@current_streak_of_run Samples.clk online Samples.run_db "u"
                    eq_refl) 3).
    + lia.
    + rewrite Ht, Hrun. cbn [In]. intros d H. lia.
    + rewrite Ht, Hrun. cbn [In]. intros j Hj. lia.
    + rewrite Ht, Hrun. cbn [In]. lia.
  - apply (proj2 (@current_streak_of_run Samples.clk online Samples.stale_db "u"
                    eq_refl)).
    rewrite Hy, Hstale. cbn [In]. intros d H. lia.
Defined.

(** C2 as stated fails: with today and the day after tomorrow logged, the
    dates hold a run of one day ending today (yesterday and tomorrow are not
    logged), yet [currentStreak] is 0 and not 1. *)
Lemma current_streak_of_run_counterexample :
  online t_habit_logs = None
  /\ completion_dates "u" Samples.ahead_db
     = [today Samples.clk; today Samples.clk + 2]
  /\ (forall j, 0 <= j < 1 ->
         In (today Samples.clk - j) (completion_dates "u" Samples.ahead_db))
  /\ ~ In (today Samples.clk - 1) (completion_dates "u" Samples.ahead_db)
  /\ ~ In (today Samples.clk + 1) (completion_dates "u" Samples.ahead_db)
  /\ getStreakData Samples.clk online Samples.ahead_db "u"
     = Resolved {| currentStreak := 0; maxStreak := 0 |}
  /\ currentStreak {| currentStreak := 0; maxStreak := 0 |} <> 1.
Proof.
  destruct sample_dates as (Ht & _ & _ & _ & Hahead).
  rewrite Ht, Hahead. cbn [In].
  split; [reflexivity|]. split; [reflexivity|].
  split; [intros j Hj; lia|]. split; [lia|]. split; [lia|].
  split; [vm_compute; reflexivity|discriminate].
Qed.

(** ** Claims about the monthly rate *)

(** What [getMonthlyStats] returns once the request on the log has
    succeeded, whatever happens to the request on the tasks. *)
Lemma getMonthlyStats_online (c : JS.clock) (net : transport) (db : Tables)
    (u : string) :
  net t_habit_logs = None ->
  getMonthlyStats c net db u =
  Resolved
    {| completed := completed_since u db (month_start c);
       total := habit_count net u db * JS.getDate c (JS.now c);
       rate :=
         rate_of (completed_since u db (month_start c))
           (habit_count net u db * JS.getDate c (JS.now c)) |}.
Proof.
  intros Hnet. unfold getMonthlyStats, request. rewrite Hnet.
  cbn [error data].
  unfold unordered, completed_since, habit_count, own_logs, own_tasks, month_start.
  rewrite !length_map, filter_andb.
  destruct (net t_tasks); cbn [data]; rewrite ?length_map; reflexivity.
Qed.



(** Between two doubles the rounding may differ from that of the exact
    quotient: 29 completions out of 200 are 14.5 percent, and the rate is 14;
    ten out of ten give 100. *)
Example rate_of_samples :
  rate_of 29 200 = 14%float /\ rate_of 10 (2 * 5) = 100%float
  /\ rate_of 1 8 = 13%float /\ rate_of 3 0 = 0%float.
Proof. repeat split; vm_compute; reflexivity. Qed.

(** ** Claims about today's focus *)

Import FocusService.

Lemma getTodayFocusStats_online (c : JS.clock) (net : transport) (db : Tables)
    (u : string) :
  net t_focus_sessions = None ->
  getTodayFocusStats c net db u =
  Resolved
    {| completedCount :=
         Z.of_nat (List.length (work_sessions_since u db (today_start c)));
       totalMinutes :=
         sum (map FocusSessions.duration_minutes
                (work_sessions_since u db (today_start c))) |}.
Proof.
  intros Hnet. unfold getTodayFocusStats, request. rewrite Hnet.
  cbn [error data JS.nullish].
  unfold unordered, work_sessions_since, own_sessions, today_start.
  rewrite focus_filter, length_map, fold_left_minutes, map_map. reflexivity.
Qed.

(** C10: once the request has succeeded, [getTodayFocusStats] counts the
    work sessions of the owner completed since today's midnight and adds
    up their minutes; break sessions change neither number, and both are 0
    when no work session was completed today. *)
Theorem today_focus_counts_work_only (c : JS.clock) (net : transport)
    (db : Tables) (u : string) :
  net t_focus_sessions = None ->
  getTodayFocusStats c net db u =
  Resolved
    {| completedCount :=
         Z.of_nat (List.length (work_sessions_since u db (today_start c)));
       totalMinutes :=
         sum (map FocusSessions.duration_minutes
                (work_sessions_since u db (today_start c))) |}
  /\ (forall db',
         filter (fun s => Mode_eqb (FocusSessions.mode s) work)
           (focus_sessions db')
         = filter (fun s => Mode_eqb (FocusSessions.mode s) work)
             (focus_sessions db) ->
         getTodayFocusStats c net db' u = getTodayFocusStats c net db u)
  /\ ((forall s,
          In s (own_sessions u db) ->
          today_start c <= FocusSessions.completed_at s ->
          FocusSessions.mode s = break) ->
      getTodayFocusStats c net db u
      = Resolved {| completedCount := 0; totalMinutes := 0 |}).
Proof.
  intros Hnet. split; [now apply getTodayFocusStats_online|]. split.
  - intros db' Hsame.
    rewrite !getTodayFocusStats_online by assumption.
    assert (E : work_sessions_since u db' (today_start c)
                = work_sessions_since u db (today_start c))
      by (rewrite !work_sessions_of_work, Hsame; reflexivity).
    now rewrite E.
  - intros Hbreak. rewrite getTodayFocusStats_online by assumption.
    assert (E : work_sessions_since u db (today_start c) = []).
    { unfold work_sessions_since.
      destruct (filter _ _) as [|s l] eqn:Ef; [reflexivity|].
      assert (Hs : In s (s :: l)) by now left.
      rewrite <- Ef in Hs. apply filter_In in Hs as [Hin Hs].
      apply andb_true_iff in Hs as [Hw Ht]. apply Z.leb_le in Ht.
      rewrite (Hbreak s Hin Ht) in Hw. discriminate. }
    now rewrite E.
Qed.

Lemma today_focus_counts_work_only_witness :
  online t_focus_sessions = None
  /\ getTodayFocusStats Samples.clk online Samples.pomodoro_db "u"
     = Resolved {| completedCount := 4; totalMinutes := 100 |}
  /\ getTodayFocusStats Samples.clk online Samples.breaks_db "u"
     = Resolved {| completedCount := 0; totalMinutes := 0 |}.
Proof.
  split; [reflexivity|]. split.
  - rewrite (proj1 (@today_focus_counts_work_only Samples.clk online
                      Samples.pomodoro_db "u" eq_refl)).
    vm_compute. reflexivity.
  - apply (proj2 (proj2 (@today_focus_counts_work_only Samples.clk online
                           Samples.breaks_db "u" eq_refl))).
    intros s Hin _.
    each_member Hin reflexivity.
Defined.

(** ** Claims about the chart *)



(** C3, as amended: once the request has succeeded, the points returned by
    [getFocusChartData] stand in the order in which their keys first appear
    among the owner's work sessions of the period, as the request returned
    them, every key once. *)
Theorem chart_follows_first_appearance (c : JS.clock) (net : transport)
    (db : Tables) (u : string) (p : Period) :
  net t_focus_sessions = None ->
  exists chart,
    getFocusChartData c net db u p = Resolved chart
    /\ map name chart =
       JS.Set_spread String.eqb
         (bucket_keys c p (work_sessions_since u db (startDate_of c p))).
Proof.
  intros Hnet. rewrite (@getFocusChartData_online c net db u p Hnet).
  eexists. split; [reflexivity|].
  rewrite chart_names. apply chart_names_first_appearance.
Qed.

Lemma chart_follows_first_appearance_witness :
  online t_focus_sessions = None
  /\ exists chart,
       getFocusChartData Samples.clk online Samples.afternoon_first_db "u"
         period_day = Resolved chart
       /\ map name chart =
          JS.Set_spread String.eqb
            (bucket_keys Samples.clk period_day
               (work_sessions_since "u" Samples.afternoon_first_db
                  (startDate_of Samples.clk period_day))).
Proof.
  split; [reflexivity|].
  apply chart_follows_first_appearance. reflexivity.
Defined.

(** C3 as stated fails: with the afternoon session stored before the
    morning one, the day chart puts 14:00 before 09:00. *)
Lemma chart_natural_order_counterexample :
  getFocusChartData Samples.clk online Samples.afternoon_first_db "u" period_day
  = Resolved [ {| name := "14:00"; value := 25 |};
               {| name := "09:00"; value := 25 |} ]
  /\ in_natural_order period_day ["14:00"; "09:00"]%string = false
  /\ in_natural_order period_day ["09:00"; "14:00"]%string = true.
Proof. repeat split; vm_compute; reflexivity. Qed.

(** ** Claims about the default chart *)

Import Statistics.

(** C8, as amended: when the chart is empty the page shows the default of
    the period; all its points have value 0 and distinct names; for the week
    and for the year it has exactly one point for every label the aggregator
    can emit (seven weekdays, four quarters); for the day it has the five
    points 00:00, 06:00, 12:00, 18:00 and 23:59. *)
Theorem default_chart_template :
  (forall p, chartData_of [] p = getDefaultChartData p)
  /\ (forall p pt, In pt (getDefaultChartData p) -> value pt = 0)
  /\ (forall p, NoDup (map name (getDefaultChartData p)))
  /\ (forall label,
         bucket_label period_week label <->
         In label (map name (getDefaultChartData period_week)))
  /\ (forall label,
         bucket_label period_year label <->
         In label (map name (getDefaultChartData period_year)))
  /\ List.length (getDefaultChartData period_week) = 7%nat
  /\ List.length (getDefaultChartData period_year) = 4%nat
  /\ map name (getDefaultChartData period_day)
     = ["00:00"; "06:00"; "12:00"; "18:00"; "23:59"]%string.
Proof.
  split; [reflexivity|]. split; [|split; [|split; [|split]]].
  - intros [] pt Hin; simpl in Hin;
      each_member Hin reflexivity.
  - intros []; simpl;
      repeat (constructor;
              [simpl; intros H;
               each_member H discriminate|]);
      constructor.
  - intros label. split.
    + intros (c & t & <-). pose proof (week_key_in_days c t) as H.
      simpl in *. tauto.
    + intros H. simpl in H.
      destruct H as [<-|[<-|[<-|[<-|[<-|[<-|[<-|[]]]]]]]].
      * exists Samples.utc, (4 * 86400000). reflexivity.
      * exists Samples.utc, (5 * 86400000). reflexivity.
      * exists Samples.utc, (6 * 86400000). reflexivity.
      * exists Samples.utc, 0. reflexivity.
      * exists Samples.utc, (1 * 86400000). reflexivity.
      * exists Samples.utc, (2 * 86400000). reflexivity.
      * exists Samples.utc, (3 * 86400000). reflexivity.
  - intros label. split.
    + intros (c & t & <-). pose proof (year_key_in_quarters c t) as H.
      simpl in *. tauto.
    + intros H. simpl in H.
      destruct H as [<-|[<-|[<-|[<-|[]]]]].
      * exists Samples.utc, 0. reflexivity.
      * exists Samples.utc, (90 * 86400000). reflexivity.
      * exists Samples.utc, (181 * 86400000). reflexivity.
      * exists Samples.utc, (273 * 86400000). reflexivity.
  - repeat split; reflexivity.
Qed.

Lemma default_chart_template_witness :
  In {| name := "周三"; value := 0 |} (getDefaultChartData period_week)
  /\ value {| name := "周三"; value := 0 |} = 0
  /\ bucket_label period_week "周三".
Proof.
  assert (H : In {| name := "周三"; value := 0 |} (getDefaultChartData period_week))
    by (simpl; tauto).
  split; [exact H|]. split.
  - exact (proj1 (proj2 default_chart_template) period_week _ H).
  - apply (proj1 (proj2 (proj2 (proj2 default_chart_template)))).
    simpl. tauto.
Defined.

(** C8 as stated fails: a session at one o'clock has the key 01:00 and one on
    the 29th of a month the key 5周, and the defaults of the day and of the
    month have no point of these names. *)
Lemma default_chart_template_counterexample :
  (bucket_label period_day "01:00"
   /\ ~ In "01:00"%string (map name (chartData_of [] period_day)))
  /\ (bucket_label period_month "5周"
      /\ ~ In "5周"%string (map name (chartData_of [] period_month)))
  /\ List.length (chartData_of [] period_day) = 5%nat
  /\ List.length (chartData_of [] period_month) = 4%nat.
Proof.
  split; [|split; [|split; reflexivity]]; split.
  - exists Samples.utc, 3600000. reflexivity.
  - simpl. intros H. each_member H discriminate.
  - exists Samples.utc, (28 * 86400000). reflexivity.
  - simpl. intros H. each_member H discriminate.
Qed.

(** ** Ownership *)

Lemma own_logs_since (u : string) (bound : JS.isodate) (db : Tables) :
  filter
    (fun log =>
       (HabitLogs.user_id log =? u)%string
       && (bound <=? HabitLogs.completed_date log))
    (habit_logs db)
  = filter (fun log => bound <=? HabitLogs.completed_date log) (own_logs u db).
Proof. unfold own_logs. apply filter_andb. Qed.

Lemma own_sessions_since (u : string) (bound : Z) (db : Tables) :
  filter
    (fun s =>
       (FocusSessions.user_id s =? u)%string
       && Mode_eqb (FocusSessions.mode s) work
       && (bound <=? FocusSessions.completed_at s))
    (focus_sessions db)
  = work_sessions_since u db bound.
Proof. unfold work_sessions_since, own_sessions. apply focus_filter. Qed.

(** C9: the aggregation functions read only the rows of the owner
    they are called for: on two database states with the same rows of that
    owner, whatever the rows of the others, each returns the same result. *)
Theorem aggregations_read_own_rows (c : JS.clock) (net : transport)
    (db1 db2 : Tables) (u : string) :
  same_rows_of u db1 db2 ->
  (forall days,
      getHabitHeatmap c net db1 u days = getHabitHeatmap c net db2 u days)
  /\ getStreakData c net db1 u = getStreakData c net db2 u
  /\ getMonthlyStats c net db1 u = getMonthlyStats c net db2 u
  /\ (forall p,
         getFocusChartData c net db1 u p = getFocusChartData c net db2 u p)
  /\ getTodayFocusStats c net db1 u = getTodayFocusStats c net db2 u.
Proof.
  intros (Hlogs & Htasks & Hsessions).
  split; [|split; [|split; [|split]]].
  - intros days. unfold getHabitHeatmap, request.
    rewrite !own_logs_since, Hlogs. reflexivity.
  - unfold getStreakData, request.
    change (filter (fun log => (HabitLogs.user_id log =? u)%string)
              (habit_logs db1)) with (own_logs u db1).
    change (filter (fun log => (HabitLogs.user_id log =? u)%string)
              (habit_logs db2)) with (own_logs u db2).
    rewrite Hlogs. reflexivity.
  - unfold getMonthlyStats, request.
    rewrite !own_logs_since.
    change (filter (fun task => (Tasks.user_id task =? u)%string) (tasks db1))
      with (own_tasks u db1).
    change (filter (fun task => (Tasks.user_id task =? u)%string) (tasks db2))
      with (own_tasks u db2).
    rewrite Hlogs, Htasks. reflexivity.
  - intros p. unfold getFocusChartData, request.
    rewrite !own_sessions_since. unfold work_sessions_since.
    rewrite Hsessions. reflexivity.
  - unfold getTodayFocusStats, request.
    rewrite !own_sessions_since. unfold work_sessions_since.
    rewrite Hsessions. reflexivity.
Qed.

Lemma aggregations_read_own_rows_witness :
  same_rows_of "u" Samples.pomodoro_db Samples.pomodoro_db'
  /\ Samples.pomodoro_db <> Samples.pomodoro_db'
  /\ getFocusChartData Samples.clk online Samples.pomodoro_db "u" period_day
     = getFocusChartData Samples.clk online Samples.pomodoro_db' "u" period_day
  /\ getStreakData Samples.clk online Samples.pomodoro_db "u"
     = getStreakData Samples.clk online Samples.pomodoro_db' "u".
Proof.
  assert (H : same_rows_of "u" Samples.pomodoro_db Samples.pomodoro_db')
    by (repeat split; reflexivity).
  split; [exact H|]. split; [discriminate|].
  pose proof (@aggregations_read_own_rows Samples.clk online
                Samples.pomodoro_db Samples.pomodoro_db' "u" H)
    as (_ & Hstreak & _ & Hchart & _).
  split; [apply Hchart|exact Hstreak].
Defined.

Import Terms.

(** ** More about the streak *)

Lemma current_loop_bounds (rest : list JS.isodate) : forall prev acc,
  acc <= current_loop prev rest acc <= acc + Z.of_nat (List.length rest).
Proof.
  induction rest as [|curr rest IH]; intros prev acc; cbn [current_loop List.length].
  - lia.
  - destruct (diff prev curr =? 1).
    + specialize (IH curr (acc + 1)). lia.
    + lia.
Qed.

Lemma max_loop_bounds (rest : list JS.isodate) : forall prev temp mx,
  0 <= temp ->
  mx <= max_loop prev rest temp mx
  <= Z.max mx (temp + Z.of_nat (List.length rest)).
Proof.
  induction rest as [|curr rest IH]; intros prev temp mx Htemp;
    cbn [max_loop List.length].
  - lia.
  - destruct (diff prev curr =? 1).
    + specialize (IH curr (temp + 1) (Z.max mx (temp + 1)) ltac:(lia)). lia.
    + specialize (IH curr 1 mx ltac:(lia)). lia.
Qed.

(** Two strictly descending lists with the same members are the same list. *)
Lemma descending_unique (l1 : list Z) : forall l2,
  StronglySorted Z.gt l1 -> StronglySorted Z.gt l2 ->
  (forall x, In x l1 <-> In x l2) -> l1 = l2.
Proof.
  induction l1 as [|a l1 IH]; intros l2 H1 H2 Hsame.
  - destruct l2 as [|b l2]; [reflexivity|].
    exfalso. apply (proj2 (Hsame b)). now left.
  - destruct l2 as [|b l2].
    + exfalso. apply (proj1 (Hsame a)). now left.
    + inversion H1 as [|? ? H1' Ha]; subst.
      inversion H2 as [|? ? H2' Hb]; subst.
      rewrite Forall_forall in Ha, Hb.
      assert (a = b).
      { destruct (proj1 (Hsame a) (or_introl eq_refl)) as [E|Hin]; [now subst|].
        destruct (proj2 (Hsame b) (or_introl eq_refl)) as [E|Hin']; [now subst|].
        specialize (Ha _ Hin'). specialize (Hb _ Hin). lia. }
      subst b. f_equal. apply IH; [assumption..|].
      intros x. split; intros Hx.
      * destruct (proj1 (Hsame x) (or_intror Hx)) as [E|Hin]; [|exact Hin].
        subst x. specialize (Ha _ Hx). lia.
      * destruct (proj2 (Hsame x) (or_intror Hx)) as [E|Hin]; [|exact Hin].
        subst x. specialize (Hb _ Hx). lia.
Qed.

(** The sorted dates depend on the set of the dates alone. *)
Lemma uniqueDates_of_same (data1 data2 : list JS.isodate) :
  (forall d, In d data1 <-> In d data2) ->
  uniqueDates_of data1 = uniqueDates_of data2.
Proof.
  intros Hsame. apply descending_unique; try apply uniqueDates_sorted.
  intros x. rewrite !uniqueDates_In. apply Hsame.
Qed.

(** The walk of the current streak counts a run that starts at [prev]. *)
Lemma current_loop_counts_run (rest : list JS.isodate) : forall prev acc,
  exists k,
    0 <= k /\ current_loop prev rest acc = acc + k
    /\ forall j, 0 <= j <= k -> In (prev - j) (prev :: rest).
Proof.
  induction rest as [|curr rest IH]; intros prev acc; cbn [current_loop].
  - exists 0. split; [lia|]. split; [lia|].
    intros j Hj. left. lia.
  - rewrite diff_days. destruct (prev - curr =? 1) eqn:E.
    + apply Z.eqb_eq in E.
      destruct (IH curr (acc + 1)) as (k & Hk & -> & Hrun).
      exists (k + 1). split; [lia|]. split; [lia|].
      intros j Hj. destruct (Z.eq_dec j 0) as [->|Hne]; [left; lia|].
      right. replace (prev - j) with (curr - (j - 1)) by lia.
      apply Hrun. lia.
    + exists 0. split; [lia|]. split; [lia|].
      intros j Hj. left. lia.
Qed.

(** The walk of the highest streak reaches every run of two days or more. *)
Lemma max_loop_reaches_runs (rest : list JS.isodate) : forall prev temp mx,
  1 <= temp ->
  StronglySorted Z.gt (prev :: rest) ->
  forall d r,
    2 <= r -> d <= prev -> run_of (prev :: rest) d r ->
    (d = prev -> temp + r - 1 <= max_loop prev rest temp mx)
    /\ (d < prev -> r <= max_loop prev rest temp mx).
Proof.
  induction rest as [|curr rest IH]; intros prev temp mx Htemp Hs d r Hr Hd Hrun.
  - exfalso. destruct (Hrun 0 ltac:(lia)) as [E0|[]].
    destruct (Hrun 1 ltac:(lia)) as [E1|[]]. lia.
  - inversion Hs as [|? ? Hs' Hprev]; subst.
    rewrite Forall_forall in Hprev.
    pose proof (Hprev curr (or_introl eq_refl)) as Hcurr.
    assert (Hbelow : forall x, In x (curr :: rest) -> x <= curr).
    { intros x [<-|Hx]; [lia|].
      inversion Hs' as [|? ? _ Hc]; subst. rewrite Forall_forall in Hc.
      specialize (Hc _ Hx). lia. }
    assert (Htail : forall e r', e < prev -> run_of (prev :: curr :: rest) e r' ->
                                 run_of (curr :: rest) e r').
    { intros e r' He Hrun' j Hj.
      destruct (Hrun' j Hj) as [E|Hin]; [lia|exact Hin]. }
    cbn [max_loop]. rewrite diff_days.
    destruct (prev - curr =? 1) eqn:E.
    + apply Z.eqb_eq in E.
      pose proof (@max_loop_bounds rest curr (temp + 1) (Z.max mx (temp + 1))
                    ltac:(lia)) as Hb.
      split.
      * intros ->.
        destruct (Z.eq_dec r 2) as [->|Hr2]; [lia|].
        assert (Hrun' : run_of (curr :: rest) curr (r - 1)).
        { intros j Hj. destruct (Hrun (j + 1) ltac:(lia)) as [E'|Hin]; [lia|].
          replace (curr - j) with (prev - (j + 1)) by lia. exact Hin. }
        destruct (IH curr (temp + 1) (Z.max mx (temp + 1)) ltac:(lia) Hs'
                    curr (r - 1) ltac:(lia) ltac:(lia) Hrun') as [H1 _].
        specialize (H1 eq_refl). lia.
      * intros Hlt.
        assert (Hd' : d <= curr).
        { apply Hbelow. destruct (Hrun 0 ltac:(lia)) as [E'|Hin]; [lia|].
          now replace (d - 0) with d in Hin by lia. }
        destruct (IH curr (temp + 1) (Z.max mx (temp + 1)) ltac:(lia) Hs'
                    d r Hr Hd' (Htail d r Hlt Hrun)) as [H1 H2].
        destruct (Z.eq_dec d curr) as [Ed|Hne]; [specialize (H1 Ed)|specialize (H2 ltac:(lia))]; lia.
    + apply Z.eqb_neq in E. split.
      * intros ->. exfalso.
        destruct (Hrun 1 ltac:(lia)) as [E'|Hin]; [lia|].
        specialize (Hbelow _ Hin). lia.
      * intros Hlt.
        assert (Hd' : d <= curr).
        { apply Hbelow. destruct (Hrun 0 ltac:(lia)) as [E'|Hin]; [lia|].
          now replace (d - 0) with d in Hin by lia. }
        destruct (IH curr 1 mx ltac:(lia) Hs'
                    d r Hr Hd' (Htail d r Hlt Hrun)) as [H1 H2].
        destruct (Z.eq_dec d curr) as [Ed|Hne]; [specialize (H1 Ed)|specialize (H2 ltac:(lia))]; lia.
Qed.

(** What the walk of the highest streak returns is the bound it started
    with or the length of a run of the dates. *)
Lemma max_loop_attained (dates rest : list JS.isodate) : forall prev temp mx,
  1 <= temp ->
  incl (prev :: rest) dates ->
  run_of dates (prev + temp - 1) temp ->
  max_loop prev rest temp mx = mx
  \/ exists d, run_of dates d (max_loop prev rest temp mx).
Proof.
  induction rest as [|curr rest IH]; intros prev temp mx Htemp Hincl Hrun;
    cbn [max_loop].
  - now left.
  - assert (Hincl' : incl (curr :: rest) dates)
      by (intros x Hx; apply Hincl; now right).
    rewrite diff_days. destruct (prev - curr =? 1) eqn:E.
    + apply Z.eqb_eq in E.
      assert (Hrun' : run_of dates (curr + (temp + 1) - 1) (temp + 1)).
      { intros j Hj. destruct (Z.eq_dec j temp) as [->|Hne].
        - replace (curr + (temp + 1) - 1 - temp) with curr by lia.
          apply Hincl'. now left.
        - replace (curr + (temp + 1) - 1 - j) with (prev + temp - 1 - j) by lia.
          apply Hrun. lia. }
      destruct (IH curr (temp + 1) (Z.max mx (temp + 1)) ltac:(lia) Hincl' Hrun')
        as [Heq|Hex]; [|now right].
      rewrite Heq. destruct (Z.max_spec mx (temp + 1)) as [[_ ->]|[_ ->]].
      * right. now exists (curr + (temp + 1) - 1).
      * now left.
    + apply (IH curr 1 mx ltac:(lia) Hincl').
      intros j Hj. replace (curr + 1 - 1 - j) with curr by lia.
      apply Hincl'. now left.
Qed.

Lemma streak_of_dates_same (c : JS.clock) (data1 data2 : list JS.isodate) :
  (forall d, In d data1 <-> In d data2) ->
  streak_of_dates c data1 = streak_of_dates c data2.
Proof.
  intros Hsame. unfold streak_of_dates.
  now rewrite (uniqueDates_of_same data1 data2 Hsame).
Qed.

(** Once the request has succeeded, [getStreakData] is the streak of the
    owner's completion dates, however the rows were ordered. *)
Lemma getStreakData_of_dates (c : JS.clock) (net : transport) (db : Tables)
    (u : string) :
  net t_habit_logs = None ->
  getStreakData c net db u
  = Resolved (streak_of_dates c (completion_dates u db)).
Proof.
  intros Hnet. unfold getStreakData, request. rewrite Hnet. cbn [error data].
  match goal with
  | |- context [map HabitLogs.completed_date ?rows] =>
      set (data := map HabitLogs.completed_date rows)
  end.
  assert (Hperm : Permutation data (completion_dates u db))
    by (apply Permutation_map, Array_sort_perm).
  assert (Hsame : forall d, In d data <-> In d (completion_dates u db)).
  { intros d. split; apply Permutation_in;
      [|apply Permutation_sym]; exact Hperm. }
  rewrite <- (streak_of_dates_same c _ _ Hsame).
  destruct data; reflexivity.
Qed.

(** X1: once the request has succeeded, the streaks returned by
    [getStreakData] satisfy [0 <= currentStreak <= maxStreak], and
    [maxStreak] is at most the number of different days with a
    completion. *)
Theorem streak_within_logged_days (c : JS.clock) (net : transport)
    (db : Tables) (u : string) :
  net t_habit_logs = None ->
  exists s,
    getStreakData c net db u = Resolved s
    /\ 0 <= currentStreak s <= maxStreak s
    /\ maxStreak s <= distinct_days u db.
Proof.
  intros Hnet. rewrite (getStreakData_of_dates c net db u Hnet).
  eexists. split; [reflexivity|].
  unfold distinct_days, streak_of_dates.
  destruct (uniqueDates_of (completion_dates u db)) as [|first rest];
    cbn [currentStreak maxStreak List.length]; [lia|].
  pose proof (current_loop_bounds rest first 1) as Hc.
  pose proof (@max_loop_bounds rest first 1 0 ltac:(lia)) as Hm.
  destruct ((first =? JS.toISODate (JS.now c))
            || (first =? JS.toISODate (JS.now c - 86400000))); lia.
Qed.

Lemma streak_within_logged_days_witness :
  online t_habit_logs = None
  /\ exists s,
       getStreakData Samples.clk online Samples.run_db "u" = Resolved s
       /\ 0 <= currentStreak s <= maxStreak s
       /\ maxStreak s <= distinct_days "u" Samples.run_db.
Proof.
  split; [reflexivity|]. apply streak_within_logged_days. reflexivity.
Defined.

(** X2: [getStreakData] depends on the set of the owner's completion dates
    alone: two database states in which the owner has completions on the
    same days give the same result, whatever the number, the habits and the
    order of the rows. *)
Theorem streak_depends_on_days_only (c : JS.clock) (net : transport)
    (db1 db2 : Tables) (u : string) :
  (forall d, In d (completion_dates u db1) <-> In d (completion_dates u db2)) ->
  getStreakData c net db1 u = getStreakData c net db2 u.
Proof.
  intros Hsame. destruct (net t_habit_logs) as [e|] eqn:Hnet.
  - unfold getStreakData, request. rewrite Hnet. reflexivity.
  - rewrite !getStreakData_of_dates by assumption.
    now rewrite (streak_of_dates_same c _ _ Hsame).
Qed.

Lemma streak_depends_on_days_only_witness :
  (forall d, In d (completion_dates "u" Samples.run_db)
             <-> In d (completion_dates "u" MoreSamples.run_db'))
  /\ getStreakData Samples.clk online Samples.run_db "u"
     = getStreakData Samples.clk online MoreSamples.run_db' "u".
Proof.
  assert (H : forall d, In d (completion_dates "u" Samples.run_db)
                        <-> In d (completion_dates "u" MoreSamples.run_db')).
  { intros d. change (completion_dates "u" Samples.run_db)
      with [19792; 19797; 19797; 19795; 19796].
    change (completion_dates "u" MoreSamples.run_db')
      with [19796; 19795; 19797; 19792].
    cbn [In]. tauto. }
  split; [exact H|]. apply streak_depends_on_days_only, H.
Defined.

(** X3: once the request has succeeded, [maxStreak] is at least the length
    of every run of two or more consecutive days with a completion, and
    when it is not 0 it is the length of such a run of days. *)
Theorem max_streak_is_a_longest_run (c : JS.clock) (net : transport)
    (db : Tables) (u : string) :
  net t_habit_logs = None ->
  exists s,
    getStreakData c net db u = Resolved s
    /\ (forall d r,
           2 <= r -> run_of (completion_dates u db) d r -> r <= maxStreak s)
    /\ (1 <= maxStreak s ->
        exists d, run_of (completion_dates u db) d (maxStreak s)).
Proof.
  intros Hnet. rewrite (getStreakData_of_dates c net db u Hnet).
  eexists. split; [reflexivity|].
  set (dates := completion_dates u db).
  pose proof (uniqueDates_sorted dates) as Hs.
  assert (Hin : forall d, In d (uniqueDates_of dates) <-> In d dates)
    by apply uniqueDates_In.
  unfold streak_of_dates.
  destruct (uniqueDates_of dates) as [|first rest] eqn:E; cbn [maxStreak].
  - split; [|lia]. intros d r Hr Hrun. exfalso.
    apply (proj2 (Hin (d - 0))). apply Hrun. lia.
  - split.
    + intros d r Hr Hrun.
      assert (Hrun' : run_of (first :: rest) d r)
        by (intros j Hj; apply Hin, Hrun, Hj).
      assert (Hd : d <= first).
      { destruct (@uniqueDates_head dates _ _ E) as [_ Hmax].
        apply Hmax. replace d with (d - 0) by lia. apply Hrun. lia. }
      destruct (@max_loop_reaches_runs rest first 1 0 ltac:(lia) Hs d r Hr Hd Hrun')
        as [H1 H2].
      destruct (Z.eq_dec d first) as [Ed|Hne];
        [specialize (H1 Ed)|specialize (H2 ltac:(lia))]; lia.
    + intros Hpos.
      assert (Hincl : incl (first :: rest) dates)
        by (intros x Hx; apply Hin, Hx).
      assert (Hone : run_of dates (first + 1 - 1) 1).
      { intros j Hj. replace (first + 1 - 1 - j) with first by lia.
        apply Hincl. now left. }
      destruct (@max_loop_attained dates rest first 1 0 ltac:(lia) Hincl Hone)
        as [H0|[d Hd]].
      * rewrite H0 in *.
        destruct ((first =? JS.toISODate (JS.now c))
                  || (first =? JS.toISODate (JS.now c - 86400000))); [|lia].
        destruct (current_loop_counts_run rest first 1) as (k & Hk & Hcur & Hrun).
        rewrite Hcur in *. exists first.
        replace (Z.max 0 (1 + k)) with (1 + k) by lia.
        intros j Hj. apply Hincl, Hrun. lia.
      * destruct (Z.max_spec (max_loop first rest 1 0)
                    (if (first =? JS.toISODate (JS.now c))
                        || (first =? JS.toISODate (JS.now c - 86400000))
                     then current_loop first rest 1 else 0)) as [[_ Hmax]|[_ Hmax]];
          rewrite Hmax in *.
        -- destruct ((first =? JS.toISODate (JS.now c))
                     || (first =? JS.toISODate (JS.now c - 86400000))); [|lia].
           destruct (current_loop_counts_run rest first 1) as (k & Hk & Hcur & Hrun).
           rewrite Hcur. exists first.
           intros j Hj. apply Hincl, Hrun. lia.
        -- now exists d.
Qed.

Lemma max_streak_is_a_longest_run_witness :
  online t_habit_logs = None
  /\ exists s,
       getStreakData Samples.clk online Samples.run_db "u" = Resolved s
       /\ (forall d r,
              2 <= r -> run_of (completion_dates "u" Samples.run_db) d r ->
              r <= maxStreak s)
       /\ (1 <= maxStreak s ->
           exists d, run_of (completion_dates "u" Samples.run_db) d (maxStreak s)).
Proof.
  split; [reflexivity|]. apply max_streak_is_a_longest_run. reflexivity.
Defined.

(** X4: a day without a completion does not end the streak before it is
    over: once the request has succeeded, when the latest completion is
    yesterday's and the dates hold the [k] days ending yesterday but not the
    day before them, [currentStreak = k]. *)
Theorem current_streak_from_yesterday (c : JS.clock) (net : transport)
    (db : Tables) (u : string) (k : Z) :
  net t_habit_logs = None ->
  1 <= k ->
  (forall d, In d (completion_dates u db) -> d <= yesterday c) ->
  run_of (completion_dates u db) (yesterday c) k ->
  ~ In (yesterday c - k) (completion_dates u db) ->
  exists m,
    getStreakData c net db u
    = Resolved {| currentStreak := k; maxStreak := m |}.
Proof.
  intros Hnet Hk Hle Hrun Hstop.
  rewrite (getStreakData_of_dates c net db u Hnet).
  set (dates := completion_dates u db) in *.
  pose proof (uniqueDates_sorted dates) as Hs.
  assert (Hin : forall d, In d (uniqueDates_of dates) <-> In d dates)
    by apply uniqueDates_In.
  unfold streak_of_dates. rewrite toISODate_day_before.
  change (JS.toISODate (JS.now c)) with (today c).
  change (today c - 1) with (yesterday c).
  destruct (uniqueDates_of dates) as [|first rest] eqn:E.
  - exfalso. apply (proj2 (Hin (yesterday c - 0))). apply Hrun. lia.
  - assert (Hfirst : first = yesterday c).
    { destruct (@uniqueDates_head dates _ _ E) as [Hf Hmax].
      specialize (Hle _ Hf).
      specialize (Hmax (yesterday c - 0) (Hrun 0 ltac:(lia))). lia. }
    subst first. rewrite Z.eqb_refl, orb_true_r.
    rewrite (@current_loop_run (Z.to_nat (k - 1)) (yesterday c) rest 1 Hs).
    + eexists. do 2 f_equal. lia.
    + intros j Hj. apply Hin, Hrun. lia.
    + intros H. apply Hstop, Hin.
      replace (yesterday c - k)
        with (yesterday c - Z.of_nat (Z.to_nat (k - 1)) - 1) by lia.
      exact H.
Qed.

Lemma current_streak_from_yesterday_witness :
  online t_habit_logs = None /\ 1 <= 2
  /\ exists m,
       getStreakData Samples.clk online MoreSamples.yesterday_db "u"
       = Resolved {| currentStreak := 2; maxStreak := m |}.
Proof.
  split; [reflexivity|]. split; [lia|].
  apply current_streak_from_yesterday; [reflexivity|lia|..];
    change (completion_dates "u" MoreSamples.yesterday_db)
      with [19795; 19796; 19796];
    change (yesterday Samples.clk) with 19796.
  - cbn [In]. intros d H. lia.
  - intros j Hj. cbn [In]. lia.
  - cbn [In]. lia.
Defined.

(** ** More about the heatmap *)

Lemma filter_length_split (lo hi : Z) (l : list Z) :
  lo <= hi + 1 ->
  List.length (filter (fun x => (lo <=? x) && (x <=? hi + 1)) l)
  = Nat.add (List.length (filter (fun x => (lo <=? x) && (x <=? hi)) l))
      (List.length (filter (Z.eqb (hi + 1)) l)).
Proof.
  intros Hlo. induction l as [|x l IH]; [reflexivity|].
  cbn [filter].
  destruct (lo <=? x) eqn:E1, (x <=? hi + 1) eqn:E2, (x <=? hi) eqn:E3,
    (hi + 1 =? x) eqn:E4; cbn [andb List.length]; rewrite IH; try lia;
    exfalso;
    repeat match goal with
           | H : (_ <=? _) = true |- _ => apply Z.leb_le in H
           | H : (_ <=? _) = false |- _ => apply Z.leb_gt in H
           | H : (_ =? _) = true |- _ => apply Z.eqb_eq in H
           | H : (_ =? _) = false |- _ => apply Z.eqb_neq in H
           end; lia.
Qed.

(** Adding up the numbers of dates equal to [lo], [lo + 1], .. counts the
    dates of that range. *)
Lemma count_range (l : list Z) (lo : Z) (n : nat) :
  sum (map (fun j => Z.of_nat (List.length (filter (Z.eqb (lo + Z.of_nat j)) l)))
         (seq 0 n))
  = Z.of_nat
      (List.length
         (filter (fun x => (lo <=? x) && (x <=? lo + Z.of_nat n - 1)) l)).
Proof.
  induction n as [|n IH].
  - cbn [seq map]. unfold sum. cbn [fold_right].
    replace (filter _ l) with (@nil Z); [reflexivity|].
    symmetry. induction l as [|x l IHl]; [reflexivity|].
    cbn [filter]. rewrite <- IHl.
    destruct (lo <=? x) eqn:E1, (x <=? lo + Z.of_nat 0 - 1) eqn:E2;
      try reflexivity.
    apply Z.leb_le in E1, E2. lia.
  - rewrite seq_S, map_app. cbn [map Nat.add].
    unfold sum in *. rewrite fold_right_app. cbn [fold_right].
    replace (lo + Z.of_nat (S n) - 1) with (lo + Z.of_nat n - 1 + 1) by lia.
    rewrite filter_length_split by lia.
    replace (lo + Z.of_nat n - 1 + 1) with (lo + Z.of_nat n) by lia.
    rewrite Nat2Z.inj_add, <- IH.
    generalize (Z.of_nat (List.length (filter (Z.eqb (lo + Z.of_nat n)) l))).
    intros v. clear. induction (seq 0 n) as [|j s IHs]; cbn [map fold_right]; lia.
Qed.

Lemma logs_between_dates (u : string) (db : Tables) (lo hi : JS.isodate) :
  List.length (logs_between u db lo hi)
  = List.length
      (filter (fun x => (lo <=? x) && (x <=? hi)) (completion_dates u db)).
Proof.
  unfold logs_between, completion_dates.
  now rewrite filter_map_swap, length_map.
Qed.

(** The cells of the heatmap, once the request has succeeded and for a
    window of [n - 1] days. *)
Lemma heatmap_cells (c : JS.clock) (net : transport) (db : Tables)
    (u : string) (n : nat) :
  net t_habit_logs = None ->
  exists m,
    getHabitHeatmap c net db u (Z.of_nat n - 1)
    = Resolved
        (map (fun j => heatmap_cell c m (Z.of_nat n - 1 - Z.of_nat j)) (seq 0 n))
    /\ forall j, (j < n)%nat ->
         count (heatmap_cell c m (Z.of_nat n - 1 - Z.of_nat j))
         = completions_on u db (today c - (Z.of_nat n - 1) + Z.of_nat j).
Proof.
  intros Hnet. rewrite (getHabitHeatmap_online c net db u (Z.of_nat n - 1) Hnet).
  eexists. split.
  - replace (Z.to_nat (Z.of_nat n - 1 + 1)) with n by lia.
    rewrite heatmap_loop_unfold. reflexivity.
  - intros j Hj. rewrite heatmap_cell_count by lia. f_equal. lia.
Qed.



(** X6: every cell returned by [getHabitHeatmap] has a level that is an
    index of the four colours of the page, and the colour of an empty day
    (level 0) is given to the days without a completion and to no other. *)
Theorem heatmap_level_is_a_colour (c : JS.clock) (net : transport)
    (db : Tables) (u : string) (days : Z) (cells : list HeatmapCell)
    (cell : HeatmapCell) :
  getHabitHeatmap c net db u days = Resolved cells ->
  In cell cells ->
  (exists colour,
      nth_error heatmapColors (Z.to_nat (level cell)) = Some colour)
  /\ 0 <= level cell <= 3
  /\ (level cell = 0 <-> count cell = 0).
Proof.
  intros Hres Hin. unfold getHabitHeatmap in Hres.
  destruct (error _) in Hres; [discriminate|].
  injection Hres as <-.
  apply heatmap_loop_In in Hin as [[]|[i ->]].
  unfold heatmap_cell. cbn [count level].
  rewrite count_dates_get.
  set (n := Z.of_nat _). assert (Hn : 0 <= n) by lia. clearbody n.
  assert (Hl : 0 <= level_of_count n <= 3 /\ (level_of_count n = 0 <-> n = 0)).
  { unfold level_of_count. case_geb; lia. }
  destruct Hl as [Hl Hz]. split; [|split; assumption].
  assert (Hc : level_of_count n = 0 \/ level_of_count n = 1
               \/ level_of_count n = 2 \/ level_of_count n = 3) by lia.
  destruct Hc as [-> |[-> |[-> | ->]]]; eexists; reflexivity.
Qed.

Lemma heatmap_level_is_a_colour_witness :
  getHabitHeatmap Samples.clk online Samples.heat_db "u" 3
  = Resolved Samples.heat_cells
  /\ In {| date := Samples.friday; count := 6; level := 3 |} Samples.heat_cells
  /\ (exists colour, nth_error heatmapColors (Z.to_nat 3) = Some colour)
  /\ 0 <= 3 <= 3
  /\ (3 = 0 <-> 6 = 0).
Proof.
  assert (H1 : getHabitHeatmap Samples.clk online Samples.heat_db "u" 3
               = Resolved Samples.heat_cells) by (vm_compute; reflexivity).
  assert (H2 : In {| date := Samples.friday; count := 6; level := 3 |}
                 Samples.heat_cells) by (cbn; tauto).
  split; [exact H1|]. split; [exact H2|].
  exact (@heatmap_level_is_a_colour Samples.clk online Samples.heat_db "u" 3
           Samples.heat_cells _ H1 H2).
Defined.

(** ** More about the chart *)

Lemma sum_cons (x : Z) (l : list Z) : sum (x :: l) = x + sum l.
Proof. reflexivity. Qed.

Lemma sum_map_add (A : Type) (f g : A -> Z) (l : list A) :
  sum (map (fun a => f a + g a) l) = sum (map f l) + sum (map g l).
Proof.
  induction l as [|a l IH]; [reflexivity|].
  cbn [map]. rewrite !sum_cons, IH. lia.
Qed.

Section Totals.
Variables K A : Type.
Variable eqb : K -> K -> bool.
Hypothesis eqb_eq : forall x y, eqb x y = true <-> x = y.
Variable key : A -> K.
Variable amount : A -> Z.

(** A key that stands once in a list is counted once. *)
Lemma sum_of_one_key (k : K) (v : Z) (ks : list K) :
NoDup ks -> In k ks ->
sum (map (fun k' => if eqb k k' then v else 0) ks) = v.
Proof.
induction ks as [|k0 ks IH]; intros Hnd Hin; [destruct Hin|].
inversion Hnd as [|? ? Hnotin Hnd']; subst.
cbn [map]. rewrite sum_cons.
destruct Hin as [->|Hin].
- rewrite (key_eqb_refl eqb eqb_eq).
  replace (sum _) with 0; [lia|].
  clear IH Hnd Hnd'. induction ks as [|k1 ks IH]; [reflexivity|].
  cbn [map]. rewrite sum_cons.
  rewrite (key_eqb_neq eqb eqb_eq)
    by (intros ->; apply Hnotin; now left).
  rewrite <- IH; [reflexivity|]. intros H. apply Hnotin. now right.
- rewrite (key_eqb_neq eqb eqb_eq)
    by (intros ->; contradiction).
  rewrite IH by assumption. lia.
Qed.

(** The totals of the keys add up to the total of the list. *)
Lemma totals_add_up (ks : list K) (l : list A) :
NoDup ks ->
(forall a, In a l -> In (key a) ks) ->
sum (map (fun k => total_for eqb key amount k l) ks) = sum (map amount l).
Proof.
intros Hnd. induction l as [|a l IH]; intros Hkeys.
- unfold total_for. cbn [filter map]. clear.
  induction ks as [|k ks IH]; [reflexivity|].
  cbn [map]. now rewrite sum_cons, IH.
- rewrite (map_ext _
             (fun k => (if eqb (key a) k then amount a else 0)
                       + total_for eqb key amount k l)).
  + rewrite sum_map_add, IH by (intros b Hb; apply Hkeys; now right).
    rewrite sum_of_one_key by (try assumption; apply Hkeys; now left).
    cbn [map]. now rewrite sum_cons.
  + intros k. unfold total_for. cbn [filter].
    destruct (eqb (key a) k); cbn [map]; rewrite ?sum_cons; lia.
Qed.
End Totals.

(** The values of a map whose entries are given by their keys. *)
Lemma Map_values_by_key (K : Type) (f : K -> Z) (m : JS.Map K Z) :
  (forall k v, In (k, v) m -> v = f k) ->
  map snd m = map f (map fst m).
Proof.
  induction m as [|[k v] m IH]; intros H; [reflexivity|].
  cbn [map fst snd]. f_equal.
  - apply H. now left.
  - apply IH. intros k' v' Hin. apply H. now right.
Qed.

(** The chart, once the request has succeeded: its names and its values. *)
Lemma chart_names_and_values (c : JS.clock) (net : transport) (db : Tables)
    (u : string) (p : Period) :
  net t_focus_sessions = None ->
  exists chart,
    getFocusChartData c net db u p = Resolved chart
    /\ map name chart
       = JS.Set_spread String.eqb
           (bucket_keys c p (work_sessions_since u db (startDate_of c p)))
    /\ map value chart
       = map (bucket_minutes c p (work_sessions_since u db (startDate_of c p)))
           (map name chart).
Proof.
  intros Hnet. rewrite (getFocusChartData_online c net db u p Hnet).
  set (W := work_sessions_since u db (startDate_of c p)).
  set (rows := map _ W).
  set (m := accumulate _ _ _ rows []).
  assert (Hkeys : map fst m = JS.Set_spread String.eqb (bucket_keys c p W))
    by apply chart_names_first_appearance.
  assert (Hnd : NoDup (map fst m))
    by (rewrite Hkeys; apply (Set_spread_from_NoDup String.eqb String.eqb_eq)).
  eexists. split; [reflexivity|]. rewrite chart_names. split; [exact Hkeys|].
  replace (map value (map _ m)) with (map snd m)
    by (rewrite map_map; apply map_ext; now intros [k v]).
  apply Map_values_by_key. intros k v Hin.
  pose proof (Map_get_entry String.eqb String.eqb_eq m k v Hnd Hin) as Hget.
  subst m. rewrite (accumulate_get String.eqb String.eqb_eq) in Hget.
  cbn [JS.Map_get] in Hget. subst rows. rewrite chart_total in Hget.
  destruct (existsb _ _) in Hget; [|discriminate].
  now injection Hget as <-.
Qed.

Lemma bucket_minutes_total (c : JS.clock) (p : Period)
    (l : list FocusSessions.Row) (k : string) :
  bucket_minutes c p l k
  = total_for String.eqb
      (fun s => bucket_key c p (FocusSessions.completed_at s))
      FocusSessions.duration_minutes k l.
Proof. reflexivity. Qed.

(** X7: once the request has succeeded, the values of the points returned
    by [getFocusChartData] add up to the minutes of all the owner's work
    sessions of the period: every minute is in exactly one bucket. *)
Theorem chart_values_add_up (c : JS.clock) (net : transport) (db : Tables)
    (u : string) (p : Period) :
  net t_focus_sessions = None ->
  exists chart,
    getFocusChartData c net db u p = Resolved chart
    /\ sum (map value chart)
       = sum (map FocusSessions.duration_minutes
                (work_sessions_since u db (startDate_of c p))).
Proof.
  intros Hnet.
  destruct (chart_names_and_values c net db u p Hnet)
    as (chart & Hres & Hnames & Hvalues).
  exists chart. split; [exact Hres|].
  rewrite Hvalues, Hnames.
  rewrite (map_ext _ _ (bucket_minutes_total c p _)).
  apply (totals_add_up String.eqb String.eqb_eq).
  - apply (Set_spread_from_NoDup String.eqb String.eqb_eq).
  - intros s Hs. apply (Set_spread_In String.eqb String.eqb_eq).
    unfold bucket_keys. apply in_map_iff. now exists s.
Qed.

Lemma chart_values_add_up_witness :
  online t_focus_sessions = None
  /\ exists chart,
       getFocusChartData Samples.clk online Samples.pomodoro_db "u" period_week
       = Resolved chart
       /\ sum (map value chart)
          = sum (map FocusSessions.duration_minutes
                   (work_sessions_since "u" Samples.pomodoro_db
                      (startDate_of Samples.clk period_week))).
Proof.
  split; [reflexivity|]. apply chart_values_add_up. reflexivity.
Defined.

(** X8: under one clock and one database state, the day chart and today's
    focus statistics agree: the values of the chart add up to
    [totalMinutes], the chart has at most [completedCount] points, and it is
    empty (so that the page shows the default figure) exactly when
    [completedCount] is 0. *)
Theorem day_chart_agrees_with_today_stats (c : JS.clock) (net : transport)
    (db : Tables) (u : string) :
  net t_focus_sessions = None ->
  exists chart stats,
    getFocusChartData c net db u period_day = Resolved chart
    /\ getTodayFocusStats c net db u = Resolved stats
    /\ sum (map value chart) = totalMinutes stats
    /\ Z.of_nat (List.length chart) <= completedCount stats
    /\ (chart = [] <-> completedCount stats = 0).
Proof.
  intros Hnet.
  destruct (chart_names_and_values c net db u period_day Hnet)
    as (chart & Hres & Hnames & Hvalues).
  assert (Hsum : sum (map value chart)
                 = sum (map FocusSessions.duration_minutes
                          (work_sessions_since u db
                             (startDate_of c period_day)))).
  { rewrite Hvalues, Hnames.
    rewrite (map_ext _ _ (bucket_minutes_total c period_day _)).
    apply (totals_add_up String.eqb String.eqb_eq).
    - apply (Set_spread_from_NoDup String.eqb String.eqb_eq).
    - intros s Hs. apply (Set_spread_In String.eqb String.eqb_eq).
      unfold bucket_keys. apply in_map_iff. now exists s. }
  exists chart. eexists. split; [exact Hres|].
  split; [apply getTodayFocusStats_online, Hnet|].
  cbn [totalMinutes completedCount].
  change (startDate_of c period_day) with (today_start c) in *.
  set (W := work_sessions_since u db (today_start c)) in *.
  split; [exact Hsum|].
  assert (Hlen : List.length chart
                 = List.length (JS.Set_spread String.eqb (bucket_keys c period_day W)))
    by (rewrite <- Hnames; now rewrite length_map).
  assert (Hle : (List.length (JS.Set_spread String.eqb (bucket_keys c period_day W))
                 <= List.length W)%nat).
  { unfold bucket_keys. rewrite <- (length_map (fun s => bucket_key c period_day (FocusSessions.completed_at s)) W).
    apply NoDup_incl_length.
    - apply (Set_spread_from_NoDup String.eqb String.eqb_eq).
    - intros k Hk.
      exact (proj1 (Set_spread_In String.eqb String.eqb_eq _ k) Hk). }
  split; [lia|]. split.
  - intros ->. destruct W as [|s W']; [reflexivity|]. exfalso.
    cbn in Hnames. discriminate.
  - intros H0. destruct W as [|s W']; [|cbn [List.length] in H0; lia].
    destruct chart; [reflexivity|]. cbn in Hlen. discriminate.
Qed.

Lemma day_chart_agrees_with_today_stats_witness :
  online t_focus_sessions = None
  /\ exists chart stats,
       getFocusChartData Samples.clk online Samples.pomodoro_db "u" period_day
       = Resolved chart
       /\ getTodayFocusStats Samples.clk online Samples.pomodoro_db "u"
          = Resolved stats
       /\ sum (map value chart) = totalMinutes stats
       /\ Z.of_nat (List.length chart) <= completedCount stats
       /\ (chart = [] <-> completedCount stats = 0).
Proof.
  split; [reflexivity|]. apply day_chart_agrees_with_today_stats. reflexivity.
Defined.

(** ** The bounds of the periods *)

(** The first of January is not after the first of any month of the year. *)
Lemma january_first (y m : Z) :
  1 <= m <= 12 -> JS.days_from_civil y 1 1 <= JS.days_from_civil y m 1.
Proof.
  intros Hm. unfold JS.days_from_civil.
  replace (1 <=? 2) with true by reflexivity.
  replace (1 >? 2) with false by reflexivity.
  destruct (m <=? 2) eqn:E1; [apply Z.leb_le in E1|apply Z.leb_gt in E1].
  - replace (m >? 2) with false
      by (symmetry; rewrite Z.gtb_ltb; apply Z.ltb_ge; lia).
    assert (153 * (1 + 9) + 2 <= 153 * (m + 9) + 2) by lia.
    pose proof (Z.div_le_mono _ _ 5 ltac:(lia) H). lia.
  - replace (m >? 2) with true by (symmetry; apply Z.gtb_lt; lia).
    assert (Hd : 0 <= (153 * (m - 3) + 2) / 5) by (apply Z.div_pos; lia).
    replace ((153 * (1 + 9) + 2) / 5) with 306 by reflexivity.
    Z.div_mod_to_equations. lia.
Qed.

Lemma first_of_month_days (c : JS.clock) (t : Z) :
  JS.days_from_civil (JS.getFullYear c t) (JS.getMonth c t + 1) 1
  = JS.localDay c t - (JS.getDate c t - 1).
Proof.
  unfold JS.getFullYear, JS.getMonth, JS.getDate.
  pose proof (days_from_civil_from_days (JS.localDay c t)) as H.
  destruct (JS.civil_from_days (JS.localDay c t)) as [[y m] d].
  replace (m - 1 + 1) with m by lia.
  replace 1 with (d - (d - 1)) at 1 by lia.
  rewrite days_from_civil_shift, H. reflexivity.
Qed.

Lemma setHours0_before (c : JS.clock) (t : Z) : JS.setHours0 c t <= t.
Proof.
  unfold JS.setHours0, JS.localDay, JS.localTime, JS.msPerDay.
  pose proof (Z.div_mod (t + JS.tzOffset c) 86400000 ltac:(lia)).
  pose proof (Z.mod_pos_bound (t + JS.tzOffset c) 86400000 ltac:(lia)). lia.
Qed.

Lemma setHours0_days_back (c : JS.clock) (t k : Z) :
  JS.setHours0 c (t - k * JS.msPerDay) = JS.setHours0 c t - k * JS.msPerDay.
Proof.
  unfold JS.setHours0, JS.localDay, JS.localTime, JS.msPerDay.
  replace (t - k * 86400000 + JS.tzOffset c)
    with (t + JS.tzOffset c + (- k) * 86400000) by lia.
  rewrite Z.div_add by lia. lia.
Qed.

Lemma work_sessions_since_incl (u : string) (db : Tables) (lo hi : Z) :
  lo <= hi ->
  incl (work_sessions_since u db hi) (work_sessions_since u db lo).
Proof.
  intros Hle s Hs. unfold work_sessions_since in *.
  apply filter_In in Hs as [Hin Hs]. apply filter_In. split; [exact Hin|].
  apply andb_true_iff in Hs as [Hw Ht]. rewrite Hw. cbn [andb].
  apply Z.leb_le in Ht. apply Z.leb_le. lia.
Qed.


(** ** The start of the month *)

Lemma month_start_days (c : JS.clock) :
  month_start c
  = (first_of_month c * JS.msPerDay - JS.tzOffset c) / JS.msPerDay.
Proof.
  unfold month_start, JS.toISODate, JS.Date_local, first_of_month.
  now rewrite first_of_month_days.
Qed.



(** ** The profile service *)

Import Postgres ProfileService ProfileService.UserProfiles ProfileTerms.

Lemma level_up_closed (fuel : nat) (total lvl : Z) :
  total < XP_PER_LEVEL + XP_PER_LEVEL * Z.of_nat fuel ->
  level_up fuel total lvl
  = (total - XP_PER_LEVEL * levels_gained total, lvl + levels_gained total).
Proof.
  unfold levels_gained, XP_PER_LEVEL.
  revert total lvl; induction fuel as [|fuel IH]; intros total lvl Hfuel.
  - cbn [level_up]. f_equal; (assert (total / 1200 <= 0)
      by (apply Z.lt_succ_r, Z.div_lt_upper_bound; lia)); lia.
  - cbn [level_up]. unfold XP_PER_LEVEL. destruct (Z.geb_spec total 1200) as [Hge|Hlt].
    + rewrite IH by lia.
      replace (total - 1200) with (total + (-1) * 1200) by lia.
      rewrite Z.div_add by lia.
      assert (1 <= total / 1200) by (apply Z.div_le_lower_bound; lia).
      f_equal; lia.
    + assert (total / 1200 <= 0)
        by (apply Z.lt_succ_r, Z.div_lt_upper_bound; lia).
      f_equal; lia.
Qed.

Lemma level_up_fuel (total lvl : Z) :
  level_up (Z.to_nat total) total lvl
  = (total - XP_PER_LEVEL * levels_gained total, lvl + levels_gained total).
Proof. apply level_up_closed. unfold XP_PER_LEVEL. lia. Qed.

Lemma levels_gained_spec (total : Z) :
  0 <= levels_gained total
  /\ total - XP_PER_LEVEL * levels_gained total < XP_PER_LEVEL
  /\ (0 <= total -> 0 <= total - XP_PER_LEVEL * levels_gained total)
  /\ (total < XP_PER_LEVEL -> levels_gained total = 0).
Proof.
  unfold levels_gained, XP_PER_LEVEL.
  pose proof (Z.div_mod total 1200 ltac:(lia)) as Hdm.
  pose proof (Z.mod_pos_bound total 1200 ltac:(lia)) as Hm.
  assert (total < 1200 -> total / 1200 <= 0)
    by (intros; apply Z.lt_succ_r, Z.div_lt_upper_bound; lia).
  repeat split; lia.
Qed.

Section OwnRow.
Variable u : string.
Variable g : Row -> Row.
Hypothesis g_user : forall q, user_id (g q) = user_id q.

Lemma profiles_of_update (ps : list Row) :
  profiles_of u
    (map (fun q => if (user_id q =? u)%string then g q else q) ps)
  = map g (profiles_of u ps).
Proof.
  unfold profiles_of.
  induction ps as [|q ps IH]; [reflexivity|].
  cbn [map filter].
  destruct (user_id q =? u)%string eqn:E.
  - rewrite g_user, E. cbn [map]. now rewrite IH.
  - rewrite E. exact IH.
Qed.

Lemma others_update (ps : list Row) :
  others u (map (fun q => if (user_id q =? u)%string then g q else q) ps)
  = others u ps.
Proof.
  unfold others.
  induction ps as [|q ps IH]; [reflexivity|].
  cbn [map filter].
  destruct (user_id q =? u)%string eqn:E.
  - rewrite g_user, E. cbn [negb]. exact IH.
  - rewrite E. cbn [negb]. now rewrite IH.
Qed.

Lemma length_update (ps : list Row) :
  List.length
    (map (fun q => if (user_id q =? u)%string then g q else q) ps)
  = List.length ps.
Proof. apply length_map. Qed.
End OwnRow.

Lemma updateProfile_online (c : JS.clock) (srv : server) (f : faults)
    (profiles : list Row) (u : string) (p : Row) (updates : ProfileUpdate) :
  f UPDATE = None ->
  profiles_of u profiles = [p] ->
  in_range updates = true ->
  upd_id updates = None ->
  updateProfile c srv f profiles u updates
  = (Resolved (updated srv (stamped updates (JS.now c)) p),
     map (fun q => if (user_id q =? u)%string
                   then updated srv (stamped updates (JS.now c)) q else q)
       profiles).
Proof.
  intros Hf Hp Hr Hid.
  unfold updateProfile, update_single. rewrite Hf.
  replace (in_range (stamped updates (JS.now c))) with true
    by (symmetry; exact Hr).
  cbn [negb upd_id stamped]. rewrite Hid, Hp. reflexivity.
Qed.

Lemma rank_of_level_table (lvl : Z) :
  (lvl < 0 -> rank_of_level lvl = None)
  /\ (0 <= lvl < 5 -> rank_of_level lvl = Some "新手探索者"%string)
  /\ (5 <= lvl < 10 -> rank_of_level lvl = Some "习惯学徒"%string)
  /\ (10 <= lvl < 15 -> rank_of_level lvl = Some "进阶实践者"%string)
  /\ (15 <= lvl < 20 -> rank_of_level lvl = Some "资深坚守者"%string)
  /\ (20 <= lvl < 25 -> rank_of_level lvl = Some "习惯大师"%string)
  /\ (25 <= lvl -> rank_of_level lvl = Some "传奇宗师"%string).
Proof.
  unfold rank_of_level, RANKS_at.
  change (Z.of_nat (List.length RANKS) - 1) with 5.
  repeat split; intros H.
  - assert (lvl / 5 < 0) by (Z.div_mod_to_equations; lia).
    rewrite Z.min_l by lia.
    destruct (Z.ltb_spec (lvl / 5) 0); [reflexivity|lia].
  - replace (lvl / 5) with 0 by (Z.div_mod_to_equations; lia). reflexivity.
  - replace (lvl / 5) with 1 by (Z.div_mod_to_equations; lia). reflexivity.
  - replace (lvl / 5) with 2 by (Z.div_mod_to_equations; lia). reflexivity.
  - replace (lvl / 5) with 3 by (Z.div_mod_to_equations; lia). reflexivity.
  - replace (lvl / 5) with 4 by (Z.div_mod_to_equations; lia). reflexivity.
  - assert (5 <= lvl / 5) by (Z.div_mod_to_equations; lia).
    rewrite Z.min_r by lia. reflexivity.
Qed.

Lemma filter_nil_false (A : Type) (f : A -> bool) (l : list A) :
  filter f l = [] -> forall x, In x l -> f x = false.
Proof.
  induction l as [|y l IH]; intros Hnil x Hin; [destruct Hin|].
  cbn [filter] in Hnil. destruct (f y) eqn:E; [discriminate|].
  destruct Hin as [->|Hin]; [exact E|now apply IH].
Qed.

Lemma existsb_false (A : Type) (f : A -> bool) (l : list A) :
  (forall x, In x l -> f x = false) -> existsb f l = false.
Proof.
  intros H. induction l as [|y l IH]; [reflexivity|].
  cbn [existsb]. rewrite (H y (or_introl eq_refl)). cbn [orb].
  apply IH. intros x Hx. apply H. now right.
Qed.

Lemma profiles_of_app (u : string) (ps qs : list Row) :
  profiles_of u (ps ++ qs) = profiles_of u ps ++ profiles_of u qs.
Proof. apply filter_app. Qed.

Lemma others_app (u : string) (ps qs : list Row) :
  others u (ps ++ qs) = others u ps ++ others u qs.
Proof. apply filter_app. Qed.

Lemma getOrCreateProfile_existing (srv : server) (f : faults)
    (profiles : list Row) (u e : string) (p : Row) :
  f SELECT = None -> profiles_of u profiles = [p] ->
  getOrCreateProfile srv f profiles u e = (Resolved p, profiles).
Proof.
  intros Hs Hp. unfold getOrCreateProfile, select_single.
  now rewrite Hs, Hp.
Qed.

Lemma addXp_online (c : JS.clock) (srv : server) (f : faults)
    (profiles : list Row) (u : string) (p : Row) (xpGain : Z) :
  f SELECT = None -> f UPDATE = None ->
  profiles_of u profiles = [p] ->
  int4 (xp p + xpGain - XP_PER_LEVEL * levels_gained (xp p + xpGain)) = true ->
  int4 (level p + levels_gained (xp p + xpGain)) = true ->
  exists patch,
    upd_level patch = Some (level p + levels_gained (xp p + xpGain))
    /\ upd_xp patch
       = Some (xp p + xpGain - XP_PER_LEVEL * levels_gained (xp p + xpGain))
    /\ upd_rank patch
       = rank_of_level (level p + levels_gained (xp p + xpGain))
    /\ (upd_id patch, upd_nickname patch, upd_email patch,
        upd_avatar_url patch, upd_streak patch, upd_max_streak patch,
        upd_dark_mode patch)
       = (None, None, None, None, None, None, None)
    /\ addXp c srv f profiles u xpGain
       = (Resolved (updated srv patch p),
          map (fun q => if (user_id q =? u)%string
                        then updated srv patch q else q) profiles).
Proof.
  intros Hs Hu Hp Hx Hl.
  eexists (stamped _ (JS.now c)).
  repeat split; cycle 4.
  - unfold addXp, select_single. rewrite Hs, Hp. cbn [single].
    rewrite level_up_fuel.
    apply (@updateProfile_online c srv f profiles u p _ Hu Hp); [|reflexivity].
    unfold in_range. cbn [upd_level upd_xp upd_streak upd_max_streak JS.nullish].
    rewrite Hx, Hl. reflexivity.
  - reflexivity.
  - reflexivity.
  - reflexivity.
  - reflexivity.
Qed.

(** X11: [addXp] turns every full 1200 points into a level.  For a user
    with one profile row and a working network, the stored profile has
    [level + max 0 (total / 1200)] and the rest of [total = xp + xpGain]
    as [xp]: nothing is lost ([1200 * level + xp] grows by [xpGain]), [xp]
    ends below 1200 and, for a total that is not negative, at or above 0; a
    level is never taken back; the rank is the one of the new level; the
    other columns and the rows of the other users are as before. *)
Theorem addXp_levels_up (c : JS.clock) (srv : server) (f : faults)
    (profiles : list Row) (u : string) (p : Row) (xpGain : Z) :
  f SELECT = None -> f UPDATE = None ->
  profiles_of u profiles = [p] ->
  int4 (xp p + xpGain - XP_PER_LEVEL * levels_gained (xp p + xpGain)) = true ->
  int4 (level p + levels_gained (xp p + xpGain)) = true ->
  exists r profiles',
    addXp c srv f profiles u xpGain = (Resolved r, profiles')
    /\ level r = level p + levels_gained (xp p + xpGain)
    /\ xp r = xp p + xpGain - XP_PER_LEVEL * levels_gained (xp p + xpGain)
    /\ XP_PER_LEVEL * level r + xp r
       = XP_PER_LEVEL * level p + xp p + xpGain
    /\ xp r < XP_PER_LEVEL
    /\ (0 <= xp p + xpGain -> 0 <= xp r)
    /\ level p <= level r
    /\ (xp p + xpGain < XP_PER_LEVEL -> level r = level p)
    /\ rank r = rank_of_level (level r) ?? rank p
    /\ identity r = identity p
    /\ updated_at r = NOW srv
    /\ profiles_of u profiles' = [r]
    /\ others u profiles' = others u profiles.
Proof.
  intros Hs Hu Hp Hx Hl.
  destruct (@addXp_online c srv f profiles u p xpGain Hs Hu Hp Hx Hl)
    as (patch & Hlevel & Hxp & Hrank & Hrest & Hrun).
  injection Hrest as Hid Hnick Hmail Hav Hst Hmax Hdark.
  pose proof (levels_gained_spec (xp p + xpGain)) as (Hg0 & Hlt & Hnn & Hsame).
  eexists _, _. split; [exact Hrun|].
  unfold identity.
  cbn [level xp rank id user_id nickname email avatar_url streak max_streak
       dark_mode created_at updated_at updated].
  rewrite Hlevel, Hxp, Hrank, Hid, Hnick, Hmail, Hav, Hst, Hmax, Hdark.
  cbn [JS.nullish].
  repeat split; try lia.
  - rewrite profiles_of_update by reflexivity. now rewrite Hp.
  - apply others_update. reflexivity.
Qed.

Lemma addXp_levels_up_witness :
  exists r profiles',
    addXp Samples.clk ProfileSamples.srv no_faults
      ProfileSamples.two_profiles "u" 40 = (Resolved r, profiles')
    /\ level r = 5 /\ xp r = 20 /\ rank r = "习惯学徒"%string
    /\ others "u" profiles' = others "u" ProfileSamples.two_profiles.
Proof.
  destruct (@addXp_levels_up Samples.clk ProfileSamples.srv no_faults
              ProfileSamples.two_profiles "u"
              (ProfileSamples.profile "id-2" "u" 4 1180 "新手探索者") 40
              eq_refl eq_refl eq_refl eq_refl eq_refl)
    as (r & profiles' & Hrun & Hlevel & Hxp & _ & _ & _ & _ & _ & Hrank
        & _ & _ & _ & Hothers).
  exists r, profiles'.
  split; [exact Hrun|].
  split; [exact Hlevel|].
  split; [exact Hxp|].
  split; [|exact Hothers].
  rewrite Hrank, Hlevel. reflexivity.
Defined.

(** X12: the rank [addXp] stores follows the new level in steps of five:
    below level 5 the first rank, from 5, 10, 15 and 20 the next ones, from
    level 25 on the last one, so it is always one of [RANKS]; for a level
    below 0 the index falls outside the array and the rank is left as it
    was.  The profile [getOrCreateProfile] creates has the rank of its
    level. *)
Theorem addXp_rank_of_level (c : JS.clock) (srv : server) (f : faults)
    (profiles : list Row) (u : string) (p : Row) (xpGain : Z) :
  f SELECT = None -> f UPDATE = None ->
  profiles_of u profiles = [p] ->
  int4 (xp p + xpGain - XP_PER_LEVEL * levels_gained (xp p + xpGain)) = true ->
  int4 (level p + levels_gained (xp p + xpGain)) = true ->
  exists r profiles',
    addXp c srv f profiles u xpGain = (Resolved r, profiles')
    /\ (level r < 0 -> rank r = rank p)
    /\ (0 <= level r -> In (rank r) RANKS)
    /\ (0 <= level r < 5 -> rank r = "新手探索者"%string)
    /\ (5 <= level r < 10 -> rank r = "习惯学徒"%string)
    /\ (10 <= level r < 15 -> rank r = "进阶实践者"%string)
    /\ (15 <= level r < 20 -> rank r = "资深坚守者"%string)
    /\ (20 <= level r < 25 -> rank r = "习惯大师"%string)
    /\ (25 <= level r -> rank r = "传奇宗师"%string)
    /\ (forall e,
          rank_of_level (level (default_profile srv u e))
          = Some (rank (default_profile srv u e))).
Proof.
  intros Hs Hu Hp Hx Hl.
  destruct (@addXp_online c srv f profiles u p xpGain Hs Hu Hp Hx Hl)
    as (patch & Hlevel & _ & Hrank & _ & Hrun).
  eexists _, _. split; [exact Hrun|].
  cbn [level rank updated]. rewrite Hlevel, Hrank. cbn [JS.nullish].
  set (lvl := level p + levels_gained (xp p + xpGain)).
  destruct (rank_of_level_table lvl) as (H0 & H1 & H2 & H3 & H4 & H5 & H6).
  repeat split; try (intros H; first
    [ now rewrite (H0 H) | now rewrite (H1 H) | now rewrite (H2 H)
    | now rewrite (H3 H) | now rewrite (H4 H) | now rewrite (H5 H)
    | now rewrite (H6 H) ]).
  intros H.
  destruct (Z.ltb_spec lvl 5); [rewrite H1 by lia; cbn; tauto|].
  destruct (Z.ltb_spec lvl 10); [rewrite H2 by lia; cbn; tauto|].
  destruct (Z.ltb_spec lvl 15); [rewrite H3 by lia; cbn; tauto|].
  destruct (Z.ltb_spec lvl 20); [rewrite H4 by lia; cbn; tauto|].
  destruct (Z.ltb_spec lvl 25); [rewrite H5 by lia; cbn; tauto|].
  rewrite H6 by lia. cbn; tauto.
Qed.

Lemma addXp_rank_of_level_witness :
  exists r profiles',
    addXp Samples.clk ProfileSamples.srv no_faults
      ProfileSamples.two_profiles "u" 40 = (Resolved r, profiles')
    /\ level r = 5 /\ rank r = "习惯学徒"%string.
Proof.
  destruct (@addXp_rank_of_level Samples.clk ProfileSamples.srv no_faults
              ProfileSamples.two_profiles "u"
              (ProfileSamples.profile "id-2" "u" 4 1180 "新手探索者") 40
              eq_refl eq_refl eq_refl eq_refl eq_refl)
    as (r & profiles' & Hrun & _ & _ & _ & H5 & _).
  exists r, profiles'.
  split; [exact Hrun|].
  assert (Hlevel : level r = 5) by (injection Hrun as <- _; reflexivity).
  split; [exact Hlevel|].
  apply H5. rewrite Hlevel. lia.
Defined.

(** X13: [getOrCreateProfile] creates a profile once.  With a working
    network, a user who has a profile gets it back as it is, whatever the
    e-mail passed; a user who has none gets the default profile (level 1, no
    points, first rank, dark mode, the part of the e-mail before the first
    [@] as nickname), which is added to the table without touching the other
    rows, and every later call returns that same row and changes nothing. *)
Theorem getOrCreateProfile_creates_once (srv : server) (f : faults)
    (profiles : list Row) (u e : string) :
  f SELECT = None -> f INSERT = None ->
  ~ In (gen_random_uuid srv) (map id profiles) ->
  (forall p e',
      profiles_of u profiles = [p] ->
      getOrCreateProfile srv f profiles u e' = (Resolved p, profiles))
  /\ (profiles_of u profiles = [] ->
      exists created,
        getOrCreateProfile srv f profiles u e
        = (Resolved created, profiles ++ [created])
        /\ user_id created = u
        /\ nickname created = split_head "@" e
        /\ email created = e
        /\ (level created, xp created, rank created, streak created,
            max_streak created, dark_mode created, avatar_url created)
           = (1, 0, "新手探索者"%string, 0, 0, true, None)
        /\ profiles_of u (profiles ++ [created]) = [created]
        /\ others u (profiles ++ [created]) = others u profiles
        /\ forall srv' e',
             getOrCreateProfile srv' f (profiles ++ [created]) u e'
             = (Resolved created, profiles ++ [created])).
Proof.
  intros Hs Hi Hfresh. split.
  - intros p e' Hp. now apply getOrCreateProfile_existing.
  - intros Hnone.
    assert (Hmine : profiles_of u (profiles ++ [default_profile srv u e])
                    = [default_profile srv u e]).
    { rewrite profiles_of_app, Hnone. unfold profiles_of.
      cbn [filter user_id default_profile app]. now rewrite String.eqb_refl. }
    exists (default_profile srv u e).
    split; [|repeat split; try reflexivity; try exact Hmine].
    + unfold getOrCreateProfile, select_single, insert_single.
      rewrite Hs, Hnone, Hi. cbn [single PGRST116 code].
      rewrite String.eqb_refl.
      cbn [level xp streak max_streak default_profile int4 negb andb].
      replace (int4 1 && int4 0 && int4 0 && int4 0) with true by reflexivity.
      cbn [negb]. rewrite existsb_false; [reflexivity|].
      intros q Hq. cbn [id user_id default_profile].
      pose proof (filter_nil_false _ _ Hnone q Hq) as Hq'. cbn beta in Hq'.
      rewrite Hq', orb_false_r.
      apply String.eqb_neq. intros Heq. apply Hfresh.
      rewrite <- Heq. now apply in_map.
    + rewrite others_app. unfold others at 2.
      cbn [filter user_id default_profile]. rewrite String.eqb_refl.
      cbn [negb]. apply app_nil_r.
    + intros srv' e'. now apply getOrCreateProfile_existing.
Qed.

Lemma getOrCreateProfile_creates_once_witness :
  exists created,
    getOrCreateProfile ProfileSamples.srv no_faults
      ProfileSamples.two_profiles "w" "w.lee@example.org"
    = (Resolved created, ProfileSamples.two_profiles ++ [created])
    /\ nickname created = "w.lee"%string.
Proof.
  assert (Hfresh : ~ In (gen_random_uuid ProfileSamples.srv)
                     (map id ProfileSamples.two_profiles)).
  { cbn. intros [H|[H|[]]]; discriminate H. }
  destruct (proj2 (@getOrCreateProfile_creates_once ProfileSamples.srv
                     no_faults ProfileSamples.two_profiles "w"
                     "w.lee@example.org" eq_refl eq_refl Hfresh) eq_refl)
    as (created & Hrun & _ & Hnick & _).
  exists created. split; [exact Hrun|exact Hnick].
Defined.

(** X14: [updateProfile] writes to the caller's row only.  With a working
    network and values in the range of the columns, the one row of the user
    takes the fields that are given and keeps the others, [user_id] and
    [created_at] among them; [updated_at] is the time of the database, not
    the time the client sends; the rows of the other users, and the number
    of rows, are as before.  For a user without a profile the call is
    rejected and the table is unchanged. *)
Theorem updateProfile_changes_own_row (c : JS.clock) (srv : server)
    (f : faults) (profiles : list Row) (u : string)
    (updates : ProfileUpdate) :
  f UPDATE = None -> in_range updates = true -> upd_id updates = None ->
  (forall p,
      profiles_of u profiles = [p] ->
      exists r profiles',
        updateProfile c srv f profiles u updates = (Resolved r, profiles')
        /\ r = updated srv updates p
        /\ user_id r = u /\ id r = id p /\ created_at r = created_at p
        /\ updated_at r = NOW srv
        /\ profiles_of u profiles' = [r]
        /\ others u profiles' = others u profiles
        /\ List.length profiles' = List.length profiles)
  /\ (profiles_of u profiles = [] ->
      updateProfile c srv f profiles u updates
      = (Rejected ("更新用户资料失败: " ++ not_single srv), profiles)).
Proof.
  intros Hf Hr Hid. split.
  - intros p Hp.
    rewrite (@updateProfile_online c srv f profiles u p updates Hf Hp Hr Hid).
    eexists _, _. split; [reflexivity|].
    assert (Hu : user_id p = u).
    { assert (Hin : In p (profiles_of u profiles))
        by (rewrite Hp; now left).
      apply filter_In in Hin. now apply String.eqb_eq. }
    split; [reflexivity|].
    split; [exact Hu|].
    split; [cbn [updated id stamped upd_id]; now rewrite Hid|].
    split; [reflexivity|].
    split; [reflexivity|].
    split; [rewrite profiles_of_update by reflexivity; now rewrite Hp|].
    split; [apply others_update; reflexivity|apply length_map].
  - intros Hnone. unfold updateProfile, update_single. rewrite Hf.
    replace (in_range (stamped updates (JS.now c))) with true
      by (symmetry; exact Hr).
    cbn [negb upd_id stamped]. now rewrite Hid, Hnone.
Qed.

Lemma updateProfile_changes_own_row_witness :
  exists r profiles',
    updateProfile Samples.clk ProfileSamples.srv no_faults
      ProfileSamples.two_profiles "u"
      {| upd_id := None; upd_nickname := Some "Una"%string;
         upd_email := None; upd_avatar_url := None; upd_level := None;
         upd_xp := None; upd_rank := None; upd_streak := None;
         upd_max_streak := None; upd_dark_mode := Some false;
         upd_updated_at := Some 5 |}
    = (Resolved r, profiles')
    /\ nickname r = "Una"%string /\ dark_mode r = false
    /\ updated_at r = NOW ProfileSamples.srv
    /\ others "u" profiles' = others "u" ProfileSamples.two_profiles.
Proof.
  destruct (proj1 (@updateProfile_changes_own_row Samples.clk
                     ProfileSamples.srv no_faults
                     ProfileSamples.two_profiles "u"
                     {| upd_id := None; upd_nickname := Some "Una"%string;
                        upd_email := None; upd_avatar_url := None;
                        upd_level := None; upd_xp := None; upd_rank := None;
                        upd_streak := None; upd_max_streak := None;
                        upd_dark_mode := Some false;
                        upd_updated_at := Some 5 |}
                     eq_refl eq_refl eq_refl)
              (ProfileSamples.profile "id-2" "u" 4 1180 "新手探索者") eq_refl)
    as (r & profiles' & Hrun & Hr & _ & _ & _ & Hat & _ & Hothers & _).
  exists r, profiles'.
  split; [exact Hrun|].
  split; [rewrite Hr; reflexivity|].
  split; [rewrite Hr; reflexivity|].
  split; [exact Hat|exact Hothers].
Defined.

(** ** The task service *)

Import TaskService FocusLog TaskTerms.

Lemma getTodayTasks_online (net : transport) (db : Tables) (u : string) :
  net t_tasks = None ->
  getTodayTasks net db u
  = Resolved
      (JS.Array_sort (fun a b => Tasks.created_at b - Tasks.created_at a)
         (own_tasks u db)).
Proof.
  intros Hnet. unfold getTodayTasks, request. rewrite Hnet.
  cbn [error data JS.nullish]. now rewrite map_id.
Qed.

Lemma createTask_online (srv : server) (net : transport) (db : Tables)
    (task : TaskInsert) :
  net t_tasks = None ->
  forallb int4 (ins_selected_days task ?? [0; 1; 2; 3; 4]) = true ->
  ~ In (ins_id task ?? gen_random_uuid srv) (map Tasks.id (tasks db)) ->
  createTask srv net db task
  = (Resolved (inserted_task srv task),
     with_tasks db (tasks db ++ [inserted_task srv task])).
Proof.
  intros Hnet Hdays Hfresh. unfold createTask. rewrite Hnet.
  cbn [Tasks.selected_days Tasks.id inserted_task]. rewrite Hdays.
  cbn [negb]. rewrite existsb_false; [reflexivity|].
  intros r Hr. apply String.eqb_neq. intros Heq. apply Hfresh.
  rewrite <- Heq. now apply in_map.
Qed.

Lemma own_tasks_with_tasks (u : string) (db : Tables) (rows : list Tasks.Row) :
  own_tasks u (with_tasks db rows)
  = filter (fun t => (Tasks.user_id t =? u)%string) rows.
Proof. reflexivity. Qed.

Lemma existsb_filter (A : Type) (f : A -> bool) (l : list A) :
  existsb f l = match filter f l with [] => false | _ :: _ => true end.
Proof.
  induction l as [|x l IH]; [reflexivity|].
  cbn [existsb filter]. destruct (f x); [reflexivity|exact IH].
Qed.

Lemma toggled_key (srv : server) (now : Z) (completed : bool) (id u : string)
    (r : Tasks.Row) :
  is_task id u (toggled srv now completed r) = is_task id u r.
Proof. reflexivity. Qed.

Section ToggledRows.
Variables (id u : string) (g : Tasks.Row -> Tasks.Row).
Hypothesis g_key : forall r v, Tasks.user_id (g r) = Tasks.user_id r
                               /\ is_task id v (g r) = is_task id v r.

Let step (r : Tasks.Row) := if is_task id u r then g r else r.

Lemma toggled_rows_mine (rows : list Tasks.Row) :
  filter (is_task id u) (map step rows)
  = map g (filter (is_task id u) rows).
Proof.
  induction rows as [|r rows IH]; [reflexivity|].
  cbn [map]. unfold step at 1.
  destruct (is_task id u r) eqn:E; cbn [filter].
  - rewrite (proj2 (g_key r u)), E. cbn [map]. now rewrite IH.
  - rewrite E. exact IH.
Qed.

Lemma toggled_rows_others (rows : list Tasks.Row) :
  filter (fun r => negb (is_task id u r)) (map step rows)
  = filter (fun r => negb (is_task id u r)) rows.
Proof.
  induction rows as [|r rows IH]; [reflexivity|].
  cbn [map]. unfold step at 1.
  destruct (is_task id u r) eqn:E; cbn [filter].
  - rewrite (proj2 (g_key r u)), E. cbn [negb]. exact IH.
  - rewrite E. cbn [negb]. now rewrite IH.
Qed.

Lemma toggled_rows_owner (v : string) (rows : list Tasks.Row) :
  map Tasks.id (filter (fun t => (Tasks.user_id t =? v)%string)
                  (map step rows))
  = map Tasks.id (filter (fun t => (Tasks.user_id t =? v)%string) rows).
Proof.
  induction rows as [|r rows IH]; [reflexivity|].
  cbn [map]. unfold step at 1.
  destruct (is_task id u r) eqn:E; cbn [filter].
  - rewrite (proj1 (g_key r v)).
    destruct (Tasks.user_id r =? v)%string; [|exact IH].
    cbn [map]. rewrite IH. f_equal.
    pose proof (proj2 (g_key r u)) as Hk. rewrite E in Hk.
    unfold is_task in Hk, E.
    apply andb_prop in Hk, E. destruct Hk as [Hk _], E as [E _].
    apply String.eqb_eq in Hk, E. congruence.
  - destruct (Tasks.user_id r =? v)%string; [|exact IH].
    cbn [map]. now rewrite IH.
Qed.
End ToggledRows.

Lemma toggleTask_online (c : JS.clock) (srv : server) (net : transport)
    (db : Tables) (id u : string) (completed : bool) (t : Tasks.Row) :
  net t_tasks = None ->
  filter (is_task id u) (tasks db) = [t] ->
  toggleTask c srv net db id u completed
  = (Resolved (toggled srv (JS.now c) completed t),
     let db1 :=
       with_tasks db
         (map (fun r => if is_task id u r
                        then toggled srv (JS.now c) completed r else r)
            (tasks db)) in
     if completed then upsert_log srv net db1 u id (today c) else db1).
Proof.
  intros Hnet Ht. unfold toggleTask. rewrite Hnet, Ht. reflexivity.
Qed.

(** The log [toggleTask] writes. *)
Lemma upsert_log_online (srv : server) (net : transport) (db : Tables)
    (u id : string) (d : JS.isodate) :
  net t_habit_logs = None ->
  ~ In (gen_random_uuid srv) (map HabitLogs.id (habit_logs db)) ->
  (logged u id d db <> []
   /\ upsert_log srv net db u id d = db)
  \/ (logged u id d db = []
      /\ upsert_log srv net db u id d
         = with_habit_logs db
             (habit_logs db
              ++ [ {| HabitLogs.id := gen_random_uuid srv;
                      HabitLogs.user_id := u;
                      HabitLogs.task_id := id;
                      HabitLogs.completed_date := d;
                      HabitLogs.created_at := NOW srv |} ])).
Proof.
  intros Hnet Hfresh. unfold upsert_log. rewrite Hnet.
  rewrite existsb_filter. fold (logged u id d db).
  destruct (logged u id d db) as [|l ls] eqn:E.
  - right. split; [reflexivity|].
    rewrite existsb_false; [reflexivity|].
    intros r Hr. apply String.eqb_neq. intros Heq. apply Hfresh.
    rewrite <- Heq. now apply in_map.
  - left. split; [discriminate|reflexivity].
Qed.

Lemma upsert_log_existing (srv : server) (net : transport) (db : Tables)
    (u id : string) (d : JS.isodate) :
  logged u id d db <> [] -> upsert_log srv net db u id d = db.
Proof.
  intros Hlog. unfold upsert_log. destruct (net t_habit_logs); [reflexivity|].
  rewrite existsb_filter. fold (logged u id d db).
  destruct (logged u id d db); [contradiction|reflexivity].
Qed.

Lemma is_task_key (id u : string) (t : Tasks.Row) (rows : list Tasks.Row) :
  filter (is_task id u) rows = [t] -> Tasks.id t = id /\ Tasks.user_id t = u.
Proof.
  intros Ht.
  assert (Hin : In t (filter (is_task id u) rows)) by (rewrite Ht; now left).
  apply filter_In in Hin. destruct Hin as [_ Hk].
  apply andb_prop in Hk. destruct Hk as [H1 H2].
  split; now apply String.eqb_eq.
Qed.

Lemma same_log_refl (srv : server) (u id : string) (d : JS.isodate) :
  same_log u id d
    {| HabitLogs.id := gen_random_uuid srv; HabitLogs.user_id := u;
       HabitLogs.task_id := id; HabitLogs.completed_date := d;
       HabitLogs.created_at := NOW srv |} = true.
Proof.
  unfold same_log. cbn [HabitLogs.user_id HabitLogs.task_id
                         HabitLogs.completed_date].
  now rewrite !String.eqb_refl, Z.eqb_refl.
Qed.

(** What a completing [toggleTask] leaves in the tables. *)
Lemma toggleTask_completes (c : JS.clock) (srv : server) (net : transport)
    (db : Tables) (id u : string) (t : Tasks.Row) :
  net t_tasks = None -> net t_habit_logs = None ->
  filter (is_task id u) (tasks db) = [t] ->
  ~ In (gen_random_uuid srv) (map HabitLogs.id (habit_logs db)) ->
  exists db',
    toggleTask c srv net db id u true
    = (Resolved (toggled srv (JS.now c) true t), db')
    /\ tasks db'
       = map (fun r => if is_task id u r
                       then toggled srv (JS.now c) true r else r) (tasks db)
    /\ focus_sessions db' = focus_sessions db
    /\ ((logged u id (today c) db <> [] /\ habit_logs db' = habit_logs db)
        \/ (logged u id (today c) db = []
            /\ habit_logs db'
               = habit_logs db
                 ++ [ {| HabitLogs.id := gen_random_uuid srv;
                         HabitLogs.user_id := u;
                         HabitLogs.task_id := id;
                         HabitLogs.completed_date := today c;
                         HabitLogs.created_at := NOW srv |} ])).
Proof.
  intros Ht Hl Hrow Hfresh.
  rewrite (@toggleTask_online c srv net db id u true t Ht Hrow).
  cbv zeta. cbn match.
  set (db1 := with_tasks db _).
  destruct (@upsert_log_online srv net db1 u id (today c) Hl Hfresh)
    as [[Hsome Hrun]|[Hnone Hrun]]; rewrite Hrun; eexists;
    (split; [reflexivity|]); (split; [reflexivity|]);
    (split; [reflexivity|]); [left|right]; split;
    first [exact Hsome | exact Hnone | reflexivity].
Qed.

(** The habit statistics read the logs, and of the tasks only the ids of
    each owner. *)
Lemma habit_statistics_same (db db' : Tables) :
  habit_logs db' = habit_logs db ->
  (forall v, map Tasks.id (own_tasks v db') = map Tasks.id (own_tasks v db)) ->
  forall (c : JS.clock) (net : transport) (v : string),
    getStreakData c net db' v = getStreakData c net db v
    /\ (forall days,
          getHabitHeatmap c net db' v days = getHabitHeatmap c net db v days)
    /\ getMonthlyStats c net db' v = getMonthlyStats c net db v.
Proof.
  intros Hlogs Htasks c net v. split; [|split].
  - unfold getStreakData. now rewrite Hlogs.
  - intros days. unfold getHabitHeatmap. now rewrite Hlogs.
  - unfold getMonthlyStats, request. rewrite Hlogs.
    destruct (net t_habit_logs); [reflexivity|].
    cbn [error data].
    destruct (net t_tasks); [reflexivity|].
    cbn [data]. unfold unordered.
    pose proof (Htasks v) as Hv. unfold own_tasks in Hv.
    now rewrite Hv.
Qed.

(** A completion today, and none dated later, starts the current streak. *)
Lemma streak_of_dates_today (c : JS.clock) (data : list JS.isodate) :
  In (today c) data -> (forall d, In d data -> d <= today c) ->
  1 <= currentStreak (streak_of_dates c data)
    <= maxStreak (streak_of_dates c data).
Proof.
  intros Hin Hmax. unfold streak_of_dates.
  destruct (uniqueDates_of data) as [|first rest] eqn:E.
  - apply (uniqueDates_In data) in Hin. rewrite E in Hin. destruct Hin.
  - destruct (@uniqueDates_head data first rest E) as [Hfirst Htop].
    assert (Heq : first = today c)
      by (pose proof (Hmax _ Hfirst); pose proof (Htop _ Hin); lia).
    cbn [currentStreak maxStreak].
    replace (first =? JS.toISODate (JS.now c)) with true
      by (symmetry; apply Z.eqb_eq; exact Heq).
    cbn [orb].
    pose proof (current_loop_bounds rest first 1). lia.
Qed.

Lemma filter_all (A : Type) (f : A -> bool) (l : list A) :
  (forall x, In x l -> f x = true) -> filter f l = l.
Proof.
  intros H. induction l as [|x l IH]; [reflexivity|].
  cbn [filter]. rewrite (H x (or_introl eq_refl)). f_equal.
  apply IH. intros y Hy. apply H. now right.
Qed.

Lemma filter_none (A : Type) (f : A -> bool) (l : list A) :
  (forall x, In x l -> f x = false) -> filter f l = [].
Proof.
  intros H. induction l as [|x l IH]; [reflexivity|].
  cbn [filter]. rewrite (H x (or_introl eq_refl)).
  apply IH. intros y Hy. apply H. now right.
Qed.

Lemma filter_none_others (A : Type) (f : A -> bool) (l : list A) :
  filter f l = [] -> filter (fun x => negb (f x)) l = l.
Proof.
  intros Hnil. apply filter_all. intros x Hx.
  now rewrite (filter_nil_false _ _ Hnil x Hx).
Qed.

Lemma deleteTask_online (net : transport) (db : Tables) (id u : string) :
  net t_tasks = None ->
  deleteTask net db id u
  = (Resolved tt,
     {| tasks := other_tasks id u db;
        focus_sessions := focus_sessions db;
        habit_logs :=
          filter
            (fun log =>
               negb (existsb
                       (fun r => (Tasks.id r =? HabitLogs.task_id log)%string)
                       (filter (is_task id u) (tasks db))))
            (habit_logs db) |}).
Proof. intros Hnet. unfold deleteTask. now rewrite Hnet. Qed.

Lemma existsb_const (A : Type) (f : A -> bool) (l : list A) (b : bool) :
  l <> [] -> (forall x, In x l -> f x = b) -> existsb f l = b.
Proof.
  induction l as [|a l IH]; [contradiction|]. intros _ H.
  cbn [existsb]. rewrite (H a (or_introl eq_refl)).
  destruct b; [reflexivity|]. cbn [orb].
  destruct l as [|a' l]; [reflexivity|].
  apply IH; [discriminate|]. intros x Hx. apply H. now right.
Qed.

(** The logs that go with the deleted rows are those of the task. *)
Lemma cascade_of_task (id u : string) (rows : list Tasks.Row)
    (log : HabitLogs.Row) :
  filter (is_task id u) rows <> [] ->
  existsb (fun r => (Tasks.id r =? HabitLogs.task_id log)%string)
    (filter (is_task id u) rows)
  = (HabitLogs.task_id log =? id)%string.
Proof.
  intros Hsome. apply existsb_const; [exact Hsome|].
  intros r Hr. apply filter_In in Hr. destruct Hr as [_ Hk].
  apply andb_prop in Hk. destruct Hk as [Hk _].
  apply String.eqb_eq in Hk. rewrite Hk. apply String.eqb_sym.
Qed.

Lemma sum_app (l1 l2 : list Z) : sum (l1 ++ l2) = sum l1 + sum l2.
Proof.
  induction l1 as [|x l1 IH]; [reflexivity|].
  cbn [app]. rewrite !sum_cons, IH. lia.
Qed.

Lemma recordFocusSession_online (c : JS.clock) (srv : server)
    (net : transport) (db : Tables) (u : string) (minutes : Z) (m : Mode) :
  net t_focus_sessions = None -> int4 minutes = true ->
  ~ In (gen_random_uuid srv) (map FocusSessions.id (focus_sessions db)) ->
  recordFocusSession c srv net db u minutes m
  = (Resolved
       {| FocusSessions.id := gen_random_uuid srv;
          FocusSessions.user_id := u;
          FocusSessions.duration_minutes := minutes;
          FocusSessions.mode := m;
          FocusSessions.completed_at := JS.now c;
          FocusSessions.created_at := NOW srv |},
     with_focus_sessions db
       (focus_sessions db
        ++ [ {| FocusSessions.id := gen_random_uuid srv;
                FocusSessions.user_id := u;
                FocusSessions.duration_minutes := minutes;
                FocusSessions.mode := m;
                FocusSessions.completed_at := JS.now c;
                FocusSessions.created_at := NOW srv |} ])).
Proof.
  intros Hnet Hrange Hfresh. unfold recordFocusSession.
  rewrite Hnet, Hrange. cbn [negb FocusSessions.id].
  rewrite existsb_false; [reflexivity|].
  intros r Hr. apply String.eqb_neq. intros Heq. apply Hfresh.
  rewrite <- Heq. now apply in_map.
Qed.

(** Today's work sessions of [v] after a session of [u] has been stored. *)
Lemma work_sessions_after_record (c : JS.clock) (db : Tables) (u v : string)
    (row : FocusSessions.Row) :
  FocusSessions.user_id row = u ->
  FocusSessions.completed_at row = JS.now c ->
  work_sessions_since v
    (with_focus_sessions db (focus_sessions db ++ [row])) (today_start c)
  = work_sessions_since v db (today_start c)
    ++ (if (u =? v)%string && Mode_eqb (FocusSessions.mode row) work
        then [row] else []).
Proof.
  intros Hu Hat.
  assert (Hnow : (today_start c <=? JS.now c) = true)
    by (apply Z.leb_le, setHours0_before).
  unfold work_sessions_since, own_sessions.
  cbn [focus_sessions with_focus_sessions].
  rewrite !filter_app. f_equal.
  cbn [filter]. rewrite Hu.
  destruct (u =? v)%string; [|reflexivity].
  cbn [filter andb]. rewrite Hat, Hnow.
  now destruct (Mode_eqb (FocusSessions.mode row) work).
Qed.

Lemma today_stats_after_record (c : JS.clock) (net : transport) (db : Tables)
    (u v : string) (row : FocusSessions.Row) (before : TodayFocusStats) :
  net t_focus_sessions = None ->
  FocusSessions.user_id row = u ->
  FocusSessions.completed_at row = JS.now c ->
  getTodayFocusStats c net db v = Resolved before ->
  getTodayFocusStats c net
    (with_focus_sessions db (focus_sessions db ++ [row])) v
  = Resolved
      {| completedCount :=
           completedCount before
           + (if (u =? v)%string && Mode_eqb (FocusSessions.mode row) work
              then 1 else 0);
         totalMinutes :=
           totalMinutes before
           + (if (u =? v)%string && Mode_eqb (FocusSessions.mode row) work
              then FocusSessions.duration_minutes row else 0) |}.
Proof.
  intros Hnet Hu Hat Hbefore.
  rewrite getTodayFocusStats_online in Hbefore by exact Hnet.
  injection Hbefore as <-.
  rewrite getTodayFocusStats_online by exact Hnet.
  rewrite (@work_sessions_after_record c db u v row Hu Hat).
  cbn [completedCount totalMinutes].
  rewrite length_app, map_app, sum_app.
  destruct ((u =? v)%string && Mode_eqb (FocusSessions.mode row) work);
    cbn [List.length map]; rewrite ?sum_cons; cbn [sum fold_right];
    do 2 f_equal; lia.
Qed.

(** X15: [getTodayTasks] returns all the tasks of the user, newest first.
    With a working network the list is a rearrangement of the user's rows of
    [tasks] (no task of another user, none left out: neither the day nor the
    completion state is looked at) in the order of decreasing
    [created_at]. *)
Theorem getTodayTasks_lists_all_own_tasks (net : transport) (db : Tables)
    (u : string) :
  net t_tasks = None ->
  exists l,
    getTodayTasks net db u = Resolved l
    /\ Permutation l (own_tasks u db)
    /\ (forall t, In t l <-> In t (tasks db) /\ Tasks.user_id t = u)
    /\ StronglySorted
         (fun a b => Tasks.created_at b <= Tasks.created_at a) l.
Proof.
  intros Hnet. eexists. split; [now apply getTodayTasks_online|].
  pose proof (Array_sort_perm
                (fun a b => Tasks.created_at b - Tasks.created_at a)
                (own_tasks u db)) as Hperm.
  split; [exact Hperm|]. split.
  - intros t. split.
    + intros Hin. apply (Permutation_in _ Hperm) in Hin.
      apply filter_In in Hin. destruct Hin as [Hin Hu].
      split; [exact Hin|now apply String.eqb_eq].
    + intros [Hin Hu]. apply (Permutation_in _ (Permutation_sym Hperm)).
      apply filter_In. split; [exact Hin|now apply String.eqb_eq].
  - apply (Array_sort_desc Tasks.created_at).
Qed.

Lemma getTodayTasks_lists_all_own_tasks_witness :
  exists l,
    getTodayTasks online TaskSamples.habits_db "u" = Resolved l
    /\ Permutation l (own_tasks "u" TaskSamples.habits_db)
    /\ (forall t,
          In t l
          <-> In t (tasks TaskSamples.habits_db) /\ Tasks.user_id t = "u"%string)
    /\ StronglySorted
         (fun a b => Tasks.created_at b <= Tasks.created_at a) l.
Proof.
  exact (@getTodayTasks_lists_all_own_tasks online TaskSamples.habits_db "u"
           eq_refl).
Defined.

(** X16: a task that has been created is on the user's list.  With a
    working network, an id that is not taken and days of the week in the
    range of the column, [createTask] stores the row with the defaults of the
    table for what is left out (not completed, among them), and
    [getTodayTasks] then returns the list it returned before with the new
    task added; the lists of the other users, the logs and the focus
    sessions are as before. *)
Theorem createTask_then_listed (srv : server) (net : transport) (db : Tables)
    (task : TaskInsert) :
  net t_tasks = None ->
  forallb int4 (ins_selected_days task ?? [0; 1; 2; 3; 4]) = true ->
  ~ In (ins_id task ?? gen_random_uuid srv) (map Tasks.id (tasks db)) ->
  exists row db',
    createTask srv net db task = (Resolved row, db')
    /\ Tasks.user_id row = ins_user_id task
    /\ Tasks.title row = ins_title task
    /\ Tasks.completed row = ins_completed task ?? false
    /\ Tasks.frequency row = ins_frequency task ?? daily
    /\ (exists before after,
          getTodayTasks net db (ins_user_id task) = Resolved before
          /\ getTodayTasks net db' (ins_user_id task) = Resolved after
          /\ Permutation after (row :: before))
    /\ (forall v, v <> ins_user_id task ->
          getTodayTasks net db' v = getTodayTasks net db v)
    /\ habit_logs db' = habit_logs db
    /\ focus_sessions db' = focus_sessions db.
Proof.
  intros Hnet Hdays Hfresh.
  eexists _, _. split; [now apply createTask_online|].
  do 4 (split; [reflexivity|]).
  split; [|split; [|split; reflexivity]].
  - eexists _, _.
    split; [now apply getTodayTasks_online|].
    split; [now apply getTodayTasks_online|].
    rewrite own_tasks_with_tasks, filter_app.
    cbn [filter Tasks.user_id inserted_task]. rewrite String.eqb_refl.
    etransitivity; [apply Array_sort_perm|].
    etransitivity; [apply Permutation_app_comm|].
    cbn [app]. constructor. symmetry. apply Array_sort_perm.
  - intros v Hv. rewrite !getTodayTasks_online by exact Hnet.
    rewrite own_tasks_with_tasks, filter_app.
    cbn [filter Tasks.user_id inserted_task].
    replace (ins_user_id task =? v)%string with false
      by (symmetry; apply String.eqb_neq; congruence).
    now rewrite app_nil_r.
Qed.

Lemma createTask_then_listed_witness :
  exists row db',
    createTask TaskSamples.server online TaskSamples.habits_db
      TaskSamples.new_task = (Resolved row, db')
    /\ Tasks.id row = "id-9"%string
    /\ Tasks.completed row = false
    /\ exists before after,
         getTodayTasks online TaskSamples.habits_db "u" = Resolved before
         /\ getTodayTasks online db' "u" = Resolved after
         /\ Permutation after (row :: before).
Proof.
  assert (Hfresh : ~ In "id-9"%string
                     (map Tasks.id (tasks TaskSamples.habits_db))).
  { cbn. intros [H|[H|[H|[H|[]]]]]; discriminate H. }
  destruct (@createTask_then_listed TaskSamples.server online
              TaskSamples.habits_db TaskSamples.new_task
              eq_refl eq_refl Hfresh)
    as (row & db' & Hrun & _ & _ & Hdone & _ & Hlist & _).
  exists row, db'.
  split; [exact Hrun|].
  split; [injection Hrun as <- _; reflexivity|].
  split; [exact Hdone|exact Hlist].
Defined.

(** X17: completing a task logs the day once.  With a working network,
    for a task of the user and a log id that is not taken, [toggleTask(id,
    user, true)] returns the task marked completed, with the update time of
    the database, leaves the other tasks and the focus sessions as they
    were, removes no log, and leaves exactly one log of this task for
    today when there was none or one; calling it again on the same day adds
    nothing. *)
Theorem toggleTask_records_completion (c : JS.clock) (srv : server)
    (net : transport) (db : Tables) (id u : string) (t : Tasks.Row) :
  net t_tasks = None -> net t_habit_logs = None ->
  filter (is_task id u) (tasks db) = [t] ->
  ~ In (gen_random_uuid srv) (map HabitLogs.id (habit_logs db)) ->
  exists r db',
    toggleTask c srv net db id u true = (Resolved r, db')
    /\ Tasks.completed r = true
    /\ Tasks.updated_at r = NOW srv
    /\ (Tasks.id r, Tasks.user_id r, Tasks.title r, Tasks.created_at r)
       = (id, u, Tasks.title t, Tasks.created_at t)
    /\ filter (is_task id u) (tasks db') = [r]
    /\ other_tasks id u db' = other_tasks id u db
    /\ focus_sessions db' = focus_sessions db
    /\ (exists new, habit_logs db' = habit_logs db ++ new)
    /\ List.length (logged u id (today c) db')
       = Nat.max 1 (List.length (logged u id (today c) db))
    /\ In (today c) (completion_dates u db')
    /\ forall srv',
         exists r' db'',
           toggleTask c srv' net db' id u true = (Resolved r', db'')
           /\ habit_logs db'' = habit_logs db'.
Proof.
  intros Ht Hl Hrow Hfresh.
  destruct (@toggleTask_completes c srv net db id u t Ht Hl Hrow Hfresh)
    as (db' & Hrun & Htasks & Hfocus & Hlogs).
  destruct (is_task_key _ _ _ Hrow) as [Hid Hu].
  assert (Hmine : filter (is_task id u) (tasks db')
                  = [toggled srv (JS.now c) true t]).
  { rewrite Htasks, toggled_rows_mine by (intros; split; reflexivity).
    now rewrite Hrow. }
  assert (Hlogged : logged u id (today c) db' <> []
                    /\ List.length (logged u id (today c) db')
                       = Nat.max 1 (List.length (logged u id (today c) db))).
  { unfold logged in *. destruct Hlogs as [[Hsome E]|[Hnone E]]; rewrite E.
    - split; [exact Hsome|].
      destruct (filter _ (habit_logs db)); [contradiction|].
      cbn [List.length]. lia.
    - rewrite filter_app, Hnone. cbn [filter app].
      rewrite same_log_refl. split; [discriminate|reflexivity]. }
  exists (toggled srv (JS.now c) true t), db'.
  split; [exact Hrun|].
  split; [reflexivity|]. split; [reflexivity|].
  split; [cbn [toggled Tasks.id Tasks.user_id Tasks.title Tasks.created_at];
          now rewrite Hid, Hu|].
  split; [exact Hmine|].
  split; [unfold other_tasks; rewrite Htasks;
          apply toggled_rows_others; intros; split; reflexivity|].
  split; [exact Hfocus|].
  split; [destruct Hlogs as [[_ E]|[_ E]]; rewrite E;
          [exists []; now rewrite app_nil_r|eexists; reflexivity]|].
  split; [exact (proj2 Hlogged)|].
  split.
  - destruct Hlogged as [Hsome _]. unfold logged in Hsome.
    destruct (filter _ (habit_logs db')) as [|l ls] eqn:E; [contradiction|].
    assert (Hin : In l (filter (same_log u id (today c)) (habit_logs db')))
      by (rewrite E; now left).
    apply filter_In in Hin. destruct Hin as [Hin Hk].
    unfold same_log in Hk. apply andb_prop in Hk. destruct Hk as [Hk Hd].
    apply andb_prop in Hk. destruct Hk as [Hk _].
    apply Z.eqb_eq in Hd. rewrite <- Hd.
    unfold completion_dates, own_logs. apply in_map, filter_In.
    split; [exact Hin|exact Hk].
  - intros srv'.
    rewrite (@toggleTask_online c srv' net db' id u true _ Ht Hmine).
    cbv zeta. cbn match.
    rewrite upsert_log_existing by exact (proj1 Hlogged).
    eexists _, _. split; reflexivity.
Qed.

Lemma toggleTask_records_completion_witness :
  exists r db',
    toggleTask Samples.clk TaskSamples.server online TaskSamples.habits_db
      "a" "u" true = (Resolved r, db')
    /\ Tasks.completed r = true
    /\ List.length (logged "u" "a" (today Samples.clk) db') = 1%nat.
Proof.
  assert (Hfresh : ~ In (gen_random_uuid TaskSamples.server)
                     (map HabitLogs.id (habit_logs TaskSamples.habits_db))).
  { cbn. intros [H|[H|[H|[H|[]]]]]; discriminate H. }
  destruct (@toggleTask_records_completion Samples.clk TaskSamples.server
              online TaskSamples.habits_db "a" "u"
              (TaskSamples.task_at "u" "a" false 100)
              eq_refl eq_refl eq_refl Hfresh)
    as (r & db' & Hrun & Hdone & _ & _ & _ & _ & _ & _ & Hlen & _).
  exists r, db'.
  split; [exact Hrun|]. split; [exact Hdone|].
  rewrite Hlen. reflexivity.
Defined.

(** X18: taking a completion back does not take it out of the
    statistics.  Whatever [toggleTask(id, user, false)] answers, the logs
    and the focus sessions are as before, so the streaks, the heatmap and
    the monthly figures of every user are the same as before the call,
    although, with a working network and for a task of the user, the task is
    returned and stored as not completed. *)
Theorem untoggle_keeps_completion (c : JS.clock) (srv : server)
    (net : transport) (db : Tables) (id u : string)
    (out : Promise Tasks.Row) (db' : Tables) :
  toggleTask c srv net db id u false = (out, db') ->
  habit_logs db' = habit_logs db
  /\ focus_sessions db' = focus_sessions db
  /\ (forall (c' : JS.clock) (net' : transport) (v : string),
        getStreakData c' net' db' v = getStreakData c' net' db v
        /\ (forall days,
              getHabitHeatmap c' net' db' v days
              = getHabitHeatmap c' net' db v days)
        /\ getMonthlyStats c' net' db' v = getMonthlyStats c' net' db v)
  /\ (forall t,
        net t_tasks = None -> filter (is_task id u) (tasks db) = [t] ->
        exists r,
          out = Resolved r /\ Tasks.completed r = false
          /\ filter (is_task id u) (tasks db') = [r]).
Proof.
  intros Hrun.
  assert (Hshape : db' = db
                   \/ db' = with_tasks db
                              (map (fun r => if is_task id u r
                                             then toggled srv (JS.now c) false r
                                             else r) (tasks db))).
  { unfold toggleTask in Hrun. destruct (net t_tasks).
    - left. now injection Hrun as _ <-.
    - destruct (single srv (filter (is_task id u) (tasks db))).
      + right. now injection Hrun as _ <-.
      + left. now injection Hrun as _ <-. }
  assert (Hlogs : habit_logs db' = habit_logs db)
    by (destruct Hshape as [->| ->]; reflexivity).
  split; [exact Hlogs|].
  split; [destruct Hshape as [->| ->]; reflexivity|].
  split.
  - apply habit_statistics_same; [exact Hlogs|].
    intros v. destruct Hshape as [->| ->]; [reflexivity|].
    unfold own_tasks. cbn [tasks with_tasks].
    apply toggled_rows_owner. intros; split; reflexivity.
  - intros t Ht Hrow.
    rewrite (@toggleTask_online c srv net db id u false t Ht Hrow) in Hrun.
    cbv zeta in Hrun. cbn match in Hrun.
    injection Hrun as <- <-.
    eexists. split; [reflexivity|]. split; [reflexivity|].
    cbn [tasks with_tasks].
    rewrite toggled_rows_mine by (intros; split; reflexivity).
    now rewrite Hrow.
Qed.

Lemma untoggle_keeps_completion_witness :
  exists r db',
    toggleTask Samples.clk TaskSamples.server online TaskSamples.habits_db
      "b" "u" false = (Resolved r, db')
    /\ Tasks.completed r = false
    /\ getStreakData Samples.clk online db' "u"
       = getStreakData Samples.clk online TaskSamples.habits_db "u"
    /\ completions_on "u" db' (Samples.friday - 1) = 2.
Proof.
  eexists _, _. split; [vm_compute; reflexivity|].
  split; [reflexivity|].
  split; [|vm_compute; reflexivity].
  apply (@untoggle_keeps_completion Samples.clk TaskSamples.server online
           TaskSamples.habits_db "b" "u" _ _ eq_refl).
Defined.

(** X19: completing a task today starts, or keeps, the current streak.
    Under the conditions of a successful [toggleTask(id, user, true)], and
    when no log of the user is dated after today, [getStreakData] evaluated
    after the call on the same day returns [1 <= currentStreak <=
    maxStreak], and today counts at least one completion. *)
Theorem completing_starts_streak (c : JS.clock) (srv : server)
    (net : transport) (db : Tables) (id u : string) (t : Tasks.Row) :
  net t_tasks = None -> net t_habit_logs = None ->
  filter (is_task id u) (tasks db) = [t] ->
  ~ In (gen_random_uuid srv) (map HabitLogs.id (habit_logs db)) ->
  (forall d, In d (completion_dates u db) -> d <= today c) ->
  exists r db' s,
    toggleTask c srv net db id u true = (Resolved r, db')
    /\ getStreakData c net db' u = Resolved s
    /\ 1 <= currentStreak s <= maxStreak s
    /\ 1 <= completions_on u db' (today c).
Proof.
  intros Ht Hl Hrow Hfresh Hpast.
  destruct (@toggleTask_completes c srv net db id u t Ht Hl Hrow Hfresh)
    as (db' & Hrun & _ & _ & Hlogs).
  assert (Hdates : In (today c) (completion_dates u db')
                   /\ forall d, In d (completion_dates u db') -> d <= today c).
  { unfold completion_dates, own_logs in *.
    destruct Hlogs as [[Hsome E]|[Hnone E]]; rewrite E.
    - split; [|exact Hpast].
      unfold logged in Hsome.
      destruct (filter (same_log u id (today c)) (habit_logs db))
        as [|l ls] eqn:El; [contradiction|].
      assert (Hin : In l (filter (same_log u id (today c)) (habit_logs db)))
        by (rewrite El; now left).
      apply filter_In in Hin. destruct Hin as [Hin Hk].
      unfold same_log in Hk. apply andb_prop in Hk. destruct Hk as [Hk Hd].
      apply andb_prop in Hk. destruct Hk as [Hk _].
      apply Z.eqb_eq in Hd. rewrite <- Hd.
      apply in_map, filter_In. split; [exact Hin|exact Hk].
    - rewrite filter_app, map_app.
      cbn [filter HabitLogs.user_id]. rewrite String.eqb_refl.
      cbn [map HabitLogs.completed_date]. split.
      + apply in_or_app. right. now left.
      + intros d Hd. apply in_app_or in Hd.
        destruct Hd as [Hd|[<-|[]]]; [now apply Hpast|lia]. }
  exists (toggled srv (JS.now c) true t), db',
    (streak_of_dates c (completion_dates u db')).
  split; [exact Hrun|].
  split; [now apply getStreakData_of_dates|].
  split; [now apply streak_of_dates_today|].
  unfold completions_on.
  destruct Hdates as [Hin _].
  assert (Hf : In (today c) (filter (Z.eqb (today c)) (completion_dates u db')))
    by (apply filter_In; split; [exact Hin|apply Z.eqb_refl]).
  destruct (filter (Z.eqb (today c)) (completion_dates u db'));
    [destruct Hf|].
  cbn [List.length]. lia.
Qed.

Lemma completing_starts_streak_witness :
  exists r db' s,
    toggleTask Samples.clk TaskSamples.server online TaskSamples.habits_db
      "a" "u" true = (Resolved r, db')
    /\ getStreakData Samples.clk online db' "u" = Resolved s
    /\ 1 <= currentStreak s <= maxStreak s.
Proof.
  assert (Hfresh : ~ In (gen_random_uuid TaskSamples.server)
                     (map HabitLogs.id (habit_logs TaskSamples.habits_db))).
  { cbn. intros [H|[H|[H|[H|[]]]]]; discriminate H. }
  assert (Hpast : forall d,
             In d (completion_dates "u" TaskSamples.habits_db) ->
             d <= today Samples.clk).
  { intros d Hd. vm_compute in Hd.
    destruct Hd as [<-|[<-|[<-|[]]]]; vm_compute; intros H; discriminate H. }
  destruct (@completing_starts_streak Samples.clk TaskSamples.server online
              TaskSamples.habits_db "a" "u"
              (TaskSamples.task_at "u" "a" false 100)
              eq_refl eq_refl eq_refl Hfresh Hpast)
    as (r & db' & s & Hrun & Hstreak & Hs & _).
  exists r, db', s. split; [exact Hrun|]. split; [exact Hstreak|exact Hs].
Defined.

(** X20: deleting a task deletes its history.  With a working network
    [deleteTask] resolves; it removes the rows of [tasks] with that id and
    that owner and nothing else of [tasks] or [focus_sessions]; when there is
    such a task, the logs of the task go with it, so that its completions
    are in no statistic any more; when there is none (an id of another
    user's task, say) the call resolves all the same and the tables are
    unchanged. *)
Theorem deleteTask_removes_task_and_logs (net : transport) (db : Tables)
    (id u : string) :
  net t_tasks = None ->
  exists db',
    deleteTask net db id u = (Resolved tt, db')
    /\ tasks db' = other_tasks id u db
    /\ filter (is_task id u) (tasks db') = []
    /\ focus_sessions db' = focus_sessions db
    /\ (forall v, v <> u -> own_tasks v db' = own_tasks v db)
    /\ (filter (is_task id u) (tasks db) = [] -> db' = db)
    /\ (filter (is_task id u) (tasks db) <> [] ->
        habit_logs db' = logs_without id db
        /\ (forall v,
              own_logs v db'
              = filter (fun log => negb (HabitLogs.task_id log =? id)%string)
                  (own_logs v db))
        /\ forall d, logged u id d db' = []).
Proof.
  intros Hnet. eexists. split; [now apply deleteTask_online|].
  cbn [tasks focus_sessions habit_logs].
  split; [reflexivity|].
  split.
  { unfold other_tasks. rewrite <- filter_andb.
    apply filter_none. intros r _. now destruct (is_task id u r). }
  split; [reflexivity|].
  split.
  { intros v Hv. unfold own_tasks, other_tasks. cbn [tasks].
    rewrite <- filter_andb. apply filter_ext. intros r.
    unfold is_task.
    destruct (Tasks.user_id r =? v)%string eqn:E1;
      [|now rewrite andb_false_r].
    destruct (Tasks.user_id r =? u)%string eqn:E2.
    - apply String.eqb_eq in E1, E2. congruence.
    - now rewrite andb_false_r. }
  split.
  { intros Hnone. rewrite Hnone. cbn [existsb negb].
    unfold other_tasks. rewrite (filter_none_others _ _ Hnone).
    rewrite filter_all by reflexivity. now destruct db. }
  intros Hsome.
  assert (Hlogs : filter
                    (fun log =>
                       negb (existsb
                               (fun r =>
                                  (Tasks.id r =? HabitLogs.task_id log)%string)
                               (filter (is_task id u) (tasks db))))
                    (habit_logs db)
                  = logs_without id db).
  { unfold logs_without. apply filter_ext. intros log.
    now rewrite (@cascade_of_task id u (tasks db) log Hsome). }
  rewrite Hlogs. split; [reflexivity|]. split.
  - intros v. unfold own_logs, logs_without. cbn [habit_logs].
    rewrite <- !filter_andb. apply filter_ext. intros log. apply andb_comm.
  - intros d. unfold logged, logs_without. cbn [habit_logs].
    rewrite <- filter_andb.
    apply filter_none. intros log _. unfold same_log.
    destruct (HabitLogs.task_id log =? id)%string; [reflexivity|].
    cbn [negb andb]. now rewrite andb_false_r.
Qed.

Lemma deleteTask_removes_task_and_logs_witness :
  exists db',
    deleteTask online TaskSamples.habits_db "a" "u" = (Resolved tt, db')
    /\ map Tasks.id (tasks db') = ["c"; "b"; "d"]%string
    /\ completion_dates "u" db' = [Samples.friday - 1]
    /\ completion_dates "u" TaskSamples.habits_db
       = [Samples.friday - 2; Samples.friday - 1; Samples.friday - 1].
Proof.
  destruct (@deleteTask_removes_task_and_logs online TaskSamples.habits_db
              "a" "u" eq_refl)
    as (db' & Hrun & Htasks & _ & _ & _ & _ & Hlogs).
  destruct (Hlogs ltac:(discriminate)) as (_ & Hown & _).
  exists db'. split; [exact Hrun|].
  split; [rewrite Htasks; reflexivity|].
  split; [|reflexivity].
  unfold completion_dates. rewrite Hown. reflexivity.
Defined.

(** X21: a recorded session shows in today's figures at once.  With a
    working network, a duration in the range of the column and an id that
    is not taken, [recordFocusSession] stores the session with the client's
    time as [completed_at], and [getTodayFocusStats] evaluated at the same
    instant counts one session and [durationMinutes] minutes more for a work
    session, and the same as before for a break; the figures of the other
    users, the tasks and the logs are unchanged. *)
Theorem recordFocusSession_then_today_stats (c : JS.clock) (srv : server)
    (net : transport) (db : Tables) (u : string) (minutes : Z) (m : Mode) :
  net t_focus_sessions = None -> int4 minutes = true ->
  ~ In (gen_random_uuid srv) (map FocusSessions.id (focus_sessions db)) ->
  exists row db' before after,
    recordFocusSession c srv net db u minutes m = (Resolved row, db')
    /\ (FocusSessions.user_id row, FocusSessions.duration_minutes row,
        FocusSessions.mode row, FocusSessions.completed_at row)
       = (u, minutes, m, JS.now c)
    /\ getTodayFocusStats c net db u = Resolved before
    /\ getTodayFocusStats c net db' u = Resolved after
    /\ completedCount after
       = completedCount before + (if Mode_eqb m work then 1 else 0)
    /\ totalMinutes after
       = totalMinutes before + (if Mode_eqb m work then minutes else 0)
    /\ (forall v, v <> u ->
          getTodayFocusStats c net db' v = getTodayFocusStats c net db v)
    /\ tasks db' = tasks db /\ habit_logs db' = habit_logs db.
Proof.
  intros Hnet Hrange Hfresh.
  eexists _, _, _, _.
  split; [now apply recordFocusSession_online|].
  split; [reflexivity|].
  split; [now apply getTodayFocusStats_online|].
  split; [apply today_stats_after_record;
          [exact Hnet|reflexivity|reflexivity|
           now apply getTodayFocusStats_online]|].
  cbn [completedCount totalMinutes FocusSessions.mode
       FocusSessions.duration_minutes].
  rewrite String.eqb_refl. cbn [andb].
  split; [reflexivity|]. split; [reflexivity|].
  split; [|split; reflexivity].
  intros v Hv.
  destruct (getTodayFocusStats c net db v) as [before|msg] eqn:E.
  - etransitivity;
      [apply (@today_stats_after_record c net db u v _ before Hnet);
       [reflexivity|reflexivity|exact E]|].
    replace (u =? v)%string with false
      by (symmetry; apply String.eqb_neq; congruence).
    cbn [andb]. destruct before. cbn [completedCount totalMinutes].
    do 2 f_equal; lia.
  - rewrite getTodayFocusStats_online in E by exact Hnet. discriminate E.
Qed.

Lemma recordFocusSession_then_today_stats_witness :
  exists row db' after,
    recordFocusSession Samples.clk TaskSamples.server online
      Samples.pomodoro_db "u" 25 work = (Resolved row, db')
    /\ getTodayFocusStats Samples.clk online db' "u" = Resolved after
    /\ completedCount after = 5 /\ totalMinutes after = 125.
Proof.
  assert (Hfresh : ~ In (gen_random_uuid TaskSamples.server)
                     (map FocusSessions.id
                        (focus_sessions Samples.pomodoro_db))).
  { vm_compute. intros [H|[H|[H|[H|[H|[H|[H|[]]]]]]]]; discriminate H. }
  destruct (@recordFocusSession_then_today_stats Samples.clk
              TaskSamples.server online Samples.pomodoro_db "u" 25 work
              eq_refl eq_refl Hfresh)
    as (row & db' & before & after & Hrun & _ & Hbefore & Hafter & Hcount
        & Hminutes & _).
  exists row, db', after.
  split; [exact Hrun|]. split; [exact Hafter|].
  assert (Hb : before = {| completedCount := 4; totalMinutes := 100 |}).
  { assert (H : Resolved before
                = Resolved {| completedCount := 4; totalMinutes := 100 |})
      by (rewrite <- Hbefore; vm_compute; reflexivity).
    now injection H. }
  rewrite Hcount, Hminutes, Hb. split; reflexivity.
Defined.

(** X22: how [toggleTask] fails.  A failed request on [tasks] rejects the
    call with the message of the error and changes nothing; so does an id
    that is not a task of the user, another user's task included, which is
    left as it is.  A failed write of the log is not reported: the call
    resolves with the task completed, and the completion is missing from
    the logs, so that the statistics are those of before the call. *)
Theorem toggleTask_failures (c : JS.clock) (srv : server) (net : transport)
    (db : Tables) (id u : string) :
  (forall e completed,
      net t_tasks = Some e ->
      toggleTask c srv net db id u completed
      = (Rejected ("更新任务状态失败: " ++ message e), db))
  /\ (forall completed,
        net t_tasks = None -> filter (is_task id u) (tasks db) = [] ->
        toggleTask c srv net db id u completed
        = (Rejected ("更新任务状态失败: " ++ not_single srv), db))
  /\ (forall e t,
        net t_tasks = None -> net t_habit_logs = Some e ->
        filter (is_task id u) (tasks db) = [t] ->
        exists r db',
          toggleTask c srv net db id u true = (Resolved r, db')
          /\ Tasks.completed r = true
          /\ filter (is_task id u) (tasks db') = [r]
          /\ habit_logs db' = habit_logs db
          /\ forall (c' : JS.clock) (net' : transport) (v : string),
               getStreakData c' net' db' v = getStreakData c' net' db v
               /\ (forall days,
                     getHabitHeatmap c' net' db' v days
                     = getHabitHeatmap c' net' db v days)
               /\ getMonthlyStats c' net' db' v
                  = getMonthlyStats c' net' db v).
Proof.
  split; [|split].
  - intros e completed He. unfold toggleTask. now rewrite He.
  - intros completed Ht Hnone. unfold toggleTask. now rewrite Ht, Hnone.
  - intros e t Ht Hl Hrow.
    rewrite (@toggleTask_online c srv net db id u true t Ht Hrow).
    cbv zeta. cbn match. unfold upsert_log. rewrite Hl.
    eexists _, _. split; [reflexivity|]. split; [reflexivity|].
    cbn [tasks habit_logs with_tasks].
    split; [rewrite toggled_rows_mine by (intros; split; reflexivity);
            now rewrite Hrow|].
    split; [reflexivity|].
    apply habit_statistics_same; [reflexivity|].
    intros v. unfold own_tasks. cbn [tasks with_tasks].
    apply toggled_rows_owner. intros; split; reflexivity.
Qed.

Lemma toggleTask_failures_witness :
  exists r db',
    toggleTask Samples.clk TaskSamples.server
      (fun t => match t with
                | t_habit_logs => Some {| message := "timeout" |}
                | _ => None
                end)
      TaskSamples.habits_db "a" "u" true = (Resolved r, db')
    /\ Tasks.completed r = true
    /\ habit_logs db' = habit_logs TaskSamples.habits_db.
Proof.
  destruct (proj2 (proj2 (@toggleTask_failures Samples.clk TaskSamples.server
                            (fun t => match t with
                                      | t_habit_logs =>
                                          Some {| message := "timeout" |}
                                      | _ => None
                                      end)
                            TaskSamples.habits_db "a" "u"))
              {| message := "timeout" |}
              (TaskSamples.task_at "u" "a" false 100)
              eq_refl eq_refl eq_refl)
    as (r & db' & Hrun & Hdone & _ & Hlogs & _).
  exists r, db'. split; [exact Hrun|]. split; [exact Hdone|exact Hlogs].
Defined.

(** ** The pages *)

Import Types PageTerms.

Section SortedTasks.
Let cmp (a b : Task) : Z :=
  if Bool.eqb (completed a) (completed b) then 0
  else if completed a then 1 else -1.

Lemma insert_open_task (x : Task) (l : list Task) :
  completed x = false -> JS.insert_by cmp x l = x :: l.
Proof.
  intros Hx. destruct l as [|y l]; [reflexivity|].
  cbn [JS.insert_by]. unfold cmp. rewrite Hx.
  now destruct (completed y).
Qed.

Lemma insert_completed_task (x : Task) (open done : list Task) :
  completed x = true ->
  (forall a, In a open -> completed a = false) ->
  (forall b, In b done -> completed b = true) ->
  JS.insert_by cmp x (open ++ done) = open ++ x :: done.
Proof.
  intros Hx Hopen Hdone. induction open as [|a open IH].
  - destruct done as [|y done]; [reflexivity|].
    cbn [app JS.insert_by]. unfold cmp.
    now rewrite Hx, (Hdone y (or_introl eq_refl)).
  - cbn [app JS.insert_by]. unfold cmp at 1.
    rewrite Hx, (Hopen a (or_introl eq_refl)). cbn [Bool.eqb Z.leb Z.compare].
    f_equal. apply IH. intros b Hb. apply Hopen. now right.
Qed.
End SortedTasks.

Lemma setDate_forward (c : JS.clock) (t k : Z) :
  JS.setDate c t (JS.getDate c t + k) = t + k * JS.msPerDay.
Proof.
  replace (JS.getDate c t + k) with (JS.getDate c t - (- k)) by lia.
  rewrite setDate_back. lia.
Qed.

Lemma localDay_forward (c : JS.clock) (t k : Z) :
  JS.localDay c (t + k * JS.msPerDay) = JS.localDay c t + k.
Proof.
  unfold JS.localDay, JS.localTime, JS.msPerDay.
  replace (t + k * 86400000 + JS.tzOffset c)
    with (t + JS.tzOffset c + k * 86400000) by lia.
  apply Z.div_add. lia.
Qed.

Lemma getDay_forward (c : JS.clock) (t k : Z) :
  JS.getDay c (t + k * JS.msPerDay) = (JS.getDay c t + k) mod 7.
Proof.
  unfold JS.getDay. rewrite localDay_forward.
  rewrite Zplus_mod_idemp_l. f_equal. lia.
Qed.

Lemma monday_days (c : JS.clock) :
  Home.monday c = JS.now c + (- Home.todayWeekIndex c) * JS.msPerDay.
Proof.
  unfold Home.monday. rewrite setDate_back. lia.
Qed.

Lemma todayWeekIndex_spec (c : JS.clock) :
  0 <= Home.todayWeekIndex c <= 6
  /\ Home.todayWeekIndex c = (JS.getDay c (JS.now c) + 6) mod 7.
Proof.
  unfold Home.todayWeekIndex. pose proof (getDay_range c (JS.now c)) as Hg.
  destruct (Z.eqb_spec (JS.getDay c (JS.now c)) 0) as [E|E].
  - rewrite E. split; [lia|reflexivity].
  - split; [lia|].
    replace (JS.getDay c (JS.now c) + 6)
      with (JS.getDay c (JS.now c) - 1 + 1 * 7) by lia.
    rewrite Z.mod_add by lia. symmetry. apply Z.mod_small. lia.
Qed.

Lemma days_unfold (c : JS.clock) :
  Home.days c
  = map (week_entry c)
      [ ("周一", 0); ("周二", 1); ("周三", 2); ("周四", 3); ("周五", 4);
        ("周六", 5); ("周日", 6) ]%string.
Proof.
  unfold Home.days, Home.DAY_NAMES, week_entry.
  cbn [Home.map_index map Z.add Pos.add Pos.succ fst snd].
  now rewrite !setDate_forward.
Qed.

Lemma week_index (i : nat) (p : string * Z) :
  nth_error
    [ ("周一", 0); ("周二", 1); ("周三", 2); ("周四", 3); ("周五", 4);
      ("周六", 5); ("周日", 6) ]%string i = Some p ->
  snd p = Z.of_nat i.
Proof.
  intros Hp.
  do 7 (destruct i as [|i]; [now injection Hp as <-|]).
  destruct i; discriminate Hp.
Qed.

Import TaskService TaskTerms.

Lemma show_in_step (u : string) (s : App.State) (db : Tables)
    (l : list Task) :
  Permutation l (map App.rowToTask (own_tasks u db)) ->
  in_step u (App.show s u l) db.
Proof.
  intros Hl. split; [exact Hl|].
  unfold App.show. cbn [App.localStorage App.tasks].
  apply (Map_get_set_same String.eqb String.eqb_eq).
Qed.

Lemma Permutation_filter (A : Type) (f : A -> bool) (l l' : list A) :
  Permutation l l' -> Permutation (filter f l) (filter f l').
Proof.
  induction 1 as [|x l l' _ IH|x y l|l l' l'' _ IH1 _ IH2].
  - constructor.
  - cbn [filter]. destruct (f x); [now constructor|exact IH].
  - cbn [filter]. destruct (f x), (f y);
      try apply Permutation_refl. constructor.
  - now transitivity (filter f l').
Qed.

(** The three things a service call on [tasks] can leave behind. *)
Lemma toggleTask_cases (c : JS.clock) (srv : server) (net : transport)
    (db : Tables) (id u : string) (b : bool) :
  (exists msg, TaskService.toggleTask c srv net db id u b = (Rejected msg, db))
  \/ (exists t db',
        filter (is_task id u) (tasks db) = [t]
        /\ TaskService.toggleTask c srv net db id u b
           = (Resolved (toggled srv (JS.now c) b t), db')
        /\ tasks db'
           = map (fun r => if is_task id u r
                           then toggled srv (JS.now c) b r else r) (tasks db)).
Proof.
  unfold TaskService.toggleTask. destruct (net t_tasks) as [e|].
  - left. eexists. reflexivity.
  - destruct (filter (is_task id u) (tasks db)) as [|t [|t' l]] eqn:E.
    + left. eexists. reflexivity.
    + right. exists t. eexists. split; [reflexivity|].
      cbn [single]. split; [reflexivity|].
      destruct b; [|reflexivity].
      unfold upsert_log. destruct (net t_habit_logs); [reflexivity|].
      destruct (existsb _ _); [reflexivity|].
      destruct (existsb _ _); reflexivity.
    + left. eexists. reflexivity.
Qed.

Lemma createTask_cases (srv : server) (net : transport) (db : Tables)
    (task : TaskInsert) :
  (exists msg, createTask srv net db task = (Rejected msg, db))
  \/ createTask srv net db task
     = (Resolved (inserted_task srv task),
        with_tasks db (tasks db ++ [inserted_task srv task])).
Proof.
  unfold createTask. destruct (net t_tasks) as [e|].
  - left. eexists. reflexivity.
  - destruct (negb _); [left; eexists; reflexivity|].
    destruct (existsb _ _); [left; eexists; reflexivity|].
    right. reflexivity.
Qed.

Lemma deleteTask_cases (net : transport) (db : Tables) (id u : string) :
  (exists msg, TaskService.deleteTask net db id u = (Rejected msg, db))
  \/ (exists db',
        TaskService.deleteTask net db id u = (Resolved tt, db')
        /\ tasks db' = other_tasks id u db).
Proof.
  unfold TaskService.deleteTask. destruct (net t_tasks) as [e|].
  - left. eexists. reflexivity.
  - right. eexists. split; reflexivity.
Qed.

(** The owner's rows after a toggle, as tasks of the list. *)
Lemma shown_after_toggle (srv : server) (now : Z) (b : bool) (id u : string)
    (rows : list Tasks.Row) :
  map App.rowToTask
    (filter (fun t => (Tasks.user_id t =? u)%string)
       (map (fun r => if is_task id u r then toggled srv now b r else r) rows))
  = map (fun t => if (Types.id t =? id)%string
                  then App.with_completed t b else t)
      (map App.rowToTask (filter (fun t => (Tasks.user_id t =? u)%string) rows)).
Proof.
  induction rows as [|r rows IH]; [reflexivity|].
  cbn [map]. unfold is_task at 1.
  destruct (Tasks.user_id r =? u)%string eqn:Eu.
  - rewrite andb_true_r.
    destruct (Tasks.id r =? id)%string eqn:Ei; cbn [filter].
    + cbn [Tasks.user_id toggled]. rewrite Eu. cbn [map].
      rewrite IH. f_equal.
      cbn [App.rowToTask Types.id]. now rewrite Ei.
    + rewrite Eu. cbn [map]. rewrite IH. f_equal.
      cbn [App.rowToTask Types.id]. now rewrite Ei.
  - rewrite andb_false_r. cbn [filter]. rewrite Eu. exact IH.
Qed.

(** The owner's rows after a delete, as tasks of the list. *)
Lemma shown_after_delete (id u : string) (rows : list Tasks.Row) :
  map App.rowToTask
    (filter (fun t => (Tasks.user_id t =? u)%string)
       (filter (fun r => negb (is_task id u r)) rows))
  = filter (fun t => negb (Types.id t =? id)%string)
      (map App.rowToTask (filter (fun t => (Tasks.user_id t =? u)%string) rows)).
Proof.
  induction rows as [|r rows IH]; [reflexivity|].
  cbn [filter]. unfold is_task at 1.
  destruct (Tasks.user_id r =? u)%string eqn:Eu.
  - rewrite andb_true_r. cbn [map filter App.rowToTask Types.id].
    destruct (Tasks.id r =? id)%string eqn:Ei; cbn [negb filter].
    + exact IH.
    + rewrite Eu. cbn [map]. now rewrite IH.
  - rewrite andb_false_r. cbn [negb filter]. rewrite Eu. exact IH.
Qed.

(** A list without two tasks of one id: putting the task found back in
    front of the others gives the tasks of the list. *)
Lemma restored_list (id' : string) (l : list Task) (t : Task) :
  NoDup (map Types.id l) ->
  find (fun x => (Types.id x =? id')%string) l = Some t ->
  Permutation (t :: filter (fun x => negb (Types.id x =? id')%string) l) l.
Proof.
  induction l as [|x l IH]; intros Hnd Hfind; [discriminate Hfind|].
  cbn [find] in Hfind. cbn [filter].
  cbn [map] in Hnd. apply NoDup_cons_iff in Hnd. destruct Hnd as [Hx Hnd].
  destruct (Types.id x =? id')%string eqn:E.
  - injection Hfind as <-. cbn [negb]. constructor.
    rewrite filter_all; [apply Permutation_refl|].
    intros y Hy. destruct (Types.id y =? id')%string eqn:Ey; [|reflexivity].
    apply String.eqb_eq in E, Ey. exfalso. apply Hx.
    rewrite E, <- Ey. now apply in_map.
  - cbn [negb]. etransitivity; [apply perm_swap|].
    constructor. now apply IH.
Qed.

Lemma find_none_all (id' : string) (l : list Task) :
  find (fun x => (Types.id x =? id')%string) l = None ->
  filter (fun x => negb (Types.id x =? id')%string) l = l.
Proof.
  intros Hfind. apply filter_all. intros x Hx.
  now rewrite (find_none _ _ Hfind x Hx).
Qed.

Lemma NoDup_map_filter (A B : Type) (g : A -> B) (f : A -> bool)
    (l : list A) :
  NoDup (map g l) -> NoDup (map g (filter f l)).
Proof.
  induction l as [|x l IH]; intros Hnd; [constructor|].
  cbn [map] in Hnd. apply NoDup_cons_iff in Hnd. destruct Hnd as [Hx Hnd].
  cbn [filter]. destruct (f x); [|now apply IH].
  cbn [map]. constructor; [|now apply IH].
  intros Hin. apply Hx. apply in_map_iff in Hin.
  destruct Hin as (y & Hy & Hin). apply filter_In in Hin.
  rewrite <- Hy. apply in_map. now destruct Hin.
Qed.

(** X23: the Home page lists the open tasks first.  [sortedTasks] is the
    tasks that are not completed, in the order of the list, followed by the
    completed ones, in the order of the list: the sort is a stable
    partition. *)
Theorem sortedTasks_is_stable_partition (tasks : list Task) :
  Home.sortedTasks tasks
  = filter (fun t => negb (completed t)) tasks ++ filter completed tasks.
Proof.
  unfold Home.sortedTasks. induction tasks as [|x l IH]; [reflexivity|].
  cbn [JS.Array_sort filter]. rewrite IH.
  destruct (completed x) eqn:Hx; cbn [negb].
  - apply insert_completed_task; [exact Hx| |].
    + intros a Ha. apply filter_In in Ha. destruct Ha as [_ Ha].
      now destruct (completed a).
    + intros b Hb. apply filter_In in Hb. now destruct Hb.
  - now apply insert_open_task.
Qed.


(** X25: the first load shows the tasks of the database.  When the
    request succeeds, the list on the screen is the rows [getTodayTasks]
    returned, in their order (newest first), it is written to the cache,
    and list and database are in step; when it fails, the cached list, if
    there is one, stays on the screen. *)
Theorem sync_shows_own_tasks (net : transport) (u : string) (s : App.State)
    (db : Tables) :
  (net t_tasks = None ->
   exists rows,
     getTodayTasks net db u = Resolved rows
     /\ App.tasks (App.sync net (Some u) s db) = map App.rowToTask rows
     /\ StronglySorted
          (fun a b => Tasks.created_at b <= Tasks.created_at a) rows
     /\ in_step u (App.sync net (Some u) s db) db)
  /\ (forall e cached,
        net t_tasks = Some e ->
        JS.Map_get String.eqb (App.localStorage s) (App.getTaskCacheKey u)
        = Some cached ->
        App.tasks (App.sync net (Some u) s db) = cached
        /\ App.localStorage (App.sync net (Some u) s db)
           = App.localStorage s).
Proof.
  split.
  - intros Hnet. eexists. split; [now apply getTodayTasks_online|].
    unfold App.sync. rewrite (@getTodayTasks_online net db u Hnet).
    split; [reflexivity|].
    split; [apply (Array_sort_desc Tasks.created_at)|].
    apply show_in_step. apply Permutation_map, Array_sort_perm.
  - intros e cached Hnet Hcache. unfold App.sync, getTodayTasks, request.
    rewrite Hnet, Hcache. cbn [error]. split; reflexivity.
Qed.

Lemma sync_shows_own_tasks_witness :
  exists rows,
    getTodayTasks online TaskSamples.habits_db "u" = Resolved rows
    /\ App.tasks (App.sync online (Some "u"%string) PageSamples.shown
                    TaskSamples.habits_db)
       = map App.rowToTask rows
    /\ map Tasks.id rows = ["d"; "b"; "a"]%string.
Proof.
  destruct (proj1 (@sync_shows_own_tasks online "u" PageSamples.shown
                     TaskSamples.habits_db) eq_refl)
    as (rows & Hrun & Hshown & _).
  exists rows. split; [exact Hrun|]. split; [exact Hshown|].
  assert (H : Resolved rows
              = Resolved
                  [ TaskSamples.task_at "u" "d" false 300;
                    TaskSamples.task_at "u" "b" true 200;
                    TaskSamples.task_at "u" "a" false 100 ])
    by (rewrite <- Hrun; vm_compute; reflexivity).
  injection H as ->. reflexivity.
Defined.

(** X26: ticking a task keeps the list and the database in step.  From a
    list in step with the database, [toggleTask] of the page ends in step
    again, whether the service succeeds (the task has the new state in the
    list and in the database) or fails (the list is put back as it was, and
    the database is unchanged); an id that is not in the list does
    nothing. *)
Theorem toggle_keeps_list_in_step (c : JS.clock) (srv : server)
    (net : transport) (u : string) (s : App.State) (db : Tables)
    (id' : string) (s' : App.State) (db' : Tables) :
  in_step u s db ->
  App.toggleTask c srv net (Some u) s db id' = (s', db') ->
  in_step u s' db'
  /\ (find (fun t => (Types.id t =? id')%string) (App.tasks s) = None ->
      s' = s /\ db' = db)
  /\ (forall task msg,
        find (fun t => (Types.id t =? id')%string) (App.tasks s) = Some task ->
        TaskService.toggleTask c srv net db id' u (negb (completed task))
        = (Rejected msg, db) ->
        App.tasks s' = App.tasks s /\ db' = db)
  /\ (forall task r db1,
        find (fun t => (Types.id t =? id')%string) (App.tasks s) = Some task ->
        TaskService.toggleTask c srv net db id' u (negb (completed task))
        = (Resolved r, db1) ->
        db' = db1
        /\ Tasks.completed r = negb (completed task)
        /\ App.tasks s'
           = map (fun t => if (Types.id t =? id')%string
                           then App.with_completed t (negb (completed task))
                           else t) (App.tasks s)).
Proof.
  intros [Hperm Hcache] Hrun. unfold App.toggleTask in Hrun.
  destruct (find _ (App.tasks s)) as [task|] eqn:Hfind.
  - destruct (@toggleTask_cases c srv net db id' u (negb (completed task)))
      as [[msg E]|(t & db1 & Hrow & E & Htasks)];
      rewrite E in Hrun; injection Hrun as <- <-.
    + split; [now apply show_in_step|].
      split; [discriminate|].
      split; [intros task' msg' _ _; split; reflexivity|].
      intros task' r db1 Htask Hr. injection Htask as <-.
      rewrite E in Hr. discriminate Hr.
    + split.
      { apply show_in_step. unfold own_tasks. rewrite Htasks.
        rewrite shown_after_toggle. now apply Permutation_map. }
      split; [discriminate|].
      split.
      { intros task' msg Htask Hr. injection Htask as <-.
        rewrite E in Hr. discriminate Hr. }
      intros task' r db2 Htask Hr. injection Htask as <-.
      rewrite E in Hr. injection Hr as <- <-.
      split; [reflexivity|]. split; reflexivity.
  - injection Hrun as <- <-.
    split; [now split|]. split; [now split|].
    split; intros; discriminate.
Qed.

Lemma toggle_keeps_list_in_step_witness :
  exists s' db',
    App.toggleTask Samples.clk TaskSamples.server online (Some "u"%string)
      PageSamples.shown TaskSamples.habits_db "a" = (s', db')
    /\ in_step "u" s' db'
    /\ map completed (App.tasks s') = [true; true; false].
Proof.
  eexists _, _. split; [vm_compute; reflexivity|].
  split; [|reflexivity].
  apply (@toggle_keeps_list_in_step Samples.clk TaskSamples.server online
           "u" PageSamples.shown TaskSamples.habits_db "a" _ _
           (conj (Permutation_refl _) eq_refl) eq_refl).
Defined.

(** X27: deleting a task keeps the list and the database in step.  From a
    list in step with the database and without two tasks of one id,
    [deleteTask] of the page ends in step again, with a list of the same
    kind: when the service succeeds
    the task is in neither; when it fails the database is unchanged and the
    task is put back, at the head of the list and no longer at its
    place. *)
Theorem delete_keeps_list_in_step (net : transport) (u : string)
    (s : App.State) (db : Tables) (id' : string) (s' : App.State)
    (db' : Tables) :
  in_step u s db ->
  NoDup (map Types.id (App.tasks s)) ->
  App.deleteTask net (Some u) s db id' = (s', db') ->
  in_step u s' db'
  /\ NoDup (map Types.id (App.tasks s'))
  /\ (net t_tasks = None ->
      App.tasks s'
      = filter (fun t => negb (Types.id t =? id')%string) (App.tasks s)
      /\ ~ In id' (map Types.id (App.tasks s'))
      /\ tasks db' = other_tasks id' u db)
  /\ (forall e t,
        net t_tasks = Some e ->
        find (fun t => (Types.id t =? id')%string) (App.tasks s) = Some t ->
        db' = db
        /\ App.tasks s'
           = t :: filter (fun t => negb (Types.id t =? id')%string)
                    (App.tasks s)).
Proof.
  intros [Hperm Hcache] Hnd Hrun. unfold App.deleteTask in Hrun.
  assert (Hstep : in_step u s' db').
  { destruct (@deleteTask_cases net db id' u)
      as [[msg E]|(db1 & E & Htasks)]; rewrite E in Hrun.
    - destruct (find _ (App.tasks s)) as [t|] eqn:Hfind;
        injection Hrun as <- <-; apply show_in_step.
      + etransitivity; [|exact Hperm]. now apply restored_list.
      + now rewrite (find_none_all _ _ Hfind).
    - injection Hrun as <- <-. apply show_in_step.
      unfold own_tasks. rewrite Htasks. unfold other_tasks.
      rewrite shown_after_delete. now apply Permutation_filter. }
  split; [exact Hstep|].
  split.
  { destruct (TaskService.deleteTask net db id' u) as [[[]|msg] db1].
    - injection Hrun as <- _. now apply NoDup_map_filter.
    - destruct (find _ (App.tasks s)) as [t|] eqn:Hfind;
        injection Hrun as <- _; cbn [App.tasks App.show].
      + apply (Permutation_NoDup
                 (Permutation_map Types.id
                    (Permutation_sym (@restored_list id' _ t Hnd Hfind)))).
        exact Hnd.
      + now apply NoDup_map_filter. }
  split.
  - intros Hnet. rewrite (@deleteTask_online net db id' u Hnet) in Hrun.
    injection Hrun as <- <-. cbn [App.tasks App.show tasks].
    split; [reflexivity|]. split; [|reflexivity].
    intros Hin. apply in_map_iff in Hin. destruct Hin as (t & Hid & Hin).
    apply filter_In in Hin. destruct Hin as [_ Hne].
    rewrite Hid, String.eqb_refl in Hne. discriminate Hne.
  - intros e t Hnet Hfind. unfold TaskService.deleteTask in Hrun.
    rewrite Hnet, Hfind in Hrun. injection Hrun as <- <-.
    split; reflexivity.
Qed.

Lemma delete_keeps_list_in_step_witness :
  exists s' db',
    App.deleteTask PageSamples.offline (Some "u"%string) PageSamples.shown
      TaskSamples.habits_db "b" = (s', db')
    /\ in_step "u" s' db'
    /\ map Types.id (App.tasks PageSamples.shown) = ["a"; "b"; "d"]%string
    /\ map Types.id (App.tasks s') = ["b"; "a"; "d"]%string.
Proof.
  assert (Hnd : NoDup (map Types.id (App.tasks PageSamples.shown))).
  { cbn. repeat constructor; cbn; intros H;
      repeat (destruct H as [H|H]; [discriminate H|]); exact H. }
  eexists _, _. split; [vm_compute; reflexivity|].
  split; [|split; reflexivity].
  apply (@delete_keeps_list_in_step PageSamples.offline "u" PageSamples.shown
           TaskSamples.habits_db "b" _ _
           (conj (Permutation_refl _) eq_refl) Hnd eq_refl).
Defined.

(** X28: adding a task keeps the list and the database in step, and
    stores a daily task.  From a list in step with the database, for a new
    task whose temporary id is not in the list, [addTask] of the page ends in
    step again: when the service succeeds the task heads the list under the
    id the database gave it, and the row stored is a daily one, for Monday
    to Friday, with a reminder at 08:30, whatever the task; when it fails
    the list is the one of before. *)
Theorem add_keeps_list_in_step (srv : server) (net : transport) (u : string)
    (s : App.State) (db : Tables) (task : Task) (s' : App.State)
    (db' : Tables) :
  in_step u s db ->
  ~ In (Types.id task) (map Types.id (App.tasks s)) ->
  App.addTask srv net (Some u) s db task = (s', db') ->
  in_step u s' db'
  /\ ((App.tasks s' = App.tasks s /\ db' = db)
      \/ (exists created,
            tasks db' = tasks db ++ [created]
            /\ App.tasks s'
               = App.with_id task (Tasks.id created) :: App.tasks s
            /\ App.rowToTask created = App.with_id task (Tasks.id created)
            /\ Tasks.user_id created = u
            /\ (Tasks.frequency created, Tasks.selected_days created,
                Tasks.reminder_enabled created, Tasks.reminder_time created)
               = (daily, [0; 1; 2; 3; 4], true, "08:30"%string))).
Proof.
  intros [Hperm Hcache] Hfresh Hrun. unfold App.addTask in Hrun.
  assert (Hothers : forall l,
             ~ In (Types.id task) (map Types.id l) ->
             forall f, map (fun t => if (Types.id t =? Types.id task)%string
                                     then f t else t) l = l).
  { intros l Hl f. rewrite <- (map_id l) at 2. apply map_ext_in.
    intros t Ht. destruct (Types.id t =? Types.id task)%string eqn:E;
      [|reflexivity].
    apply String.eqb_eq in E. exfalso. apply Hl. rewrite <- E.
    now apply in_map. }
  match type of Hrun with
  | context [createTask srv net db ?ins] =>
      destruct (@createTask_cases srv net db ins) as [[msg E]|E];
        rewrite E in Hrun; injection Hrun as <- <-
  end.
  - assert (Hback : filter (fun t => negb (Types.id t =? Types.id task)%string)
                      (App.tasks s) = App.tasks s).
    { apply filter_all. intros t Ht.
      destruct (Types.id t =? Types.id task)%string eqn:Et; [|reflexivity].
      apply String.eqb_eq in Et. exfalso. apply Hfresh. rewrite <- Et.
      now apply in_map. }
    cbn [App.tasks App.show]. rewrite Hback.
    split; [now apply show_in_step|]. left. split; reflexivity.
  - cbn [App.tasks App.show map]. rewrite String.eqb_refl.
    rewrite (Hothers _ Hfresh).
    split.
    + apply show_in_step. unfold own_tasks. cbn [tasks with_tasks].
      rewrite filter_app. cbn [filter Tasks.user_id inserted_task ins_user_id].
      rewrite String.eqb_refl, map_app. cbn [map].
      etransitivity; [|apply Permutation_app_comm]. cbn [app].
      constructor. exact Hperm.
    + right. eexists. split; [reflexivity|].
      split; [reflexivity|]. split; [reflexivity|]. split; reflexivity.
Qed.

Lemma add_keeps_list_in_step_witness :
  exists s' db',
    App.addTask TaskSamples.server online (Some "u"%string) PageSamples.shown
      TaskSamples.habits_db PageSamples.draft = (s', db')
    /\ in_step "u" s' db'
    /\ map Types.id (App.tasks s') = ["id-9"; "a"; "b"; "d"]%string.
Proof.
  assert (Hfresh : ~ In (Types.id PageSamples.draft)
                     (map Types.id (App.tasks PageSamples.shown))).
  { cbn. intros H. repeat (destruct H as [H|H]; [discriminate H|]). exact H. }
  eexists _, _. split; [vm_compute; reflexivity|].
  split; [|reflexivity].
  apply (@add_keeps_list_in_step TaskSamples.server online "u"
           PageSamples.shown TaskSamples.habits_db PageSamples.draft _ _
           (conj (Permutation_refl _) eq_refl) Hfresh eq_refl).
Defined.

Import FocusLog ProfileService ProfileService.UserProfiles ProfileTerms.


